(** * libsevenzip: the Python bindings of the archive engine

    A shallow embedding of [examples/python/sevenzip.py] (the [Archive] reader,
    the [Writer], the facade functions [extract_archive] and [create_archive])
    and of [examples/python/sevenzip_ffi.py] (its enumerations,
    [_check_result], the methods of [class SevenZip] and the two module-level
    functions).

    Conventions of the embedding.
    - A Python [str] is a [string] held in its UTF-8 form, a Python [bytes] is
      a [list byte].  [encode] gives the bytes of a [str]; [decode] gives the
      text of bytes that are well-formed UTF-8, and [decode_utf8] is
      [bytes.decode('utf-8')], which raises on any others.
    - A Python [int], and every ctypes integer as Python sees it, is a [Z].
      An index handed to a [c_size_t] parameter is taken to be in its range
      (ctypes would reduce it modulo 2^64), and [ctypes.string_at] is taken
      to succeed.
    - The native library behind [_lib] is not part of the bindings.  It is a
      record of oracles: each native function answers from the history of all
      calls made so far and from its arguments, so nothing is assumed about
      the engine beyond determinism.  The file system is handled likewise.
    - A Python computation over a state [S] is a function
      [S -> Outcome A * S]: it returns or raises, and the state it leaves
      behind is kept in both cases.  For a method the state is the receiving
      object paired with the history. *)

From Stdlib Require Import ZArith QArith List String Ascii Bool Lia.
From stdpp Require Import base option list strings pretty gmap.
Import ListNotations.

Local Open Scope string_scope.
Local Open Scope list_scope.
Local Open Scope Z_scope.

(** ** Strings and bytes *)

Abbreviation bytes := (list Byte.byte).

(** [s.encode('utf-8')] on text kept in UTF-8 form, and the text that bytes
    in well-formed UTF-8 hold. *)
Definition encode (s : string) : bytes := list_byte_of_string s.
Definition decode (b : bytes) : string := string_of_list_byte b.

(** Well-formed UTF-8, as the strict decoder of Python takes it (the
    Unicode standard, table 3-7): no truncated or overlong sequence, no
    surrogate, nothing above U+10FFFF. *)
Definition continuation (b : N) : bool := ((128 <=? b) && (b <=? 191))%N.

Definition second_of_three (b0 b1 : N) : bool :=
  (if b0 =? 224 then (160 <=? b1) && (b1 <=? 191)
   else if b0 =? 237 then (128 <=? b1) && (b1 <=? 159)
   else continuation b1)%N.

Definition second_of_four (b0 b1 : N) : bool :=
  (if b0 =? 240 then (144 <=? b1) && (b1 <=? 191)
   else if b0 =? 244 then (128 <=? b1) && (b1 <=? 143)
   else continuation b1)%N.

Fixpoint well_formed (l : list N) : bool :=
  match l with
  | [] => true
  | b0 :: r0 =>
      if (b0 <=? 127)%N then well_formed r0
      else
        match r0 with
        | [] => false
        | b1 :: r1 =>
            if ((194 <=? b0) && (b0 <=? 223))%N then
              continuation b1 && well_formed r1
            else
              match r1 with
              | [] => false
              | b2 :: r2 =>
                  if ((224 <=? b0) && (b0 <=? 239))%N then
                    second_of_three b0 b1 && continuation b2 && well_formed r2
                  else
                    match r2 with
                    | [] => false
                    | b3 :: r3 =>
                        ((240 <=? b0) && (b0 <=? 244))%N
                        && second_of_four b0 b1 && continuation b2
                        && continuation b3 && well_formed r3
                    end
              end
        end
  end.

Definition utf8_valid (b : bytes) : bool := well_formed (List.map Byte.to_N b).

(** [str.lower()] on ASCII letters.  The keys of the mapping tables of the
    bindings are ASCII and without the letter k.  The only characters outside
    ASCII whose lower-case form holds an ASCII letter are U+212A (which gives
    k) and U+0130 (which gives i and a combining dot), so a name lowers to a
    key under Python's [lower] exactly when it does under this one. *)
Definition lower_ascii (c : ascii) : ascii :=
  let n := nat_of_ascii c in
  if (65 <=? n)%nat && (n <=? 90)%nat then ascii_of_nat (n + 32) else c.

Fixpoint lower (s : string) : string :=
  match s with
  | EmptyString => EmptyString
  | String c r => String (lower_ascii c) (lower r)
  end.

(** [str.upper()] on ASCII letters.  It is Python's [upper] on a string made
    of ASCII characters only; outside ASCII Python's may produce ASCII
    letters of its own (U+017F gives S, U+0131 gives I), so the statements
    that depend on a name not being found take the name to be ASCII. *)
Definition upper_ascii (c : ascii) : ascii :=
  let n := nat_of_ascii c in
  if (97 <=? n)%nat && (n <=? 122)%nat then ascii_of_nat (n - 32) else c.

Fixpoint upper (s : string) : string :=
  match s with
  | EmptyString => EmptyString
  | String c r => String (upper_ascii c) (upper r)
  end.

(** [s.isascii()] *)
Fixpoint is_ascii (s : string) : bool :=
  match s with
  | EmptyString => true
  | String c r => (nat_of_ascii c <? 128)%nat && is_ascii r
  end.

(** ** Python computations: outcomes, state, exceptions *)

Inductive Outcome (E A : Type) : Type :=
| Returns (a : A)
| Raises (e : E).
Arguments Returns {E A} a.
Arguments Raises {E A} e.

Definition Py (E S A : Type) : Type := S -> Outcome E A * S.

Definition ret {E S A} (a : A) : Py E S A := fun s => (Returns a, s).

Definition raise {E S A} (e : E) : Py E S A := fun s => (Raises e, s).

Definition bind {E S A B} (m : Py E S A) (k : A -> Py E S B) : Py E S B :=
  fun s =>
    match m s with
    | (Returns a, s') => k a s'
    | (Raises e, s') => (Raises e, s')
    end.

Notation "x <- m ;; k" := (bind m (fun x => k))
  (at level 20, m at level 99, k at level 200, only parsing).
Notation "' pat <- m ;; k" := (bind m (fun x => match x with pat => k end))
  (at level 20, pat pattern, m at level 99, k at level 200, only parsing).
Notation "m ;;; k" := (bind m (fun _ => k))
  (at level 100, k at level 200, right associativity, only parsing).

(** [try: body finally: fin].  The [finally] block always runs; what it
    raises replaces the outcome of the body. *)
Definition try_finally {E S A} (body : Py E S A) (fin : Py E S unit) : Py E S A :=
  fun s =>
    match body s with
    | (r, s1) =>
        match fin s1 with
        | (Returns _, s2) => (r, s2)
        | (Raises e, s2) => (Raises e, s2)
        end
    end.

(** [with obj: body], for a context manager whose [__enter__] returns the
    object itself.  [__exit__] receives the pending exception, if any; a
    true result suppresses it. *)
Definition with_stmt {E S} (__exit__ : option E -> Py E S bool) (body : Py E S unit)
  : Py E S unit :=
  fun s =>
    match body s with
    | (Returns _, s1) =>
        match __exit__ None s1 with
        | (Returns _, s2) => (Returns tt, s2)
        | (Raises e', s2) => (Raises e', s2)
        end
    | (Raises e, s1) =>
        match __exit__ (Some e) s1 with
        | (Returns suppress, s2) =>
            if suppress then (Returns tt, s2) else (Raises e, s2)
        | (Raises e', s2) => (Raises e', s2)
        end
    end.

(** A computation on the history alone, run where the state also holds an
    object, and a computation on a local object, run on the history alone. *)
Definition on_world {E O W A} (m : Py E W A) : Py E (O * W) A :=
  fun s =>
    match m (snd s) with
    | (r, w') => (r, (fst s, w'))
    end.

Definition with_object {E O W A} (o : O) (m : Py E (O * W) A) : Py E W A :=
  fun w =>
    match m (o, w) with
    | (r, s') => (r, snd s')
    end.

Definition get_self {E O W} : Py E (O * W) O := fun s => (Returns (fst s), s).

Definition set_self {E O W} (o : O) : Py E (O * W) unit :=
  fun s => (Returns tt, (o, snd s)).

(** A call that leaves the event [ev] in the history and whose answer is
    read off the history before it. *)
Definition call {E Ev A} (ev : Ev) (answer : list Ev -> A) : Py E (list Ev) A :=
  fun h => (Returns (answer h), h ++ [ev]).

(** [b.decode('utf-8')]: the text of well-formed bytes; on any others the
    exception [err], which stands for [UnicodeDecodeError]. *)
Definition decode_utf8 {E S} (err : E) (b : bytes) : Py E S string :=
  if utf8_valid b then ret (decode b) else raise err.

(** Python values stored in the dictionaries the bindings return.  A float
    is kept as the rational it rounds: [PyFloat q] is the double nearest to
    [q]. *)
Inductive PyValue :=
| PyStr (s : string)
| PyInt (z : Z)
| PyFloat (q : Q)
| PyBool (b : bool)
| PyNone.

(** ** The part of [pathlib] the bindings use (POSIX flavour)

    A path is kept parsed, as [pathlib] keeps it: a root and the list of its
    components, with empty components and [.] dropped. *)
Module pathlib.

Record Path := { root : string; tail : list string }.

(** [s.split('/')] *)
Fixpoint split (s : string) : list string :=
  match s with
  | EmptyString => [EmptyString]
  | String c r =>
      if Ascii.eqb c "/" then EmptyString :: split r
      else match split r with
           | x :: xs => String c x :: xs
           | [] => [String c EmptyString]
           end
  end.

(** [posixpath.splitroot]: one leading slash or three and more make the
    root [/], exactly two make the root [//]. *)
Definition splitroot (p : string) : string * string :=
  match p with
  | String "/" (String "/" (String "/" r)) => ("/", String "/" (String "/" r))
  | String "/" (String "/" r) => ("//", r)
  | String "/" r => ("/", r)
  | _ => ("", p)
  end.

Definition is_component (x : string) : bool :=
  negb (String.eqb x "") && negb (String.eqb x ".").

Definition components (rel : string) : list string :=
  List.filter is_component (split rel).

(** [Path(s)] *)
Definition of_str (s : string) : Path :=
  let '(r, rel) := splitroot s in {| root := r; tail := components rel |}.

Fixpoint join_sep (l : list string) : string :=
  match l with
  | [] => ""
  | [x] => x
  | x :: xs => x +:+ "/" +:+ join_sep xs
  end.

(** [str(p)] *)
Definition to_str (p : Path) : string :=
  if String.eqb (root p) "" then
    match tail p with [] => "." | _ => join_sep (tail p) end
  else root p +:+ join_sep (tail p).

(** [p.name]: the final component, empty when there is none. *)
Definition name (p : Path) : string := List.last (tail p) "".

(** [p.parent] *)
Definition parent (p : Path) : Path :=
  match tail p with
  | [] => p
  | _ => {| root := root p; tail := List.removelast (tail p) |}
  end.

Definition is_absolute_str (s : string) : bool :=
  match s with String "/" _ => true | _ => false end.

(** [p / key]: an absolute [key] replaces [p], a relative one is appended. *)
Definition truediv (p : Path) (key : string) : Path :=
  if is_absolute_str key then of_str key
  else {| root := root p; tail := tail p ++ components key |}.

(** [p.absolute()] in the working directory [cwd]. *)
Definition absolute (cwd : Path) (p : Path) : Path :=
  if String.eqb (root p) "" then {| root := root cwd; tail := tail cwd ++ tail p |}
  else p.

End pathlib.

(** ** [sevenzip_ffi.py] *)
Module sevenzip_ffi.

Inductive SzResult :=
  | OK | FAIL | OUT_OF_MEMORY | INVALID_ARGUMENT | FILE_NOT_FOUND
  | ACCESS_DENIED | UNSUPPORTED_FORMAT | CORRUPTED_ARCHIVE | WRONG_PASSWORD
  | NOT_IMPLEMENTED | ABORTED | DISK_FULL | INTERNAL_ERROR | BUSY
  | INVALID_STATE.

Definition SzResult_members : list SzResult :=
  [OK; FAIL; OUT_OF_MEMORY; INVALID_ARGUMENT; FILE_NOT_FOUND; ACCESS_DENIED;
   UNSUPPORTED_FORMAT; CORRUPTED_ARCHIVE; WRONG_PASSWORD; NOT_IMPLEMENTED;
   ABORTED; DISK_FULL; INTERNAL_ERROR; BUSY; INVALID_STATE].

Definition SzResult_value (r : SzResult) : Z :=
  match r with
  | OK => 0 | FAIL => 1 | OUT_OF_MEMORY => 2 | INVALID_ARGUMENT => 3
  | FILE_NOT_FOUND => 4 | ACCESS_DENIED => 5 | UNSUPPORTED_FORMAT => 6
  | CORRUPTED_ARCHIVE => 7 | WRONG_PASSWORD => 8 | NOT_IMPLEMENTED => 9
  | ABORTED => 10 | DISK_FULL => 11 | INTERNAL_ERROR => 12 | BUSY => 13
  | INVALID_STATE => 14
  end.

Definition SzResult_name (r : SzResult) : string :=
  match r with
  | OK => "OK" | FAIL => "FAIL" | OUT_OF_MEMORY => "OUT_OF_MEMORY"
  | INVALID_ARGUMENT => "INVALID_ARGUMENT"
  | FILE_NOT_FOUND => "FILE_NOT_FOUND" | ACCESS_DENIED => "ACCESS_DENIED"
  | UNSUPPORTED_FORMAT => "UNSUPPORTED_FORMAT"
  | CORRUPTED_ARCHIVE => "CORRUPTED_ARCHIVE"
  | WRONG_PASSWORD => "WRONG_PASSWORD" | NOT_IMPLEMENTED => "NOT_IMPLEMENTED"
  | ABORTED => "ABORTED" | DISK_FULL => "DISK_FULL"
  | INTERNAL_ERROR => "INTERNAL_ERROR" | BUSY => "BUSY"
  | INVALID_STATE => "INVALID_STATE"
  end.

Inductive SzFormat := AUTO | SEVENZIP | ZIP | TAR | GZIP | BZIP2 | XZ.

Definition SzFormat_members : list SzFormat :=
  [AUTO; SEVENZIP; ZIP; TAR; GZIP; BZIP2; XZ].

Definition SzFormat_value (f : SzFormat) : Z :=
  match f with
  | AUTO => 0 | SEVENZIP => 1 | ZIP => 2 | TAR => 3 | GZIP => 4
  | BZIP2 => 5 | XZ => 6
  end.

Definition SzFormat_name (f : SzFormat) : string :=
  match f with
  | AUTO => "AUTO" | SEVENZIP => "SEVENZIP" | ZIP => "ZIP" | TAR => "TAR"
  | GZIP => "GZIP" | BZIP2 => "BZIP2" | XZ => "XZ"
  end.

(** [Enum(value)] and [Enum[name]]: the member with that value or name. *)
Definition SzResult_of_value (v : Z) : option SzResult :=
  List.find (fun r => Z.eqb (SzResult_value r) v) SzResult_members.
Definition SzResult_of_name (n : string) : option SzResult :=
  List.find (fun r => String.eqb (SzResult_name r) n) SzResult_members.
Definition SzFormat_of_value (v : Z) : option SzFormat :=
  List.find (fun f => Z.eqb (SzFormat_value f) v) SzFormat_members.
Definition SzFormat_of_name (n : string) : option SzFormat :=
  List.find (fun f => String.eqb (SzFormat_name f) n) SzFormat_members.

(** The structure [sz_archive_get_info] fills. *)
Record _SzArchiveInfo := {
    format : Z;
    item_count : Z;
    total_size : Z;
    packed_size : Z;
    is_solid : Z;
    is_multi_volume : Z;
    has_encrypted_headers : Z
  }.

Inductive exn :=
  | SevenZipError (result : SzResult) (message : string)
  | ValueError (value : Z)
  | AttributeError
  | ZeroDivisionError
  | UnicodeDecodeError
  | ArgumentError.

Inductive Event :=
  | Call_archive_open (path : bytes)
  | Call_archive_get_info (handle : Z)
  | Call_archive_close (handle : Z)
  | Call_error_to_string (code : Z)
  | Call_get_last_error_message.

(** The native functions [get_archive_info] reaches.  A [c_char_p] result
    is [None] for a null pointer. *)
Record NativeLib := {
    sz_archive_open : list Event -> bytes -> Z * Z;
    sz_archive_get_info : list Event -> Z -> Z * _SzArchiveInfo;
    sz_error_to_string : list Event -> Z -> option bytes;
    sz_get_last_error_message : list Event -> option bytes
  }.

Definition M := Py exn (list Event).

(** [a / b] on Python integers. *)
Definition truediv (a b : Z) : M PyValue :=
  if b =? 0 then raise ZeroDivisionError
  else ret (PyFloat (inject_Z a / inject_Z b)).

Definition decode_char_p (r : option bytes) : M string :=
  match r with
  | Some b => decode_utf8 UnicodeDecodeError b
  | None => raise AttributeError
  end.

Section WithLib.
Context (_lib : NativeLib) (cwd : pathlib.Path).

(** [SevenZipError(result)] with the message left out. *)
Definition SevenZipError__init__ (result : SzResult) : M exn :=
  m <- call (Call_error_to_string (SzResult_value result))
         (fun h => sz_error_to_string _lib h (SzResult_value result)) ;;
  message <- decode_char_p m ;;
  d <- call Call_get_last_error_message (sz_get_last_error_message _lib) ;;
  detail <- decode_char_p d ;;
  ret (SevenZipError result
         (if String.eqb detail "" then message
          else message +:+ ": " +:+ detail)).

Definition _check_result (result : Z) : M unit :=
  if result =? SzResult_value OK then ret tt
  else
    match SzResult_of_value result with
    | None => raise (ValueError result)
    | Some r => e <- SevenZipError__init__ r ;; raise e
    end.

(** The dictionary [get_archive_info] builds from the structure. *)
Definition archive_info_dict (info : _SzArchiveInfo) : M (gmap string PyValue) :=
  match SzFormat_of_value (format info) with
  | None => raise (ValueError (format info))
  | Some f =>
      ratio <- (if 0 <? total_size info
                then truediv (packed_size info) (total_size info)
                else ret (PyInt 0)) ;;
      ret (<["format" := PyStr (lower (SzFormat_name f))]>
           (<["item_count" := PyInt (item_count info)]>
           (<["total_size" := PyInt (total_size info)]>
           (<["packed_size" := PyInt (packed_size info)]>
           (<["compression_ratio" := ratio]>
           (<["is_solid" := PyBool (negb (is_solid info =? 0))]>
           (<["is_multi_volume" := PyBool (negb (is_multi_volume info =? 0))]>
           (<["has_encrypted_headers" :=
                PyBool (negb (has_encrypted_headers info =? 0))]> ∅))))))))
  end.

Definition get_archive_info (archive_path : string) : M (gmap string PyValue) :=
  let archive_path :=
    encode (pathlib.to_str (pathlib.absolute cwd (pathlib.of_str archive_path))) in
  '(result, handle) <- call (Call_archive_open archive_path)
                         (fun h => sz_archive_open _lib h archive_path) ;;
  _check_result result ;;;
  try_finally
    ('(result, info) <- call (Call_archive_get_info handle)
                          (fun h => sz_archive_get_info _lib h handle) ;;
     _check_result result ;;;
     archive_info_dict info)
    (call (Call_archive_close handle) (fun _ => tt)).

End WithLib.

(** *** The rest of the module: [class SevenZip] and the two functions

    The remaining functions reach more of the engine than
    [get_archive_info] does, so they get the full list of the native
    functions [_setup_functions] declares. *)

Inductive SzCompressionLevel := STORE | FASTEST | FAST | NORMAL | MAXIMUM | ULTRA.

Definition SzCompressionLevel_members : list SzCompressionLevel :=
  [STORE; FASTEST; FAST; NORMAL; MAXIMUM; ULTRA].

Definition SzCompressionLevel_value (l : SzCompressionLevel) : Z :=
  match l with
  | STORE => 0 | FASTEST => 1 | FAST => 2 | NORMAL => 3 | MAXIMUM => 4
  | ULTRA => 5
  end.

Definition SzCompressionLevel_name (l : SzCompressionLevel) : string :=
  match l with
  | STORE => "STORE" | FASTEST => "FASTEST" | FAST => "FAST"
  | NORMAL => "NORMAL" | MAXIMUM => "MAXIMUM" | ULTRA => "ULTRA"
  end.

Definition SzCompressionLevel_of_name (n : string) : option SzCompressionLevel :=
  List.find (fun l => String.eqb (SzCompressionLevel_name l) n)
    SzCompressionLevel_members.

Module _SzItemInfo.
(** The C structure; [path] is [None] for a null pointer. *)
Record t := {
  index : Z;
  path : option bytes;
  size : Z;
  packed_size : Z;
  crc : Z;
  has_crc : Z;
  creation_time : Z;
  modification_time : Z;
  is_directory : Z;
  is_encrypted : Z
}.
End _SzItemInfo.

Module SevenZip.

(** The progress callback as the engine receives it: a C function of the
    completed and total byte counts (the user data pointer is always null). *)
Inductive Event :=
| Call_error_to_string (code : Z)
| Call_get_last_error_message
| Call_version_string
| Call_is_format_supported (format : Z)
| Call_archive_open (path : bytes)
| Call_archive_close (handle : Z)
| Call_archive_get_item_count (handle : Z)
| Call_archive_get_item_info (handle index : Z)
| Call_item_info_free (info : _SzItemInfo.t)
| Call_archive_extract_all (handle : Z) (dest_dir : bytes) (callback : Z -> Z -> Z)
| Call_archive_set_password (handle : Z) (password : bytes)
| Call_writer_create (path : bytes) (format : Z)
| Call_writer_destroy (handle : Z)
| Call_writer_add_file (handle : Z) (source_path : bytes) (archive_path : option bytes)
| Call_writer_add_directory (handle : Z) (source_path : bytes)
    (archive_path : option bytes) (recursive : Z)
| Call_writer_set_compression_level (handle level : Z)
| Call_writer_set_password (handle : Z) (password : bytes)
| Call_writer_finalize (handle : Z)
| Call_extract_simple (archive_path dest_dir : bytes)
| Call_compress_simple (source_path archive_path : bytes) (format : Z)
| Fs_is_dir (p : pathlib.Path).

Record NativeLib := {
  sz_error_to_string : list Event -> Z -> option bytes;
  sz_get_last_error_message : list Event -> option bytes;
  sz_version_string : list Event -> option bytes;
  sz_is_format_supported : list Event -> Z -> Z;
  sz_archive_open : list Event -> bytes -> Z * Z;
  sz_archive_get_item_count : list Event -> Z -> Z * Z;
  sz_archive_get_item_info : list Event -> Z -> Z -> Z * _SzItemInfo.t;
  sz_archive_extract_all : list Event -> Z -> bytes -> (Z -> Z -> Z) -> Z;
  sz_archive_set_password : list Event -> Z -> bytes -> Z;
  sz_writer_create : list Event -> bytes -> Z -> Z * Z;
  sz_writer_add_file : list Event -> Z -> bytes -> option bytes -> Z;
  sz_writer_add_directory : list Event -> Z -> bytes -> option bytes -> Z -> Z;
  sz_writer_set_compression_level : list Event -> Z -> Z -> Z;
  sz_writer_set_password : list Event -> Z -> bytes -> Z;
  sz_writer_finalize : list Event -> Z -> Z;
  sz_extract_simple : list Event -> bytes -> bytes -> Z;
  sz_compress_simple : list Event -> bytes -> bytes -> Z -> Z
}.

Definition M := Py exn (list Event).

(** [r.decode('utf-8')] on what a [c_char_p] function returned. *)
Definition decode_char_p (r : option bytes) : M string :=
  match r with
  | Some b => decode_utf8 UnicodeDecodeError b
  | None => raise AttributeError
  end.

(** Truth value of an [Optional[str]]. *)
Definition nonempty (s : option string) : option string :=
  match s with
  | Some x => if String.eqb x "" then None else Some x
  | None => None
  end.

(** The function [extract] wraps around the caller's callback. *)
Definition wrapper (progress_callback : Z -> Z -> bool) (completed total : Z) : Z :=
  if progress_callback completed total then 1 else 0.

Section Methods.
Context (_lib : NativeLib) (cwd : pathlib.Path)
  (is_dir : list Event -> pathlib.Path -> bool).

Definition absolute_bytes (p : string) : bytes :=
  encode (pathlib.to_str (pathlib.absolute cwd (pathlib.of_str p))).

Definition SevenZipError__init__ (result : SzResult) : M exn :=
  m <- call (Call_error_to_string (SzResult_value result))
         (fun h => sz_error_to_string _lib h (SzResult_value result)) ;;
  message <- decode_char_p m ;;
  d <- call Call_get_last_error_message (sz_get_last_error_message _lib) ;;
  detail <- decode_char_p d ;;
  ret (SevenZipError result
         (if String.eqb detail "" then message
          else message +:+ ": " +:+ detail)).

Definition _check_result (result : Z) : M unit :=
  if result =? SzResult_value OK then ret tt
  else
    match SzResult_of_value result with
    | None => raise (ValueError result)
    | Some r => e <- SevenZipError__init__ r ;; raise e
    end.

Definition get_version : M string :=
  v <- call Call_version_string (sz_version_string _lib) ;;
  decode_char_p v.

Definition is_format_supported (format : string) : M bool :=
  match SzFormat_of_name (upper format) with
  | None => ret false
  | Some f =>
      r <- call (Call_is_format_supported (SzFormat_value f))
             (fun h => sz_is_format_supported _lib h (SzFormat_value f)) ;;
      ret (negb (r =? 0))
  end.

(** [sz_archive_extract_all] is declared to take a [_ProgressCallback]:
    [ctypes] converts the arguments before it calls the engine, and for a
    callback that is [None] it raises [ctypes.ArgumentError] there. *)
Definition extract (archive_path dest_dir : string) (password : option string)
    (progress_callback : option (Z -> Z -> bool)) : M unit :=
  let archive_path := absolute_bytes archive_path in
  let dest_dir := absolute_bytes dest_dir in
  '(result, handle) <- call (Call_archive_open archive_path)
                         (fun h => sz_archive_open _lib h archive_path) ;;
  _check_result result ;;;
  try_finally
    ((match nonempty password with
      | Some p =>
          result <- call (Call_archive_set_password handle (encode p))
                      (fun h => sz_archive_set_password _lib h handle (encode p)) ;;
          _check_result result
      | None => ret tt
      end) ;;;
     match progress_callback with
     | Some f =>
         let callback := wrapper f in
         result <- call (Call_archive_extract_all handle dest_dir callback)
                     (fun h => sz_archive_extract_all _lib h handle dest_dir callback) ;;
         _check_result result
     | None => raise ArgumentError
     end)
    (call (Call_archive_close handle) (fun _ => tt)).

(** [source_path.decode('utf-8')] reads back bytes that were encoded from a
    [str] two lines above, so it gives that text and cannot fail. *)
Definition compress (source_path archive_path format level : string)
    (password : option string) : M unit :=
  let source_path := absolute_bytes source_path in
  let archive_path := absolute_bytes archive_path in
  match SzFormat_of_name (upper format) with
  | None => raise AttributeError
  | Some format_enum =>
      match SzCompressionLevel_of_name (upper level) with
      | None => raise AttributeError
      | Some level_enum =>
          '(result, handle) <-
             call (Call_writer_create archive_path (SzFormat_value format_enum))
               (fun h => sz_writer_create _lib h archive_path
                           (SzFormat_value format_enum)) ;;
          _check_result result ;;;
          try_finally
            (let lv := SzCompressionLevel_value level_enum in
             result <- call (Call_writer_set_compression_level handle lv)
                         (fun h => sz_writer_set_compression_level _lib h handle lv) ;;
             _check_result result ;;;
             (match nonempty password with
              | Some p =>
                  result <- call (Call_writer_set_password handle (encode p))
                              (fun h => sz_writer_set_password _lib h handle (encode p)) ;;
                  _check_result result
              | None => ret tt
              end) ;;;
             let source := pathlib.of_str (decode source_path) in
             d <- call (Fs_is_dir source) (fun h => is_dir h source) ;;
             result <- (if d
                        then call (Call_writer_add_directory handle source_path None 1)
                               (fun h => sz_writer_add_directory _lib h handle
                                           source_path None 1)
                        else call (Call_writer_add_file handle source_path None)
                               (fun h => sz_writer_add_file _lib h handle
                                           source_path None)) ;;
             _check_result result ;;;
             result <- call (Call_writer_finalize handle)
                         (fun h => sz_writer_finalize _lib h handle) ;;
             _check_result result)
            (call (Call_writer_destroy handle) (fun _ => tt))
      end
  end.

(** The dictionary [list_items] builds for one item. *)
Definition item_dict (info : _SzItemInfo.t) : M (gmap string PyValue) :=
  path <- decode_char_p (_SzItemInfo.path info) ;;
  ret (<["index" := PyInt (_SzItemInfo.index info)]>
       (<["path" := PyStr path]>
       (<["size" := PyInt (_SzItemInfo.size info)]>
       (<["packed_size" := PyInt (_SzItemInfo.packed_size info)]>
       (<["crc" := if _SzItemInfo.has_crc info =? 0 then PyNone
                   else PyInt (_SzItemInfo.crc info)]>
       (<["is_directory" := PyBool (negb (_SzItemInfo.is_directory info =? 0))]>
       (<["is_encrypted" := PyBool (negb (_SzItemInfo.is_encrypted info =? 0))]>
          ∅))))))).

(** The loop of [list_items] from index [i] on, [n] items to go, [items]
    gathered so far. *)
Fixpoint fetch_items (handle i : Z) (n : nat) (items : list (gmap string PyValue))
  : M (list (gmap string PyValue)) :=
  match n with
  | O => ret items
  | S n' =>
      '(result, item_info) <- call (Call_archive_get_item_info handle i)
                                (fun h => sz_archive_get_item_info _lib h handle i) ;;
      _check_result result ;;;
      items <- try_finally
                 (d <- item_dict item_info ;; ret (items ++ [d]))
                 (call (Call_item_info_free item_info) (fun _ => tt)) ;;
      fetch_items handle (i + 1) n' items
  end.

Definition list_items (archive_path : string) : M (list (gmap string PyValue)) :=
  let archive_path := absolute_bytes archive_path in
  '(result, handle) <- call (Call_archive_open archive_path)
                         (fun h => sz_archive_open _lib h archive_path) ;;
  _check_result result ;;;
  try_finally
    ('(result, count) <- call (Call_archive_get_item_count handle)
                           (fun h => sz_archive_get_item_count _lib h handle) ;;
     _check_result result ;;;
     fetch_items handle 0 (Z.to_nat count) [])
    (call (Call_archive_close handle) (fun _ => tt)).

End Methods.
End SevenZip.

Section Simple.
Context (_lib : SevenZip.NativeLib) (cwd : pathlib.Path).

(** The module-level [extract]. *)
Definition extract (archive_path dest_dir : string) : SevenZip.M unit :=
  let a := SevenZip.absolute_bytes cwd archive_path in
  let d := SevenZip.absolute_bytes cwd dest_dir in
  result <- call (SevenZip.Call_extract_simple a d)
              (fun h => SevenZip.sz_extract_simple _lib h a d) ;;
  SevenZip._check_result _lib result.

(** The module-level [compress]. *)
Definition compress (source_path archive_path format : string) : SevenZip.M unit :=
  match SzFormat_of_name (upper format) with
  | None => raise AttributeError
  | Some format_enum =>
      let s := SevenZip.absolute_bytes cwd source_path in
      let a := SevenZip.absolute_bytes cwd archive_path in
      result <- call (SevenZip.Call_compress_simple s a (SzFormat_value format_enum))
                  (fun h => SevenZip.sz_compress_simple _lib h s a
                              (SzFormat_value format_enum)) ;;
      SevenZip._check_result _lib result
  end.

End Simple.

End sevenzip_ffi.

(** ** [sevenzip.py] *)
Module sevenzip.

(** *** Enumerations *)

Inductive SzResult :=
  | OK | FAIL | OUT_OF_MEMORY | FILE_NOT_FOUND | ACCESS_DENIED
  | INVALID_ARGUMENT | UNSUPPORTED_FORMAT | CORRUPTED_ARCHIVE | WRONG_PASSWORD
  | UNKNOWN_ERROR | INDEX_OUT_OF_RANGE | BUFFER_TOO_SMALL | OPERATION_CANCELLED
  | WRITE_ERROR | READ_ERROR | NOT_IMPLEMENTED | DISK_FULL.

Definition SzResult_members : list SzResult :=
  [OK; FAIL; OUT_OF_MEMORY; FILE_NOT_FOUND; ACCESS_DENIED; INVALID_ARGUMENT;
   UNSUPPORTED_FORMAT; CORRUPTED_ARCHIVE; WRONG_PASSWORD; UNKNOWN_ERROR;
   INDEX_OUT_OF_RANGE; BUFFER_TOO_SMALL; OPERATION_CANCELLED; WRITE_ERROR;
   READ_ERROR; NOT_IMPLEMENTED; DISK_FULL].

Definition SzResult_value (r : SzResult) : Z :=
  match r with
  | OK => 0 | FAIL => 1 | OUT_OF_MEMORY => 2 | FILE_NOT_FOUND => 3
  | ACCESS_DENIED => 4 | INVALID_ARGUMENT => 5 | UNSUPPORTED_FORMAT => 6
  | CORRUPTED_ARCHIVE => 7 | WRONG_PASSWORD => 8 | UNKNOWN_ERROR => 9
  | INDEX_OUT_OF_RANGE => 10 | BUFFER_TOO_SMALL => 11
  | OPERATION_CANCELLED => 12 | WRITE_ERROR => 13 | READ_ERROR => 14
  | NOT_IMPLEMENTED => 15 | DISK_FULL => 16
  end.

Definition SzResult_name (r : SzResult) : string :=
  match r with
  | OK => "OK" | FAIL => "FAIL" | OUT_OF_MEMORY => "OUT_OF_MEMORY"
  | FILE_NOT_FOUND => "FILE_NOT_FOUND" | ACCESS_DENIED => "ACCESS_DENIED"
  | INVALID_ARGUMENT => "INVALID_ARGUMENT"
  | UNSUPPORTED_FORMAT => "UNSUPPORTED_FORMAT"
  | CORRUPTED_ARCHIVE => "CORRUPTED_ARCHIVE"
  | WRONG_PASSWORD => "WRONG_PASSWORD" | UNKNOWN_ERROR => "UNKNOWN_ERROR"
  | INDEX_OUT_OF_RANGE => "INDEX_OUT_OF_RANGE"
  | BUFFER_TOO_SMALL => "BUFFER_TOO_SMALL"
  | OPERATION_CANCELLED => "OPERATION_CANCELLED"
  | WRITE_ERROR => "WRITE_ERROR" | READ_ERROR => "READ_ERROR"
  | NOT_IMPLEMENTED => "NOT_IMPLEMENTED" | DISK_FULL => "DISK_FULL"
  end.

Inductive SzFormat :=
  | SEVEN_Z | ZIP | TAR | GZIP | BZIP2 | XZ | RAR | CAB | ISO | WIM.

Definition SzFormat_members : list SzFormat :=
  [SEVEN_Z; ZIP; TAR; GZIP; BZIP2; XZ; RAR; CAB; ISO; WIM].

Definition SzFormat_value (f : SzFormat) : Z :=
  match f with
  | SEVEN_Z => 0 | ZIP => 1 | TAR => 2 | GZIP => 3 | BZIP2 => 4 | XZ => 5
  | RAR => 6 | CAB => 7 | ISO => 8 | WIM => 9
  end.

Definition SzFormat_name (f : SzFormat) : string :=
  match f with
  | SEVEN_Z => "SEVEN_Z" | ZIP => "ZIP" | TAR => "TAR" | GZIP => "GZIP"
  | BZIP2 => "BZIP2" | XZ => "XZ" | RAR => "RAR" | CAB => "CAB"
  | ISO => "ISO" | WIM => "WIM"
  end.

Inductive SzCompressionLevel := NONE | FAST | NORMAL | MAXIMUM | ULTRA.

Definition SzCompressionLevel_value (l : SzCompressionLevel) : Z :=
  match l with
  | NONE => 0 | FAST => 1 | NORMAL => 2 | MAXIMUM => 3 | ULTRA => 4
  end.

(** [Enum(value)] and [Enum[name]]: the member with that value or name. *)
Definition SzResult_of_value (v : Z) : option SzResult :=
  List.find (fun r => Z.eqb (SzResult_value r) v) SzResult_members.
Definition SzResult_of_name (n : string) : option SzResult :=
  List.find (fun r => String.eqb (SzResult_name r) n) SzResult_members.
Definition SzFormat_of_value (v : Z) : option SzFormat :=
  List.find (fun f => Z.eqb (SzFormat_value f) v) SzFormat_members.
Definition SzFormat_of_name (n : string) : option SzFormat :=
  List.find (fun f => String.eqb (SzFormat_name f) n) SzFormat_members.

(** *** Structures and exceptions *)

Module SzItemInfo.
(** The C structure; [path] is [None] for a null pointer. *)
Record t := {
    index : Z;
    path : option bytes;
    size : Z;
    packed_size : Z;
    crc : Z;
    has_crc : Z;
    creation_time : Z;
    modification_time : Z;
    is_directory : Z;
    is_encrypted : Z
  }.
End SzItemInfo.

Inductive exn :=
  | SevenZipError (message : string) (code : SzResult)
  | ValueError (value : Z)
  | OSError
  | UnicodeDecodeError.

(** *** The world outside the bindings *)

Inductive Event :=
  | Call_get_last_error_message
  | Call_archive_open (path : bytes)
  | Call_archive_close (handle : Z)
  | Call_archive_get_item_count (handle : Z)
  | Call_archive_get_item_info (handle index : Z)
  | Call_archive_extract_to_memory (handle index : Z)
  | Call_memory_free (ptr : Z)
  | Call_writer_create (path : bytes) (format : Z)
  | Call_writer_add_file (handle : Z) (file_path archive_path : bytes)
  | Call_writer_add_directory (handle : Z) (dir_path : bytes) (recursive : Z)
  | Call_writer_add_memory (handle : Z) (data : bytes) (len : Z) (archive_path : bytes)
  | Call_writer_set_password (handle : Z) (password : bytes)
  | Call_writer_set_compression_level (handle level : Z)
  | Call_writer_finalize (handle : Z)
  | Call_writer_cancel (handle : Z)
  | Copy_string_at (ptr size : Z)
  | Fs_mkdir (p : pathlib.Path)
  | Fs_write_bytes (p : pathlib.Path) (data : bytes)
  | Fs_is_dir (p : pathlib.Path).

Abbreviation World := (list Event).

(** The functions declared on [_lib].  Each answers from the history before
    the call.  A function with an output parameter answers with the result
    code and the value left in the parameter; a handle or pointer is its
    address, [0] for null.  The functions returning [void] need no answer. *)
Record NativeLib := {
    sz_get_last_error_message : World -> option bytes;
    sz_archive_open : World -> bytes -> Z * Z;
    sz_archive_get_item_count : World -> Z -> Z * Z;
    sz_archive_get_item_info : World -> Z -> Z -> Z * SzItemInfo.t;
    sz_archive_extract_to_memory : World -> Z -> Z -> Z * (Z * Z);
    sz_writer_create : World -> bytes -> Z -> Z * Z;
    sz_writer_add_file : World -> Z -> bytes -> bytes -> Z;
    sz_writer_add_directory : World -> Z -> bytes -> Z -> Z;
    sz_writer_add_memory : World -> Z -> bytes -> Z -> bytes -> Z;
    sz_writer_set_password : World -> Z -> bytes -> Z;
    sz_writer_set_compression_level : World -> Z -> Z -> Z;
    sz_writer_finalize : World -> Z -> Z
  }.

(** The rest of the process: the memory [ctypes.string_at] reads, and the
    file system ([true] when [mkdir(parents=True, exist_ok=True)] or
    [write_bytes] succeeds, [OSError] otherwise). *)
Record Host := {
    string_at : World -> Z -> Z -> bytes;
    mkdir : World -> pathlib.Path -> bool;
    write_bytes : World -> pathlib.Path -> bytes -> bool;
    is_dir : World -> pathlib.Path -> bool
  }.

Definition M (S : Type) := Py exn S.

(** Truth value of [self._handle], an [Optional[c_void_p]]: [None] and a
    null pointer are false. *)
Definition truth (h : option Z) : bool :=
  match h with
  | Some p => negb (p =? 0)
  | None => false
  end.

(** The address passed on when [self._handle] is a native argument. *)
Definition address (h : option Z) : Z := default 0 h.

(** [str(p)] and [Path(p)] for an argument that is a [str] or a [Path]. *)
Definition str_of (p : string + pathlib.Path) : string :=
  match p with
  | inl s => s
  | inr q => pathlib.to_str q
  end.

Definition Path_of (p : string + pathlib.Path) : pathlib.Path :=
  match p with
  | inl s => pathlib.of_str s
  | inr q => q
  end.

(** Truth value of an [Optional[str]]. *)
Definition nonempty (s : option string) : option string :=
  match s with
  | Some x => if String.eqb x "" then None else Some x
  | None => None
  end.

Module Item.
Record t := {
    index : Z;
    path : string;
    size : Z;
    packed_size : Z;
    compressed_size : Z;
    is_directory : bool;
    is_encrypted : bool;
    crc : option Z;
    has_crc : bool;
    creation_time : Z;
    modification_time : Z
  }.

(** The attributes [__init__] sets, [path] being the text it decoded. *)
Definition fields (info : SzItemInfo.t) (path : string) : t :=
  {| index := SzItemInfo.index info;
     path := path;
     size := SzItemInfo.size info;
     packed_size := SzItemInfo.packed_size info;
     compressed_size := SzItemInfo.packed_size info;
     is_directory := negb (SzItemInfo.is_directory info =? 0);
     is_encrypted := negb (SzItemInfo.is_encrypted info =? 0);
     crc := if SzItemInfo.has_crc info =? 0 then None
            else Some (SzItemInfo.crc info);
     has_crc := negb (SzItemInfo.has_crc info =? 0);
     creation_time := SzItemInfo.creation_time info;
     modification_time := SzItemInfo.modification_time info |}.

Definition __init__ {S : Type} (info : SzItemInfo.t) : M S t :=
  path <- match SzItemInfo.path info with
          | Some (b :: bs) => decode_utf8 UnicodeDecodeError (b :: bs)
          | _ => ret ""
          end ;;
  ret (fields info path).
End Item.

Section WithLib.
Context (_lib : NativeLib) (host : Host).

Definition _check_result (result : Z) (operation : string) : M World unit :=
  if result =? SzResult_value OK then ret tt
  else
    error_msg <- call Call_get_last_error_message
                   (sz_get_last_error_message _lib) ;;
    error_msg <- match error_msg with
                 | Some (b :: bs) => decode_utf8 UnicodeDecodeError (b :: bs)
                 | _ => ret (operation +:+ "失败")
                 end ;;
    match SzResult_of_value result with
    | Some code =>
        raise (SevenZipError
                 (error_msg +:+ " (code=" +:+ pretty result +:+ ")") code)
    | None => raise (ValueError result)
    end.

Definition os_mkdir (p : pathlib.Path) : M World unit :=
  ok <- call (Fs_mkdir p) (fun w => mkdir host w p) ;;
  if ok then ret tt else raise OSError.

Definition os_write_bytes (p : pathlib.Path) (data : bytes) : M World unit :=
  ok <- call (Fs_write_bytes p data) (fun w => write_bytes host w p data) ;;
  if ok then ret tt else raise OSError.

Definition os_is_dir (p : pathlib.Path) : M World bool :=
  call (Fs_is_dir p) (fun w => is_dir host w p).

End WithLib.

(** *** [class Archive] *)
Module Archive.

Record t := { _handle : option Z }.

Definition __init__ : t := {| _handle := None |}.

Section Methods.
Context (_lib : NativeLib) (host : Host).

(** The password is accepted and not used. *)
Definition open (path : string + pathlib.Path) (password : option string)
  : M World t :=
  let path_bytes := encode (str_of path) in
  '(result, handle) <- call (Call_archive_open path_bytes)
                         (fun w => sz_archive_open _lib w path_bytes) ;;
  _check_result _lib result "打开归档" ;;;
  ret {| _handle := Some handle |}.

Definition close : M (t * World) unit :=
  self <- get_self ;;
  if truth (_handle self) then
    on_world (call (Call_archive_close (address (_handle self))) (fun _ => tt)) ;;;
    set_self {| _handle := None |}
  else ret tt.

Definition __exit__ (exc : option exn) : M (t * World) bool :=
  close ;;; ret false.

Definition item_count : M (t * World) Z :=
  self <- get_self ;;
  if negb (truth (_handle self)) then raise (SevenZipError "归档未打开" FAIL)
  else
    let h := address (_handle self) in
    '(result, count) <- on_world (call (Call_archive_get_item_count h)
                           (fun w => sz_archive_get_item_count _lib w h)) ;;
    on_world (_check_result _lib result "获取项目数量") ;;;
    ret count.

Definition get_item_info (index : Z) : M (t * World) Item.t :=
  self <- get_self ;;
  if negb (truth (_handle self)) then raise (SevenZipError "归档未打开" FAIL)
  else
    let h := address (_handle self) in
    '(result, info) <- on_world (call (Call_archive_get_item_info h index)
                          (fun w => sz_archive_get_item_info _lib w h index)) ;;
    on_world (_check_result _lib result "获取项目信息") ;;;
    Item.__init__ info.

Definition extract_to_memory (index : Z) : M (t * World) bytes :=
  self <- get_self ;;
  if negb (truth (_handle self)) then raise (SevenZipError "归档未打开" FAIL)
  else
    let h := address (_handle self) in
    '(result, (data_ptr, size)) <-
       on_world (call (Call_archive_extract_to_memory h index)
                   (fun w => sz_archive_extract_to_memory _lib w h index)) ;;
    on_world (_check_result _lib result "提取到内存") ;;;
    try_finally
      (on_world (call (Copy_string_at data_ptr size)
                   (fun w => string_at host w data_ptr size)))
      (on_world (call (Call_memory_free data_ptr) (fun _ => tt))).

(** [for item in self: body(item)].  The generator fetches item [i],
    hands it to the loop body, and goes on with [i + 1]. *)
Fixpoint iterate (body : Item.t -> M (t * World) unit) (i : Z) (n : nat)
  : M (t * World) unit :=
  match n with
  | O => ret tt
  | S n' =>
      item <- get_item_info i ;;
      body item ;;;
      iterate body (i + 1) n'
  end.

Definition __iter__ (body : Item.t -> M (t * World) unit) : M (t * World) unit :=
  count <- item_count ;;
  iterate body 0 (Z.to_nat count).

Definition __len__ : M (t * World) Z := item_count.

(** The items the generator yields from index [i] on, [n] of them to go,
    gathered in order. *)
Fixpoint collect (i : Z) (n : nat) : M (t * World) (list Item.t) :=
  match n with
  | O => ret []
  | S n' =>
      item <- get_item_info i ;;
      rest <- collect (i + 1) n' ;;
      ret (item :: rest)
  end.

(** [[item for item in self]]: the generator driven to its end, as a loop
    or a comprehension over the archive drives it.  ([list(self)] is not
    this: it first asks [__len__] for a size hint.) *)
Definition yielded : M (t * World) (list Item.t) :=
  count <- item_count ;;
  collect 0 (Z.to_nat count).

End Methods.
End Archive.

(** *** [class Writer] *)
Module Writer.

Record t := { _handle : option Z; _finalized : bool }.

Definition __init__ : t := {| _handle := None; _finalized := false |}.

Definition format_map : gmap string SzFormat :=
  <["7z" := SEVEN_Z]> (<["sevenzip" := SEVEN_Z]> (<["zip" := ZIP]>
  (<["tar" := TAR]> (<["gzip" := GZIP]> (<["gz" := GZIP]>
  (<["bzip2" := BZIP2]> (<["bz2" := BZIP2]> (<["xz" := XZ]> ∅)))))))).

Definition level_map : gmap string SzCompressionLevel :=
  <["none" := NONE]> (<["fast" := FAST]> (<["normal" := NORMAL]>
  (<["maximum" := MAXIMUM]> (<["ultra" := ULTRA]> ∅)))).

Section Methods.
Context (_lib : NativeLib).

Definition create (path : string + pathlib.Path) (format : string + SzFormat)
  : M World t :=
  let path_bytes := encode (str_of path) in
  let format :=
    match format with
    | inl name => default SEVEN_Z (format_map !! lower name)
    | inr f => f
    end in
  '(result, handle) <- call (Call_writer_create path_bytes (SzFormat_value format))
                         (fun w => sz_writer_create _lib w path_bytes
                                     (SzFormat_value format)) ;;
  _check_result _lib result "创建归档写入器" ;;;
  ret {| _handle := Some handle; _finalized := false |}.

Definition add_file (file_path : string + pathlib.Path)
    (archive_path : option string) : M (t * World) unit :=
  self <- get_self ;;
  if negb (truth (_handle self)) then
    raise (SevenZipError "写入器未初始化" FAIL)
  else if _finalized self then
    raise (SevenZipError "归档已完成，不能添加更多文件" FAIL)
  else
    let h := address (_handle self) in
    let file_path_bytes := encode (str_of file_path) in
    let archive_path_bytes :=
      encode (match nonempty archive_path with
              | Some a => a
              | None => pathlib.name (Path_of file_path)
              end) in
    result <- on_world (call (Call_writer_add_file h file_path_bytes archive_path_bytes)
                (fun w => sz_writer_add_file _lib w h file_path_bytes
                            archive_path_bytes)) ;;
    on_world (_check_result _lib result "添加文件").

Definition add_directory (dir_path : string + pathlib.Path) (recursive : bool)
  : M (t * World) unit :=
  self <- get_self ;;
  if negb (truth (_handle self)) then
    raise (SevenZipError "写入器未初始化" FAIL)
  else if _finalized self then
    raise (SevenZipError "归档已完成，不能添加更多目录" FAIL)
  else
    let h := address (_handle self) in
    let dir_path_bytes := encode (str_of dir_path) in
    let r := if recursive then 1 else 0 in
    result <- on_world (call (Call_writer_add_directory h dir_path_bytes r)
                (fun w => sz_writer_add_directory _lib w h dir_path_bytes r)) ;;
    on_world (_check_result _lib result "添加目录").

Definition add_memory (data : bytes) (archive_path : string) : M (t * World) unit :=
  self <- get_self ;;
  if negb (truth (_handle self)) then
    raise (SevenZipError "写入器未初始化" FAIL)
  else if _finalized self then
    raise (SevenZipError "归档已完成，不能添加更多数据" FAIL)
  else
    let h := address (_handle self) in
    let archive_path_bytes := encode archive_path in
    let n := Z.of_nat (List.length data) in
    result <- on_world (call (Call_writer_add_memory h data n archive_path_bytes)
                (fun w => sz_writer_add_memory _lib w h data n archive_path_bytes)) ;;
    on_world (_check_result _lib result "添加内存数据").

Definition set_password (password : string) : M (t * World) unit :=
  self <- get_self ;;
  if negb (truth (_handle self)) then
    raise (SevenZipError "写入器未初始化" FAIL)
  else if _finalized self then
    raise (SevenZipError "归档已完成，不能设置密码" FAIL)
  else
    let h := address (_handle self) in
    let password_bytes := encode password in
    result <- on_world (call (Call_writer_set_password h password_bytes)
                (fun w => sz_writer_set_password _lib w h password_bytes)) ;;
    on_world (_check_result _lib result "设置密码").

Definition set_compression_level (level : string + SzCompressionLevel)
  : M (t * World) unit :=
  self <- get_self ;;
  if negb (truth (_handle self)) then
    raise (SevenZipError "写入器未初始化" FAIL)
  else if _finalized self then
    raise (SevenZipError "归档已完成，不能设置压缩级别" FAIL)
  else
    let h := address (_handle self) in
    let level :=
      match level with
      | inl name => default NORMAL (level_map !! lower name)
      | inr l => l
      end in
    let v := SzCompressionLevel_value level in
    result <- on_world (call (Call_writer_set_compression_level h v)
                (fun w => sz_writer_set_compression_level _lib w h v)) ;;
    on_world (_check_result _lib result "设置压缩级别").

Definition finalize : M (t * World) unit :=
  self <- get_self ;;
  if negb (truth (_handle self)) then
    raise (SevenZipError "写入器未初始化" FAIL)
  else if _finalized self then ret tt
  else
    let h := address (_handle self) in
    result <- on_world (call (Call_writer_finalize h)
                (fun w => sz_writer_finalize _lib w h)) ;;
    on_world (_check_result _lib result "完成归档") ;;;
    set_self {| _handle := _handle self; _finalized := true |}.

Definition cancel : M (t * World) unit :=
  self <- get_self ;;
  if truth (_handle self) then
    on_world (call (Call_writer_cancel (address (_handle self))) (fun _ => tt)) ;;;
    set_self {| _handle := None; _finalized := true |}
  else ret tt.

Definition __exit__ (exc : option exn) : M (t * World) bool :=
  (match exc with
   | None => finalize
   | Some _ => ret tt
   end) ;;;
  cancel ;;;
  ret false.

End Methods.
End Writer.

(** *** The facade functions *)
Section Facade.
Context (_lib : NativeLib) (host : Host).

Definition extract_item (output_dir : pathlib.Path) (item : Item.t)
  : M (Archive.t * World) unit :=
  if Item.is_directory item then ret tt
  else
    data <- Archive.extract_to_memory _lib host (Item.index item) ;;
    let output_path := pathlib.truediv output_dir (Item.path item) in
    on_world (os_mkdir host (pathlib.parent output_path)) ;;;
    on_world (os_write_bytes host output_path data).

Definition extract_archive (archive_path output_dir : string + pathlib.Path)
    (password : option string) : M World unit :=
  let output_dir := Path_of output_dir in
  os_mkdir host output_dir ;;;
  archive <- Archive.open _lib archive_path password ;;
  with_object archive
    (with_stmt Archive.__exit__
       (Archive.__iter__ _lib (extract_item output_dir))).

Fixpoint add_each (files : list (string + pathlib.Path)) : M (Writer.t * World) unit :=
  match files with
  | [] => ret tt
  | file_path :: rest =>
      let file_path := Path_of file_path in
      d <- on_world (os_is_dir host file_path) ;;
      (if d then Writer.add_directory _lib (inr file_path) true
       else Writer.add_file _lib (inr file_path) None) ;;;
      add_each rest
  end.

Definition create_archive_body (files : list (string + pathlib.Path))
    (password : option string) (level : string) : M (Writer.t * World) unit :=
  Writer.set_compression_level _lib (inl level) ;;;
  (match nonempty password with
   | Some p => Writer.set_password _lib p
   | None => ret tt
   end) ;;;
  add_each files.

Definition create_archive (output_path : string + pathlib.Path)
    (files : list (string + pathlib.Path)) (format : string)
    (password : option string) (level : string) : M World unit :=
  writer <- Writer.create _lib output_path (inl format) ;;
  with_object writer
    (with_stmt (Writer.__exit__ _lib)
       (create_archive_body files password level)).

End Facade.

End sevenzip.

(** ** A concrete engine and host, for running the bindings

    [Demo.lib entries add_file_result] serves the archive made of [entries]
    (structure and content of each item) under the handle [1], hands out the
    writer handle [2], answers [add_file_result] to every [sz_writer_add_file]
    and success to every other writer call.  Extracted buffers live at the
    addresses [4096 + i]. *)
Module Demo.
Import sevenzip.

Definition info (i : Z) (p : string) (dir : bool) (n : Z) : SzItemInfo.t :=
  {| SzItemInfo.index := i;
     SzItemInfo.path := Some (encode p);
     SzItemInfo.size := n;
     SzItemInfo.packed_size := n;
     SzItemInfo.crc := 0;
     SzItemInfo.has_crc := 0;
     SzItemInfo.creation_time := 0;
     SzItemInfo.modification_time := 0;
     SzItemInfo.is_directory := if dir then 1 else 0;
     SzItemInfo.is_encrypted := 0 |}.

Definition blank : SzItemInfo.t := info 0 "" false 0.

Definition entry (i : Z) (p : string) (content : string) : SzItemInfo.t * bytes :=
  (info i p false (Z.of_nat (String.length content)), encode content).

Definition entries : list (SzItemInfo.t * bytes) :=
  [ entry 0 "file1.txt" "one";
    (info 1 "subdir" true 0, []);
    entry 2 "subdir/file3.txt" "three" ].

(** An archive whose item paths lead out of where it is extracted. *)
Definition escaping : list (SzItemInfo.t * bytes) :=
  [ entry 0 "../esc.txt" "out";
    entry 1 "/abs/evil.txt" "evil" ].

Definition lib (es : list (SzItemInfo.t * bytes)) (add_file_result : Z) : NativeLib :=
  {| sz_get_last_error_message := fun _ => None;
     sz_archive_open := fun _ _ => (0, 1);
     sz_archive_get_item_count := fun _ _ => (0, Z.of_nat (List.length es));
     sz_archive_get_item_info := fun _ _ i =>
       match nth_error es (Z.to_nat i) with
       | Some e => (0, fst e)
       | None => (10, blank)
       end;
     sz_archive_extract_to_memory := fun _ _ i =>
       match nth_error es (Z.to_nat i) with
       | Some e => (0, (4096 + i, Z.of_nat (List.length (snd e))))
       | None => (10, (0, 0))
       end;
     sz_writer_create := fun _ _ _ => (0, 2);
     sz_writer_add_file := fun _ _ _ _ => add_file_result;
     sz_writer_add_directory := fun _ _ _ _ => 0;
     sz_writer_add_memory := fun _ _ _ _ _ => 0;
     sz_writer_set_password := fun _ _ _ => 0;
     sz_writer_set_compression_level := fun _ _ _ => 0;
     sz_writer_finalize := fun _ _ => 0 |}.

Definition host (es : list (SzItemInfo.t * bytes)) : Host :=
  {| string_at := fun _ ptr size =>
       match nth_error es (Z.to_nat (ptr - 4096)) with
       | Some e => firstn (Z.to_nat size) (snd e)
       | None => []
       end;
     mkdir := fun _ _ => true;
     write_bytes := fun _ _ _ => true;
     is_dir := fun _ _ => false |}.

(** A writer as [Writer.create] leaves it, and the same after a successful
    [finalize]. *)
Definition fresh : Writer.t :=
  {| Writer._handle := Some 2; Writer._finalized := false |}.
Definition finalized : Writer.t :=
  {| Writer._handle := Some 2; Writer._finalized := true |}.
Definition cancelled : Writer.t :=
  {| Writer._handle := None; Writer._finalized := true |}.

Definition opened : Archive.t := {| Archive._handle := Some 1 |}.
Definition closed : Archive.t := {| Archive._handle := None |}.

End Demo.


(** ** Vocabulary of the properties *)

(** The names two enumerations share with different values, each with its
    value in the first and in the second. *)
Definition conflicts {A B : Type} (name_a : A -> string) (value_a : A -> Z)
    (members_a : list A) (name_b : B -> string) (value_b : B -> Z)
    (members_b : list B) : list (string * Z * Z) :=
  flat_map (fun a =>
    flat_map (fun b =>
      if String.eqb (name_a a) (name_b b) && negb (value_a a =? value_b b)
      then [(name_a a, value_a a, value_b b)] else [])
      members_b)
    members_a.

Definition SzResult_conflicts : list (string * Z * Z) :=
  conflicts sevenzip.SzResult_name sevenzip.SzResult_value sevenzip.SzResult_members
    sevenzip_ffi.SzResult_name sevenzip_ffi.SzResult_value sevenzip_ffi.SzResult_members.

Definition SzFormat_conflicts : list (string * Z * Z) :=
  conflicts sevenzip.SzFormat_name sevenzip.SzFormat_value sevenzip.SzFormat_members
    sevenzip_ffi.SzFormat_name sevenzip_ffi.SzFormat_value sevenzip_ffi.SzFormat_members.

(** The names shared by the two enumerations of formats. *)
Definition SzFormat_shared : list string :=
  List.filter (fun n => bool_decide (is_Some (sevenzip_ffi.SzFormat_of_name n)))
    (List.map sevenzip.SzFormat_name sevenzip.SzFormat_members).

(** The keys of the two mapping tables of [Writer]. *)
Definition recognized_formats : list string :=
  ["7z"; "sevenzip"; "zip"; "tar"; "gzip"; "gz"; "bzip2"; "bz2"; "xz"].

Definition recognized_levels : list string :=
  ["none"; "fast"; "normal"; "maximum"; "ultra"].

(** A string free of the path separator. *)
Fixpoint no_sep (s : string) : bool :=
  match s with
  | EmptyString => true
  | String c r => negb (Ascii.eqb c "/") && no_sep r
  end.

(** The paths [pathlib] builds: the root is empty, [/] or [//], and no
    component is empty, is [.] or holds a separator. *)
Definition path_ok (p : pathlib.Path) : Prop :=
  (pathlib.root p = "" \/ pathlib.root p = "/" \/ pathlib.root p = "//")
  /\ Forall (fun x => pathlib.is_component x = true /\ no_sep x = true)
       (pathlib.tail p).

(** The ratio [get_archive_info] is to report for the two sizes. *)
Definition expected_ratio (packed total : Z) : PyValue :=
  if 0 <? total then PyFloat (inject_Z packed / inject_Z total) else PyInt 0.

(** The events that end the life of a native handle or commit an archive. *)
Definition lifecycle (e : sevenzip.Event) : bool :=
  match e with
  | sevenzip.Call_archive_close _ | sevenzip.Call_writer_finalize _
  | sevenzip.Call_writer_cancel _ => true
  | _ => false
  end.

Definition is_close (e : sevenzip.Event) : bool :=
  match e with sevenzip.Call_archive_close _ => true | _ => false end.

Definition is_cancel (e : sevenzip.Event) : bool :=
  match e with sevenzip.Call_writer_cancel _ => true | _ => false end.

Definition is_finalize (e : sevenzip.Event) : bool :=
  match e with sevenzip.Call_writer_finalize _ => true | _ => false end.

Definition is_free (e : sevenzip.Event) : bool :=
  match e with sevenzip.Call_memory_free _ => true | _ => false end.

(** How many events of a history satisfy [p]. *)
Definition count (p : sevenzip.Event -> bool) (w : sevenzip.World) : nat :=
  List.length (List.filter p w).

(** [s'] comes after [s] with the object untouched and nothing but events
    outside [lifecycle] added to the history. *)
Definition steady {O : Type} (s s' : O * sevenzip.World) : Prop :=
  fst s' = fst s
  /\ exists evs, snd s' = snd s ++ evs /\ Forall (fun e => lifecycle e = false) evs.

(** [s'] comes after [s] with the writer still holding the same handle and
    no [sz_writer_cancel] among the events added. *)
Definition holds_handle (s s' : sevenzip.Writer.t * sevenzip.World) : Prop :=
  sevenzip.Writer._handle (fst s') = sevenzip.Writer._handle (fst s)
  /\ exists evs, snd s' = snd s ++ evs /\ Forall (fun e => is_cancel e = false) evs.

(** The computation raises [SevenZipError] with the code [FAIL], and leaves
    the object and the history as they were: no native function is called. *)
Definition rejected {S A : Type} (m : sevenzip.M S A) (s : S) : Prop :=
  exists message,
    m s = (Raises (sevenzip.SevenZipError message sevenzip.FAIL), s).

(** A caller's calls on one archive or one writer, in order.  The outcome of
    each call is dropped, as by a caller that catches what is raised and goes
    on; the object and the history carry over to the next call.
    [Archive_iterate] is an iteration over the archive driven to its end. *)
Inductive ArchiveCall :=
| Archive_close
| Archive_exit (exc : option sevenzip.exn)
| Archive_item_count
| Archive_get_item_info (index : Z)
| Archive_extract_to_memory (index : Z)
| Archive_len
| Archive_iterate.

Inductive WriterCall :=
| Writer_add_file (file_path : string + pathlib.Path) (archive_path : option string)
| Writer_add_directory (dir_path : string + pathlib.Path) (recursive : bool)
| Writer_add_memory (data : bytes) (archive_path : string)
| Writer_set_password (password : string)
| Writer_set_compression_level (level : string + sevenzip.SzCompressionLevel)
| Writer_finalize
| Writer_cancel
| Writer_exit (exc : option sevenzip.exn).

Section Sessions.
Context (lib : sevenzip.NativeLib) (host : sevenzip.Host).

Definition archive_call (c : ArchiveCall) (s : sevenzip.Archive.t * sevenzip.World)
  : sevenzip.Archive.t * sevenzip.World :=
  match c with
  | Archive_close => snd (sevenzip.Archive.close s)
  | Archive_exit exc => snd (sevenzip.Archive.__exit__ exc s)
  | Archive_item_count => snd (sevenzip.Archive.item_count lib s)
  | Archive_get_item_info i => snd (sevenzip.Archive.get_item_info lib i s)
  | Archive_extract_to_memory i => snd (sevenzip.Archive.extract_to_memory lib host i s)
  | Archive_len => snd (sevenzip.Archive.__len__ lib s)
  | Archive_iterate => snd (sevenzip.Archive.yielded lib s)
  end.

Definition writer_call (c : WriterCall) (s : sevenzip.Writer.t * sevenzip.World)
  : sevenzip.Writer.t * sevenzip.World :=
  match c with
  | Writer_add_file f a => snd (sevenzip.Writer.add_file lib f a s)
  | Writer_add_directory d r => snd (sevenzip.Writer.add_directory lib d r s)
  | Writer_add_memory d a => snd (sevenzip.Writer.add_memory lib d a s)
  | Writer_set_password p => snd (sevenzip.Writer.set_password lib p s)
  | Writer_set_compression_level l => snd (sevenzip.Writer.set_compression_level lib l s)
  | Writer_finalize => snd (sevenzip.Writer.finalize lib s)
  | Writer_cancel => snd (sevenzip.Writer.cancel s)
  | Writer_exit exc => snd (sevenzip.Writer.__exit__ lib exc s)
  end.

Definition archive_session (cs : list ArchiveCall)
    (s : sevenzip.Archive.t * sevenzip.World) : sevenzip.Archive.t * sevenzip.World :=
  fold_left (fun s c => archive_call c s) cs s.

Definition writer_session (cs : list WriterCall)
    (s : sevenzip.Writer.t * sevenzip.World) : sevenzip.Writer.t * sevenzip.World :=
  fold_left (fun s c => writer_call c s) cs s.

End Sessions.

(** The calls that only ask the archive something, and the calls that only
    put something into the writer. *)
Definition is_query (c : ArchiveCall) : bool :=
  match c with
  | Archive_item_count | Archive_get_item_info _ | Archive_extract_to_memory _
  | Archive_len | Archive_iterate => true
  | Archive_close | Archive_exit _ => false
  end.

Definition is_addition (c : WriterCall) : bool :=
  match c with
  | Writer_add_file _ _ | Writer_add_directory _ _ | Writer_add_memory _ _
  | Writer_set_password _ | Writer_set_compression_level _ => true
  | Writer_finalize | Writer_cancel | Writer_exit _ => false
  end.

(** The path of a structure: whether [Item] can decode it, and its text
    (empty for a null or an empty one). *)
Definition path_valid (info : sevenzip.SzItemInfo.t) : bool :=
  match sevenzip.SzItemInfo.path info with
  | Some b => utf8_valid b
  | None => true
  end.

Definition path_text (info : sevenzip.SzItemInfo.t) : string :=
  match sevenzip.SzItemInfo.path info with
  | Some b => decode b
  | None => ""
  end.

(** The item [Item(info)] is when the path of [info] can be decoded. *)
Definition item_of (info : sevenzip.SzItemInfo.t) : sevenzip.Item.t :=
  sevenzip.Item.fields info (path_text info).

(** An engine and a host that serve the archive made of [entries] (the
    structure and the content of each item, in order) under the handle [h]:
    opening succeeds with [h], the count and the structures are those of
    [entries], the paths are well-formed UTF-8, extracting a file by the
    index its structure carries yields a buffer holding its content, and the
    file system accepts what is asked. *)
Record Serves (lib : sevenzip.NativeLib) (host : sevenzip.Host) (h : Z)
    (entries : list (sevenzip.SzItemInfo.t * bytes)) : Prop := {
  serves_handle : h <> 0;
  serves_paths : forall e, e ∈ entries -> path_valid (fst e) = true;
  serves_open : forall w path, sevenzip.sz_archive_open lib w path = (0, h);
  serves_count : forall w,
    sevenzip.sz_archive_get_item_count lib w h = (0, Z.of_nat (List.length entries));
  serves_info : forall w (i : nat) e,
    entries !! i = Some e ->
    sevenzip.sz_archive_get_item_info lib w h (Z.of_nat i) = (0, fst e);
  serves_content : forall w e,
    e ∈ entries ->
    sevenzip.SzItemInfo.is_directory (fst e) = 0 ->
    exists ptr,
      sevenzip.sz_archive_extract_to_memory lib w h (sevenzip.SzItemInfo.index (fst e))
      = (0, (ptr, Z.of_nat (List.length (snd e))))
      /\ sevenzip.string_at host
           (w ++ [sevenzip.Call_archive_extract_to_memory h
                    (sevenzip.SzItemInfo.index (fst e))])
           ptr (Z.of_nat (List.length (snd e))) = snd e;
  serves_mkdir : forall w p, sevenzip.mkdir host w p = true;
  serves_write : forall w p d, sevenzip.write_bytes host w p d = true
}.

Definition is_fs (e : sevenzip.Event) : bool :=
  match e with
  | sevenzip.Fs_mkdir _ | sevenzip.Fs_write_bytes _ _ => true
  | _ => false
  end.

Definition is_extract (e : sevenzip.Event) : bool :=
  match e with sevenzip.Call_archive_extract_to_memory _ _ => true | _ => false end.

(** The native call that extracts the file of an entry: by the index its
    structure carries. *)
Definition extraction_call (h : Z) (e : sevenzip.SzItemInfo.t * bytes) : sevenzip.Event :=
  sevenzip.Call_archive_extract_to_memory h (sevenzip.SzItemInfo.index (fst e)).

(** The entries that are files, in order. *)
Definition files_of (entries : list (sevenzip.SzItemInfo.t * bytes))
  : list (sevenzip.SzItemInfo.t * bytes) :=
  List.filter (fun e => sevenzip.SzItemInfo.is_directory (fst e) =? 0) entries.

(** Where the file of an entry goes under [output_dir]. *)
Definition destination (output_dir : pathlib.Path)
    (e : sevenzip.SzItemInfo.t * bytes) : pathlib.Path :=
  pathlib.truediv output_dir (path_text (fst e)).

(** Where the components of a path lead: each [..] takes back the component
    before it, as the file system follows it when that component is no
    symbolic link.  The components kept so far are held last first; a [..]
    with nothing to take back stays at the root of an absolute path and is
    kept in a relative one. *)
Definition step (absolute : bool) (kept : list string) (c : string) : list string :=
  if String.eqb c ".." then
    match kept with
    | [] => if absolute then [] else [".."]
    | k :: rest => if String.eqb k ".." then c :: kept else rest
    end
  else c :: kept.

Definition resolved (p : pathlib.Path) : list string :=
  rev (fold_left (step (negb (String.eqb (pathlib.root p) ""))) (pathlib.tail p) []).

(** [p] lies in [dir] or below it. *)
Definition under (dir p : pathlib.Path) : bool :=
  String.eqb (pathlib.root dir) (pathlib.root p)
  && bool_decide (resolved dir `prefix_of` resolved p).

(** What is to be asked of the file system for one file: its parent
    directory, then the file with its content. *)
Definition written (output_dir : pathlib.Path)
    (e : sevenzip.SzItemInfo.t * bytes) : sevenzip.World :=
  [sevenzip.Fs_mkdir (pathlib.parent (destination output_dir e));
   sevenzip.Fs_write_bytes (destination output_dir e) (snd e)].

(** An engine that accepts whatever a writer asks, under the handle [h], and
    a file system on which [dir] tells the directories. *)
Record Accepts (lib : sevenzip.NativeLib) (host : sevenzip.Host) (h : Z)
    (dir : pathlib.Path -> bool) : Prop := {
  accepts_handle : h <> 0;
  accepts_create : forall w p f, sevenzip.sz_writer_create lib w p f = (0, h);
  accepts_add_file : forall w f a, sevenzip.sz_writer_add_file lib w h f a = 0;
  accepts_add_directory : forall w d r,
    sevenzip.sz_writer_add_directory lib w h d r = 0;
  accepts_set_password : forall w p, sevenzip.sz_writer_set_password lib w h p = 0;
  accepts_set_compression_level : forall w l,
    sevenzip.sz_writer_set_compression_level lib w h l = 0;
  accepts_finalize : forall w, sevenzip.sz_writer_finalize lib w h = 0;
  accepts_is_dir : forall w p, sevenzip.is_dir host w p = dir p
}.

(** What [create_archive] asks for one input: whether it is a directory,
    then the directory, recursively, or the file under its own name. *)
Definition added (h : Z) (dir : pathlib.Path -> bool) (f : string + pathlib.Path)
  : sevenzip.World :=
  let p := sevenzip.Path_of f in
  [sevenzip.Fs_is_dir p;
   if dir p
   then sevenzip.Call_writer_add_directory h (encode (pathlib.to_str p)) 1
   else sevenzip.Call_writer_add_file h (encode (pathlib.to_str p))
          (encode (pathlib.name p))].

(** The calls that fetch the structures of the items [i], ..., [i + n - 1]. *)
Definition info_calls (h : Z) (i n : nat) : sevenzip.World :=
  List.map (fun k => sevenzip.Call_archive_get_item_info h (Z.of_nat k)) (seq i n).

(** More engines to run the bindings on: one that refuses to finalize, with
    the result 13, and one for [class SevenZip] that accepts everything and
    hands out the handle 7. *)
Module Demo2.

Definition refusing : sevenzip.NativeLib :=
  {| sevenzip.sz_get_last_error_message := fun _ => None;
     sevenzip.sz_archive_open := fun _ _ => (3, 0);
     sevenzip.sz_archive_get_item_count := fun _ _ => (1, 0);
     sevenzip.sz_archive_get_item_info := fun _ _ _ => (10, Demo.blank);
     sevenzip.sz_archive_extract_to_memory := fun _ _ _ => (10, (0, 0));
     sevenzip.sz_writer_create := fun _ _ _ => (0, 2);
     sevenzip.sz_writer_add_file := fun _ _ _ _ => 0;
     sevenzip.sz_writer_add_directory := fun _ _ _ _ => 0;
     sevenzip.sz_writer_add_memory := fun _ _ _ _ _ => 0;
     sevenzip.sz_writer_set_password := fun _ _ _ => 0;
     sevenzip.sz_writer_set_compression_level := fun _ _ _ => 0;
     sevenzip.sz_writer_finalize := fun _ _ => 13 |}.

Definition ffi_info (i : Z) (p : string) : sevenzip_ffi._SzItemInfo.t :=
  {| sevenzip_ffi._SzItemInfo.index := i;
     sevenzip_ffi._SzItemInfo.path := Some (encode p);
     sevenzip_ffi._SzItemInfo.size := 3;
     sevenzip_ffi._SzItemInfo.packed_size := 3;
     sevenzip_ffi._SzItemInfo.crc := 0;
     sevenzip_ffi._SzItemInfo.has_crc := 0;
     sevenzip_ffi._SzItemInfo.creation_time := 0;
     sevenzip_ffi._SzItemInfo.modification_time := 0;
     sevenzip_ffi._SzItemInfo.is_directory := 0;
     sevenzip_ffi._SzItemInfo.is_encrypted := 0 |}.

(** [n] items, named [f]; [finalize_result] is what finalizing answers. *)
Definition ffi_lib (n : Z) (finalize_result : Z) : sevenzip_ffi.SevenZip.NativeLib :=
  {| sevenzip_ffi.SevenZip.sz_error_to_string := fun _ _ => Some (encode "error");
     sevenzip_ffi.SevenZip.sz_get_last_error_message := fun _ => Some [];
     sevenzip_ffi.SevenZip.sz_version_string := fun _ => Some (encode "1.0");
     sevenzip_ffi.SevenZip.sz_is_format_supported := fun _ _ => 1;
     sevenzip_ffi.SevenZip.sz_archive_open := fun _ _ => (0, 7);
     sevenzip_ffi.SevenZip.sz_archive_get_item_count := fun _ _ => (0, n);
     sevenzip_ffi.SevenZip.sz_archive_get_item_info := fun _ _ i => (0, ffi_info i "f");
     sevenzip_ffi.SevenZip.sz_archive_extract_all := fun _ _ _ _ => 0;
     sevenzip_ffi.SevenZip.sz_archive_set_password := fun _ _ _ => 0;
     sevenzip_ffi.SevenZip.sz_writer_create := fun _ _ _ => (0, 7);
     sevenzip_ffi.SevenZip.sz_writer_add_file := fun _ _ _ _ => 0;
     sevenzip_ffi.SevenZip.sz_writer_add_directory := fun _ _ _ _ _ => 0;
     sevenzip_ffi.SevenZip.sz_writer_set_compression_level := fun _ _ _ => 0;
     sevenzip_ffi.SevenZip.sz_writer_set_password := fun _ _ _ => 0;
     sevenzip_ffi.SevenZip.sz_writer_finalize := fun _ _ => finalize_result;
     sevenzip_ffi.SevenZip.sz_extract_simple := fun _ _ _ => 0;
     sevenzip_ffi.SevenZip.sz_compress_simple := fun _ _ _ _ => 0 |}.

(** An engine that refuses everything and whose last message is no
    UTF-8. *)
Definition garbled : sevenzip.NativeLib :=
  {| sevenzip.sz_get_last_error_message := fun _ => Some [Byte.xff; Byte.xfe];
     sevenzip.sz_archive_open := fun _ _ => (3, 0);
     sevenzip.sz_archive_get_item_count := fun _ _ => (1, 0);
     sevenzip.sz_archive_get_item_info := fun _ _ _ => (10, Demo.blank);
     sevenzip.sz_archive_extract_to_memory := fun _ _ _ => (10, (0, 0));
     sevenzip.sz_writer_create := fun _ _ _ => (1, 0);
     sevenzip.sz_writer_add_file := fun _ _ _ _ => 1;
     sevenzip.sz_writer_add_directory := fun _ _ _ _ => 1;
     sevenzip.sz_writer_add_memory := fun _ _ _ _ _ => 1;
     sevenzip.sz_writer_set_password := fun _ _ _ => 1;
     sevenzip.sz_writer_set_compression_level := fun _ _ _ => 1;
     sevenzip.sz_writer_finalize := fun _ _ => 1 |}.

(** An engine for [class SevenZip] whose one item has a null path. *)
Definition nameless_info : sevenzip_ffi._SzItemInfo.t :=
  {| sevenzip_ffi._SzItemInfo.index := 0;
     sevenzip_ffi._SzItemInfo.path := None;
     sevenzip_ffi._SzItemInfo.size := 0;
     sevenzip_ffi._SzItemInfo.packed_size := 0;
     sevenzip_ffi._SzItemInfo.crc := 0;
     sevenzip_ffi._SzItemInfo.has_crc := 0;
     sevenzip_ffi._SzItemInfo.creation_time := 0;
     sevenzip_ffi._SzItemInfo.modification_time := 0;
     sevenzip_ffi._SzItemInfo.is_directory := 0;
     sevenzip_ffi._SzItemInfo.is_encrypted := 0 |}.

Definition nameless : sevenzip_ffi.SevenZip.NativeLib :=
  {| sevenzip_ffi.SevenZip.sz_error_to_string := fun _ _ => Some (encode "error");
     sevenzip_ffi.SevenZip.sz_get_last_error_message := fun _ => Some [];
     sevenzip_ffi.SevenZip.sz_version_string := fun _ => Some (encode "1.0");
     sevenzip_ffi.SevenZip.sz_is_format_supported := fun _ _ => 1;
     sevenzip_ffi.SevenZip.sz_archive_open := fun _ _ => (0, 7);
     sevenzip_ffi.SevenZip.sz_archive_get_item_count := fun _ _ => (0, 1);
     sevenzip_ffi.SevenZip.sz_archive_get_item_info := fun _ _ _ => (0, nameless_info);
     sevenzip_ffi.SevenZip.sz_archive_extract_all := fun _ _ _ _ => 0;
     sevenzip_ffi.SevenZip.sz_archive_set_password := fun _ _ _ => 0;
     sevenzip_ffi.SevenZip.sz_writer_create := fun _ _ _ => (0, 7);
     sevenzip_ffi.SevenZip.sz_writer_add_file := fun _ _ _ _ => 0;
     sevenzip_ffi.SevenZip.sz_writer_add_directory := fun _ _ _ _ _ => 0;
     sevenzip_ffi.SevenZip.sz_writer_set_compression_level := fun _ _ _ => 0;
     sevenzip_ffi.SevenZip.sz_writer_set_password := fun _ _ _ => 0;
     sevenzip_ffi.SevenZip.sz_writer_finalize := fun _ _ => 0;
     sevenzip_ffi.SevenZip.sz_extract_simple := fun _ _ _ => 0;
     sevenzip_ffi.SevenZip.sz_compress_simple := fun _ _ _ _ => 0 |}.

Definition cwd : pathlib.Path := pathlib.of_str "/work".

(** The engine of [get_archive_info]: a 7z archive of two items with the
    given sizes. *)
Definition info_lib (total packed : Z) : sevenzip_ffi.NativeLib :=
  {| sevenzip_ffi.sz_archive_open := fun _ _ => (0, 7);
     sevenzip_ffi.sz_archive_get_info := fun _ _ =>
       (0, {| sevenzip_ffi.format := 1; sevenzip_ffi.item_count := 2;
              sevenzip_ffi.total_size := total; sevenzip_ffi.packed_size := packed;
              sevenzip_ffi.is_solid := 0; sevenzip_ffi.is_multi_volume := 0;
              sevenzip_ffi.has_encrypted_headers := 0 |});
     sevenzip_ffi.sz_error_to_string := fun _ _ => None;
     sevenzip_ffi.sz_get_last_error_message := fun _ => None |}.

End Demo2.

(** A computation on a history only adds events, all satisfying [P]. *)
Definition emits {E Ev A : Type} (P : Ev -> Prop) (m : Py E (list Ev) A) : Prop :=
  forall w, exists evs, snd (m w) = w ++ evs /\ Forall P evs.

(** The member names of the enumerations of [sevenzip_ffi.py]. *)
Definition ffi_format_names : list string :=
  ["AUTO"; "SEVENZIP"; "ZIP"; "TAR"; "GZIP"; "BZIP2"; "XZ"].

Definition ffi_level_names : list string :=
  ["STORE"; "FASTEST"; "FAST"; "NORMAL"; "MAXIMUM"; "ULTRA"].

(** The events of [class SevenZip] that acquire or release a handle, and
    those that fetch or free the structure of an item. *)
Definition ffi_handle_event (e : sevenzip_ffi.SevenZip.Event) : bool :=
  match e with
  | sevenzip_ffi.SevenZip.Call_archive_open _
  | sevenzip_ffi.SevenZip.Call_archive_close _
  | sevenzip_ffi.SevenZip.Call_writer_create _ _
  | sevenzip_ffi.SevenZip.Call_writer_destroy _ => true
  | _ => false
  end.

Definition ffi_is_info (e : sevenzip_ffi.SevenZip.Event) : bool :=
  match e with
  | sevenzip_ffi.SevenZip.Call_archive_get_item_info _ _ => true
  | _ => false
  end.

Definition ffi_is_free (e : sevenzip_ffi.SevenZip.Event) : bool :=
  match e with
  | sevenzip_ffi.SevenZip.Call_item_info_free _ => true
  | _ => false
  end.

Definition ffi_is_extraction (e : sevenzip_ffi.SevenZip.Event) : bool :=
  match e with
  | sevenzip_ffi.SevenZip.Call_archive_extract_all _ _ _ => true
  | _ => false
  end.

(** The events of [class SevenZip] that are none of these. *)
Definition ffi_plain (e : sevenzip_ffi.SevenZip.Event) : bool :=
  negb (ffi_handle_event e || ffi_is_info e || ffi_is_free e).

(** What follows each fetch of a structure in the events [evs] added to the
    history [w]: when the engine accepted the fetch, the very next event
    frees the structure it gave; when it refused, only requests for the
    error texts follow. *)
Definition fetches_freed (lib : sevenzip_ffi.SevenZip.NativeLib) (h : Z)
    (w evs : list sevenzip_ffi.SevenZip.Event) : Prop :=
  forall pre k j post,
    evs = pre ++ sevenzip_ffi.SevenZip.Call_archive_get_item_info k j :: post ->
    k = h
    /\ let answer := sevenzip_ffi.SevenZip.sz_archive_get_item_info lib (w ++ pre) h j in
       if fst answer =? 0 then
         exists post', post = sevenzip_ffi.SevenZip.Call_item_info_free (snd answer) :: post'
       else Forall (fun e => ffi_plain e = true) post.

(** How many events of a history of [class SevenZip] satisfy [p]. *)
Definition ffi_count (p : sevenzip_ffi.SevenZip.Event -> bool)
    (w : list sevenzip_ffi.SevenZip.Event) : nat :=
  List.length (List.filter p w).

(** What an event of [SevenZip.compress] may say about the source, [p]
    being the absolute source path. *)
Definition names_source (p : pathlib.Path) (e : sevenzip_ffi.SevenZip.Event) : Prop :=
  match e with
  | sevenzip_ffi.SevenZip.Fs_is_dir q => q = p
  | sevenzip_ffi.SevenZip.Call_writer_add_file _ source archive_path =>
      source = encode (pathlib.to_str p) /\ archive_path = None
  | sevenzip_ffi.SevenZip.Call_writer_add_directory _ source archive_path recursive =>
      source = encode (pathlib.to_str p) /\ archive_path = None /\ recursive = 1
  | _ => True
  end.

(** The events of [get_archive_info] that acquire or release the handle. *)
Definition info_handle_event (e : sevenzip_ffi.Event) : bool :=
  match e with
  | sevenzip_ffi.Call_archive_open _ | sevenzip_ffi.Call_archive_close _ => true
  | _ => false
  end.

(** ** Properties *)

Ltac run :=
  unfold bind, ret, raise, on_world, with_object, get_self, set_self, call,
    try_finally, with_stmt; simpl.

Arguments sevenzip._check_result : simpl never.
Arguments sevenzip.address : simpl never.

(** *** The enumerations of the two modules *)

(** C4. The two modules number their result codes and formats differently:
    [INVALID_ARGUMENT] is 5 in [sevenzip.py] and 3 in [sevenzip_ffi.py], the 7z
    format is [SEVEN_Z = 0] in the first and [SEVENZIP = 1] in the second;
    five result names and every shared format name carry different values, and
    the same number decodes to different members. *)
Theorem enumerations_inconsistent :
  sevenzip.SzResult_name sevenzip.INVALID_ARGUMENT
    = sevenzip_ffi.SzResult_name sevenzip_ffi.INVALID_ARGUMENT
  /\ sevenzip.SzResult_value sevenzip.INVALID_ARGUMENT = 5
  /\ sevenzip_ffi.SzResult_value sevenzip_ffi.INVALID_ARGUMENT = 3
  /\ sevenzip.SzFormat_value sevenzip.SEVEN_Z = 0
  /\ sevenzip_ffi.SzFormat_value sevenzip_ffi.SEVENZIP = 1
  /\ SzResult_conflicts
       = [("FILE_NOT_FOUND", 3, 4); ("ACCESS_DENIED", 4, 5);
          ("INVALID_ARGUMENT", 5, 3); ("NOT_IMPLEMENTED", 15, 9);
          ("DISK_FULL", 16, 11)]
  /\ SzFormat_conflicts
       = [("ZIP", 1, 2); ("TAR", 2, 3); ("GZIP", 3, 4); ("BZIP2", 4, 5);
          ("XZ", 5, 6)]
  /\ List.map (fun c => fst (fst c)) SzFormat_conflicts = SzFormat_shared
  /\ (sevenzip.SzResult_name <$> sevenzip.SzResult_of_value 3) = Some "FILE_NOT_FOUND"
  /\ (sevenzip_ffi.SzResult_name <$> sevenzip_ffi.SzResult_of_value 3)
       = Some "INVALID_ARGUMENT"
  /\ (sevenzip.SzFormat_name <$> sevenzip.SzFormat_of_value 0) = Some "SEVEN_Z"
  /\ (sevenzip_ffi.SzFormat_name <$> sevenzip_ffi.SzFormat_of_value 0) = Some "AUTO".
Proof. repeat split; vm_compute; reflexivity. Qed.

(** *** The archive summary of [sevenzip_ffi.py] *)

Lemma archive_info_dict_spec (info : sevenzip_ffi._SzArchiveInfo)
    (w : list sevenzip_ffi.Event) :
  match sevenzip_ffi.archive_info_dict info w with
  | (Returns d, w') =>
      w' = w
      /\ d !! "packed_size" = Some (PyInt (sevenzip_ffi.packed_size info))
      /\ d !! "total_size" = Some (PyInt (sevenzip_ffi.total_size info))
      /\ d !! "compression_ratio"
         = Some (expected_ratio (sevenzip_ffi.packed_size info)
                   (sevenzip_ffi.total_size info))
  | (Raises e, w') => w' = w /\ e = sevenzip_ffi.ValueError (sevenzip_ffi.format info)
  end.
Proof.
  unfold sevenzip_ffi.archive_info_dict, expected_ratio, sevenzip_ffi.truediv.
  destruct (sevenzip_ffi.SzFormat_of_value _) as [f|]; [|by run].
  destruct (0 <? sevenzip_ffi.total_size info) eqn:Hpos.
  - apply Z.ltb_lt in Hpos.
    destruct (sevenzip_ffi.total_size info =? 0) eqn:Hz; [apply Z.eqb_eq in Hz; lia|].
    run. repeat split; by simplify_map_eq.
  - run. repeat split; by simplify_map_eq.
Qed.

Lemma ffi_check_result_never_divides (lib : sevenzip_ffi.NativeLib) (r : Z)
    (w : list sevenzip_ffi.Event) :
  fst (sevenzip_ffi._check_result lib r w) <> Raises sevenzip_ffi.ZeroDivisionError.
Proof.
  unfold sevenzip_ffi._check_result, sevenzip_ffi.SevenZipError__init__,
    sevenzip_ffi.decode_char_p, decode_utf8.
  destruct (r =? _); [by run|].
  destruct (sevenzip_ffi.SzResult_of_value r); [|by run].
  run. destruct (sevenzip_ffi.sz_error_to_string _ _ _) as [m|]; run; [|done].
  destruct (utf8_valid m); run; [|done].
  destruct (sevenzip_ffi.sz_get_last_error_message _ _) as [d|]; run; [|done].
  by destruct (utf8_valid d).
Qed.

Lemma info_check_cases (lib : sevenzip_ffi.NativeLib) (r : Z)
    (w : list sevenzip_ffi.Event) :
  (r = 0 /\ sevenzip_ffi._check_result lib r w = (Returns tt, w))
  \/ (r <> 0
      /\ exists e evs,
           sevenzip_ffi._check_result lib r w = (Raises e, w ++ evs)
           /\ Forall (fun ev => info_handle_event ev = false) evs).
Proof.
  destruct (Z.eqb_spec r 0) as [->|Hr]; [left; by split|].
  right. split; [done|].
  unfold sevenzip_ffi._check_result.
  destruct (Z.eqb_spec r (sevenzip_ffi.SzResult_value sevenzip_ffi.OK)); [done|].
  destruct (sevenzip_ffi.SzResult_of_value r) as [c|].
  - unfold sevenzip_ffi.SevenZipError__init__, sevenzip_ffi.decode_char_p,
      decode_utf8. run.
    destruct (sevenzip_ffi.sz_error_to_string lib w _) as [m|]; simpl;
      [|do 2 eexists; split; [reflexivity|by repeat constructor]].
    destruct (utf8_valid m); simpl;
      [|do 2 eexists; split; [reflexivity|by repeat constructor]].
    destruct (sevenzip_ffi.sz_get_last_error_message lib _) as [d|]; simpl;
      [destruct (utf8_valid d); simpl|];
      do 2 eexists; (split; [by rewrite <- app_assoc|by repeat constructor]).
  - exists (sevenzip_ffi.ValueError r), []. by rewrite app_nil_r.
Qed.

(** What [get_archive_info] returns or raises, read off the answers of the
    engine. *)
Lemma get_archive_info_outcome (lib : sevenzip_ffi.NativeLib) (cwd : pathlib.Path)
    (archive_path : string) (w : list sevenzip_ffi.Event) :
  let a := encode (pathlib.to_str (pathlib.absolute cwd (pathlib.of_str archive_path))) in
  let opened := sevenzip_ffi.sz_archive_open lib w a in
  let w1 := w ++ [sevenzip_ffi.Call_archive_open a] in
  let w2 := w1 ++ [sevenzip_ffi.Call_archive_get_info (snd opened)] in
  let got := sevenzip_ffi.sz_archive_get_info lib w1 (snd opened) in
  let outcome := fst (sevenzip_ffi.get_archive_info lib cwd archive_path w) in
  (fst opened = 0 /\ fst got = 0
   /\ outcome = fst (sevenzip_ffi.archive_info_dict (snd got) w2))
  \/ (fst opened = 0 /\ fst got <> 0
      /\ exists e, fst (sevenzip_ffi._check_result lib (fst got) w2) = Raises e
                   /\ outcome = Raises e)
  \/ (fst opened <> 0
      /\ exists e, fst (sevenzip_ffi._check_result lib (fst opened) w1) = Raises e
                   /\ outcome = Raises e).
Proof.
  cbv zeta.
  remember (fst (sevenzip_ffi.get_archive_info lib cwd archive_path w)) as out eqn:Hout.
  unfold sevenzip_ffi.get_archive_info in Hout. set (a := encode _) in *.
  unfold bind at 1 in Hout. unfold call at 1 in Hout.
  destruct (sevenzip_ffi.sz_archive_open lib w a) as [r h]. simpl fst. simpl snd.
  set (w1 := w ++ [sevenzip_ffi.Call_archive_open a]) in *.
  unfold bind at 1 in Hout.
  destruct (info_check_cases lib r w1) as [[-> H]|[Hr (e & evs & H & _)]];
    rewrite H in Hout |- *.
  - simpl in Hout. unfold try_finally, bind at 1 in Hout. unfold call at 1 in Hout.
    destruct (sevenzip_ffi.sz_archive_get_info lib w1 h) as [r' info].
    simpl fst. simpl snd.
    set (w2 := w1 ++ [sevenzip_ffi.Call_archive_get_info h]) in *.
    unfold bind at 1 in Hout.
    destruct (info_check_cases lib r' w2) as [[-> H']|[Hr' (e & evs & H' & _)]];
      rewrite H' in Hout |- *.
    + left. split; [done|]. split; [done|]. subst out.
      by destruct (sevenzip_ffi.archive_info_dict info w2) as [o w3].
    + right. left. split; [done|]. split; [done|]. by exists e.
  - right. right. split; [done|]. by exists e.
Qed.

(** C8. The dictionary [get_archive_info] returns reports the two sizes the
    engine left in the structure, [p] packed and [t] in total, and with them
    the ratio [p / t] when [t > 0] and the integer [0] otherwise, so [0] when
    [t = 0].  It does return a dictionary whenever the engine accepts both
    requests and names a format the enumeration has, whatever the sizes; and
    whatever the engine answers, the call never ends in a division error. *)
Theorem compression_ratio_guarded (lib : sevenzip_ffi.NativeLib)
    (cwd : pathlib.Path) (archive_path : string) (w : list sevenzip_ffi.Event) :
  let a := encode (pathlib.to_str (pathlib.absolute cwd (pathlib.of_str archive_path))) in
  let opened := sevenzip_ffi.sz_archive_open lib w a in
  let w1 := w ++ [sevenzip_ffi.Call_archive_open a] in
  let info := snd (sevenzip_ffi.sz_archive_get_info lib w1 (snd opened)) in
  let p := sevenzip_ffi.packed_size info in
  let t := sevenzip_ffi.total_size info in
  let accepted :=
    fst opened = 0
    /\ fst (sevenzip_ffi.sz_archive_get_info lib w1 (snd opened)) = 0
    /\ is_Some (sevenzip_ffi.SzFormat_of_value (sevenzip_ffi.format info)) in
  let outcome := fst (sevenzip_ffi.get_archive_info lib cwd archive_path w) in
  (accepted <-> exists d, outcome = Returns d)
  /\ (forall d,
        outcome = Returns d ->
        d !! "packed_size" = Some (PyInt p)
        /\ d !! "total_size" = Some (PyInt t)
        /\ d !! "compression_ratio"
           = Some (if 0 <? t then PyFloat (inject_Z p / inject_Z t) else PyInt 0)
        /\ (t = 0 -> d !! "compression_ratio" = Some (PyInt 0)))
  /\ outcome <> Raises sevenzip_ffi.ZeroDivisionError.
Proof.
  intros a opened w1 info p t accepted outcome.
  pose proof (get_archive_info_outcome lib cwd archive_path w) as Hout.
  cbv zeta in Hout. fold a opened w1 in Hout. fold outcome in Hout.
  set (got := sevenzip_ffi.sz_archive_get_info lib w1 (snd opened)) in *.
  set (w2 := w1 ++ [sevenzip_ffi.Call_archive_get_info (snd opened)]) in *.
  fold info in Hout.
  assert (Hfail : forall e,
            outcome = Raises e -> e <> sevenzip_ffi.ZeroDivisionError ->
            ~ accepted ->
            (accepted <-> exists d, outcome = Returns d)
            /\ (forall d,
                  outcome = Returns d ->
                  d !! "packed_size" = Some (PyInt p)
                  /\ d !! "total_size" = Some (PyInt t)
                  /\ d !! "compression_ratio"
                     = Some (if 0 <? t then PyFloat (inject_Z p / inject_Z t)
                             else PyInt 0)
                  /\ (t = 0 -> d !! "compression_ratio" = Some (PyInt 0)))
            /\ outcome <> Raises sevenzip_ffi.ZeroDivisionError).
  { intros e He Hne Hno. rewrite He. split; [|split].
    - split; [done|]. by intros [d Hd].
    - by intros d Hd.
    - congruence. }
  destruct Hout as [(Ho & Hg & Hout)|[(Ho & Hg & e & He & Hout)|(Ho & e & He & Hout)]].
  - pose proof (archive_info_dict_spec info w2) as Hd.
    destruct (sevenzip_ffi.archive_info_dict info w2) as [[d|e] w3] eqn:Hdict;
      simpl in Hout.
    + destruct Hd as (_ & Hp & Ht & Hr). unfold expected_ratio in Hr.
      fold p t in Hp, Ht, Hr. split; [|split].
      * split; [by eauto|]. intros _. split; [done|]. split; [done|].
        unfold sevenzip_ffi.archive_info_dict in Hdict.
        destruct (sevenzip_ffi.SzFormat_of_value _); [by eauto|done].
      * intros d' Hd'. rewrite Hout in Hd'. injection Hd' as <-.
        split; [done|]. split; [done|]. split; [done|].
        intros Hz. by rewrite Hr, Hz.
      * by rewrite Hout.
    + destruct Hd as [_ ->]. apply (Hfail _ Hout); [done|].
      intros (_ & _ & [f Hf]). unfold sevenzip_ffi.archive_info_dict in Hdict.
      rewrite Hf in Hdict. unfold bind, sevenzip_ffi.truediv in Hdict.
      destruct (0 <? sevenzip_ffi.total_size info) eqn:Hpos; [|by run].
      apply Z.ltb_lt in Hpos.
      destruct (Z.eqb_spec (sevenzip_ffi.total_size info) 0); [lia|]. by run.
  - apply (Hfail _ Hout); [|by intros (_ & Hg' & _)].
    pose proof (ffi_check_result_never_divides lib (fst got) w2) as Hnd.
    rewrite He in Hnd. congruence.
  - apply (Hfail _ Hout); [|by intros (Ho' & _)].
    pose proof (ffi_check_result_never_divides lib (fst opened) w1) as Hnd.
    rewrite He in Hnd. congruence.
Qed.

Lemma compression_ratio_guarded_witness :
  (exists d,
     fst (sevenzip_ffi.get_archive_info (Demo2.info_lib 200 50) Demo2.cwd "a.7z" [])
     = Returns d
     /\ d !! "compression_ratio" = Some (PyFloat (inject_Z 50 / inject_Z 200)))
  /\ (exists d,
        fst (sevenzip_ffi.get_archive_info (Demo2.info_lib 0 0) Demo2.cwd "a.7z" [])
        = Returns d
        /\ d !! "compression_ratio" = Some (PyInt 0)).
Proof.
  split.
  - destruct (compression_ratio_guarded (Demo2.info_lib 200 50) Demo2.cwd "a.7z" [])
      as ([Hret _] & Hdict & _).
    destruct Hret as [d Hd]; [by repeat split; eauto|].
    exists d. split; [exact Hd|]. by destruct (Hdict d Hd) as (_ & _ & Hr & _).
  - destruct (compression_ratio_guarded (Demo2.info_lib 0 0) Demo2.cwd "a.7z" [])
      as ([Hret _] & Hdict & _).
    destruct Hret as [d Hd]; [by repeat split; eauto|].
    exists d. split; [exact Hd|]. destruct (Hdict d Hd) as (_ & _ & _ & Hz).
    by apply Hz.
Defined.

(** *** Result codes *)

Section CheckResult.
Context (lib : sevenzip.NativeLib).

Lemma check_result_ok (operation : string) (w : sevenzip.World) :
  sevenzip._check_result lib 0 operation w = (Returns tt, w).
Proof. reflexivity. Qed.

(** A failure asks the engine for its message and raises; nothing else is
    called. *)
Lemma check_result_fail (r : Z) (operation : string) (w : sevenzip.World) :
  r <> 0 ->
  exists e, sevenzip._check_result lib r operation w
            = (Raises e, w ++ [sevenzip.Call_get_last_error_message]).
Proof.
  intros Hr. unfold sevenzip._check_result.
  destruct (r =? _) eqn:E; [apply Z.eqb_eq in E; simpl in E; lia|].
  unfold decode_utf8. run.
  destruct (sevenzip.sz_get_last_error_message lib w) as [[|b bs]|]; simpl;
    try (destruct (utf8_valid (b :: bs)); simpl; [|eauto]);
    destruct (sevenzip.SzResult_of_value r); eauto.
Qed.

Lemma check_result_cases (r : Z) (operation : string) (w : sevenzip.World) :
  (r = 0 /\ sevenzip._check_result lib r operation w = (Returns tt, w))
  \/ (r <> 0 /\ exists e, sevenzip._check_result lib r operation w
                 = (Raises e, w ++ [sevenzip.Call_get_last_error_message])).
Proof.
  destruct (decide (r = 0)) as [->|Hr].
  - left. split; [done|apply check_result_ok].
  - right. split; [done|by apply check_result_fail].
Qed.

End CheckResult.

(** [Item(info)] builds the item when the path can be decoded and raises
    otherwise; it touches nothing. *)
Lemma item_init_cases {S : Type} (info : sevenzip.SzItemInfo.t) (s : S) :
  (path_valid info = true
   /\ sevenzip.Item.__init__ info s = (Returns (item_of info), s))
  \/ (path_valid info = false
      /\ sevenzip.Item.__init__ info s = (Raises sevenzip.UnicodeDecodeError, s)).
Proof.
  unfold sevenzip.Item.__init__, path_valid, item_of, path_text, decode_utf8, bind.
  destruct (sevenzip.SzItemInfo.path info) as [[|b bs]|]; simpl; [by left| |by left].
  destruct (utf8_valid (b :: bs)); simpl; [by left|by right].
Qed.

(** *** Names the mapping tables do not hold *)

Lemma format_map_unrecognized (k : string) :
  (k ∉ recognized_formats) -> sevenzip.Writer.format_map !! k = None.
Proof.
  unfold recognized_formats, sevenzip.Writer.format_map. intros Hk.
  rewrite !not_elem_of_cons in Hk.
  destruct Hk as (? & ? & ? & ? & ? & ? & ? & ? & ? & _).
  rewrite !lookup_insert_ne by done. apply lookup_empty.
Qed.

Lemma level_map_unrecognized (k : string) :
  (k ∉ recognized_levels) -> sevenzip.Writer.level_map !! k = None.
Proof.
  unfold recognized_levels, sevenzip.Writer.level_map. intros Hk.
  rewrite !not_elem_of_cons in Hk.
  destruct Hk as (? & ? & ? & ? & ? & _).
  rewrite !lookup_insert_ne by done. apply lookup_empty.
Qed.

(** The tables hold exactly the recognized names. *)
Lemma format_map_keys (k : string) :
  is_Some (sevenzip.Writer.format_map !! k) <-> k ∈ recognized_formats.
Proof.
  split.
  - intros Hs. destruct (decide (k ∈ recognized_formats)) as [|Hn]; [done|].
    rewrite (format_map_unrecognized k Hn) in Hs. by destruct Hs.
  - unfold recognized_formats. rewrite !elem_of_cons, elem_of_nil.
    intros [->|[->|[->|[->|[->|[->|[->|[->|[->|[]]]]]]]]]]; vm_compute; eauto.
Qed.

(** C10, as the code has it.  A format name whose lower-cased form is none of
    the nine keys makes [Writer.create] behave as with [SzFormat.SEVEN_Z]: the
    engine is called with format 0 and no error comes from the name.  A level
    name whose lower-cased form is none of the five keys makes
    [set_compression_level] behave as with [SzCompressionLevel.NORMAL]. *)
Theorem unrecognized_names_fall_back (lib : sevenzip.NativeLib)
    (path : string + pathlib.Path) (format level : string)
    (w : sevenzip.World) (s : sevenzip.Writer.t * sevenzip.World) :
  (lower format ∉ recognized_formats) ->
  (lower level ∉ recognized_levels) ->
  sevenzip.Writer.create lib path (inl format) w
    = sevenzip.Writer.create lib path (inr sevenzip.SEVEN_Z) w
  /\ (exists rest,
        snd (sevenzip.Writer.create lib path (inl format) w)
        = w ++ sevenzip.Call_writer_create (encode (sevenzip.str_of path))
                 (sevenzip.SzFormat_value sevenzip.SEVEN_Z) :: rest
        /\ (rest = [] \/ rest = [sevenzip.Call_get_last_error_message]))
  /\ sevenzip.Writer.set_compression_level lib (inl level) s
     = sevenzip.Writer.set_compression_level lib (inr sevenzip.NORMAL) s.
Proof.
  intros Hf Hl. split; [|split].
  - unfold sevenzip.Writer.create. by rewrite (format_map_unrecognized _ Hf).
  - unfold sevenzip.Writer.create. rewrite (format_map_unrecognized _ Hf). simpl.
    unfold bind at 1. unfold call at 1.
    destruct (sevenzip.sz_writer_create lib _ _ _) as [r h].
    destruct (check_result_cases lib r "创建归档写入器"
                (w ++ [sevenzip.Call_writer_create (encode (sevenzip.str_of path)) 0]))
      as [[-> Hc]|[_ [e Hc]]]; unfold bind; rewrite Hc; simpl.
    + exists []. auto.
    + exists [sevenzip.Call_get_last_error_message]. split; [|auto].
      by rewrite <- app_assoc.
  - unfold sevenzip.Writer.set_compression_level.
    by rewrite (level_map_unrecognized _ Hl).
Qed.

Lemma unrecognized_names_fall_back_witness :
  (lower "rar" ∉ recognized_formats)
  /\ (lower "best" ∉ recognized_levels)
  /\ sevenzip.Writer.create (Demo.lib [] 0) (inl "o.rar") (inl "rar") []
     = sevenzip.Writer.create (Demo.lib [] 0) (inl "o.rar") (inr sevenzip.SEVEN_Z) []
  /\ sevenzip.Writer.set_compression_level (Demo.lib [] 0) (inl "best") (Demo.fresh, [])
     = sevenzip.Writer.set_compression_level (Demo.lib [] 0) (inr sevenzip.NORMAL)
         (Demo.fresh, []).
Proof.
  assert (Hf : lower "rar" ∉ recognized_formats)
    by (apply (bool_decide_unpack _); vm_compute; exact I).
  assert (Hl : lower "best" ∉ recognized_levels)
    by (apply (bool_decide_unpack _); vm_compute; exact I).
  destruct (unrecognized_names_fall_back (Demo.lib [] 0) (inl "o.rar") "rar" "best"
              [] (Demo.fresh, []) Hf Hl) as (H1 & _ & H3).
  exact (conj Hf (conj Hl (conj H1 H3))).
Defined.

(** C10, the claim as worded fails: [ZIP] is none of the nine names, and
    [Writer.create] hands the engine the ZIP format, not 7z; [FAST] is none of
    the five level names, and the level set is FAST, not NORMAL. *)
Lemma uppercase_names_are_recognized :
  ("ZIP" ∉ recognized_formats)
  /\ snd (sevenzip.Writer.create (Demo.lib [] 0) (inl "o.zip") (inl "ZIP") [])
     = [sevenzip.Call_writer_create (encode "o.zip")
          (sevenzip.SzFormat_value sevenzip.ZIP)]
  /\ (sevenzip.SzFormat_value sevenzip.ZIP =? sevenzip.SzFormat_value sevenzip.SEVEN_Z)
     = false
  /\ ("FAST" ∉ recognized_levels)
  /\ snd (snd (sevenzip.Writer.set_compression_level (Demo.lib [] 0) (inl "FAST")
                 (Demo.fresh, [])))
     = [sevenzip.Call_writer_set_compression_level 2
          (sevenzip.SzCompressionLevel_value sevenzip.FAST)]
  /\ (sevenzip.SzCompressionLevel_value sevenzip.FAST
      =? sevenzip.SzCompressionLevel_value sevenzip.NORMAL) = false.
Proof.
  repeat split; try (vm_compute; reflexivity).
  - unfold recognized_formats. rewrite !not_elem_of_cons. repeat split; try done.
    apply not_elem_of_nil.
  - unfold recognized_levels. rewrite !not_elem_of_cons. repeat split; try done.
    apply not_elem_of_nil.
Qed.

(** *** Paths *)

Lemma split_not_nil (s : string) : pathlib.split s <> [].
Proof.
  destruct s as [|c r]; simpl; [done|].
  destruct (Ascii.eqb c "/"); [done|]. by destruct (pathlib.split r).
Qed.

Lemma split_app_sep (a b : string) :
  pathlib.split (a +:+ String "/" b) = pathlib.split a ++ pathlib.split b.
Proof.
  induction a as [|c a IH]; simpl; [done|].
  destruct (Ascii.eqb c "/"); [by rewrite IH|].
  rewrite IH. pose proof (split_not_nil a) as Hne.
  by destruct (pathlib.split a).
Qed.

Lemma split_no_sep (b : string) : no_sep b = true -> pathlib.split b = [b].
Proof.
  induction b as [|c b IH]; simpl; [done|].
  destruct (Ascii.eqb c "/"); simpl; [done|].
  intros Hb. by rewrite (IH Hb).
Qed.

Lemma components_leading_sep (r : string) :
  pathlib.components (String "/" r) = pathlib.components r.
Proof. reflexivity. Qed.

Lemma splitroot_relative (c : ascii) (r : string) :
  c <> "/"%char -> pathlib.splitroot (String c r) = ("", String c r).
Proof.
  intros Hc. destruct c as [[] [] [] [] [] [] [] []]; try reflexivity.
  by destruct Hc.
Qed.

Lemma components_splitroot (s : string) :
  pathlib.components (snd (pathlib.splitroot s)) = pathlib.components s.
Proof.
  destruct s as [|c1 s1]; [done|].
  destruct (decide (c1 = "/"%char)) as [->|H1]; [|by rewrite splitroot_relative].
  destruct s1 as [|c2 s2]; [done|].
  destruct (decide (c2 = "/"%char)) as [->|H2].
  - destruct s2 as [|c3 s3]; [done|].
    destruct (decide (c3 = "/"%char)) as [->|H3]; [done|].
    destruct c3 as [[] [] [] [] [] [] [] []]; reflexivity.
  - destruct c2 as [[] [] [] [] [] [] [] []]; try reflexivity. by destruct H2.
Qed.

Lemma tail_of_str (s : string) :
  pathlib.tail (pathlib.of_str s) = pathlib.components s.
Proof.
  unfold pathlib.of_str. rewrite <- components_splitroot.
  by destruct (pathlib.splitroot s).
Qed.

(** [Path(s).name] is what follows the last separator of [s], when that is
    a component (not empty, not [.]). *)
Lemma name_final_component (dir base : string) :
  no_sep base = true ->
  pathlib.is_component base = true ->
  pathlib.name (pathlib.of_str (dir +:+ String "/" base)) = base.
Proof.
  intros Hsep Hcomp. unfold pathlib.name. rewrite tail_of_str.
  unfold pathlib.components. rewrite split_app_sep, (split_no_sep base Hsep).
  rewrite List.filter_app. simpl. rewrite Hcomp. apply List.last_last.
Qed.

Lemma name_single_component (base : string) :
  no_sep base = true ->
  pathlib.is_component base = true ->
  pathlib.name (pathlib.of_str base) = base.
Proof.
  intros Hsep Hcomp. unfold pathlib.name. rewrite tail_of_str.
  unfold pathlib.components. rewrite (split_no_sep base Hsep). simpl.
  by rewrite Hcomp.
Qed.

(** *** [Writer.add_file] *)

(** C9. With the archive path left out, [add_file] on a usable writer makes
    exactly one [sz_writer_add_file] call, and the archive path it passes is
    the name (the final component) of the source path; for a source path
    [dir/base] that name is [base]. *)
Theorem add_file_default_archive_path (lib : sevenzip.NativeLib)
    (self : sevenzip.Writer.t) (w : sevenzip.World)
    (file_path : string + pathlib.Path) :
  sevenzip.truth (sevenzip.Writer._handle self) = true ->
  sevenzip.Writer._finalized self = false ->
  (exists rest,
     snd (snd (sevenzip.Writer.add_file lib file_path None (self, w)))
     = w ++ sevenzip.Call_writer_add_file
              (sevenzip.address (sevenzip.Writer._handle self))
              (encode (sevenzip.str_of file_path))
              (encode (pathlib.name (sevenzip.Path_of file_path))) :: rest
     /\ (rest = [] \/ rest = [sevenzip.Call_get_last_error_message]))
  /\ (forall dir base,
        no_sep base = true -> pathlib.is_component base = true ->
        file_path = inl (dir +:+ String "/" base) ->
        pathlib.name (sevenzip.Path_of file_path) = base).
Proof.
  intros Hh Hf. split.
  - unfold sevenzip.Writer.add_file. unfold bind at 1. unfold get_self at 1.
    simpl. rewrite Hh, Hf. simpl.
    set (h := sevenzip.address _). set (fp := encode _). set (ap := encode _).
    unfold bind, on_world, call. simpl.
    destruct (check_result_cases lib (sevenzip.sz_writer_add_file lib w h fp ap)
                "添加文件" (w ++ [sevenzip.Call_writer_add_file h fp ap]))
      as [[_ Hc]|[_ [e Hc]]]; rewrite Hc; simpl.
    + exists []. auto.
    + exists [sevenzip.Call_get_last_error_message]. split; [|auto].
      by rewrite <- app_assoc.
  - intros dir base Hsep Hcomp ->. simpl. by apply name_final_component.
Qed.

Lemma add_file_default_archive_path_witness :
  sevenzip.truth (sevenzip.Writer._handle Demo.fresh) = true
  /\ sevenzip.Writer._finalized Demo.fresh = false
  /\ pathlib.name (sevenzip.Path_of (inl "docs/notes/readme.txt")) = "readme.txt"
  /\ exists rest,
       snd (snd (sevenzip.Writer.add_file (Demo.lib [] 0) (inl "docs/notes/readme.txt")
                   None (Demo.fresh, [])))
       = [] ++ sevenzip.Call_writer_add_file 2 (encode "docs/notes/readme.txt")
                 (encode (pathlib.name (sevenzip.Path_of (inl "docs/notes/readme.txt"))))
               :: rest
       /\ (rest = [] \/ rest = [sevenzip.Call_get_last_error_message]).
Proof.
  split; [reflexivity|]. split; [reflexivity|].
  destruct (add_file_default_archive_path (Demo.lib [] 0) Demo.fresh []
              (inl "docs/notes/readme.txt") eq_refl eq_refl) as [Hcall Hname].
  split; [|exact Hcall].
  apply (Hname "docs/notes" "readme.txt"); reflexivity.
Defined.

(** *** What one call leaves behind *)

Ltac check_cases lib :=
  match goal with
  | |- context [sevenzip._check_result lib ?r ?op ?w] =>
      let H := fresh "Hc" in
      let e := fresh "e" in
      destruct (check_result_cases lib r op w) as [[? H]|[? [e H]]];
      rewrite H; simpl
  end.

Ltac steady_now :=
  split; [reflexivity|]; simpl; rewrite <- ?app_assoc; simpl;
  first [ by (exists []; rewrite app_nil_r; auto)
        | by (eexists; split; [reflexivity|]; repeat constructor) ].

Lemma steady_refl {O : Type} (s : O * sevenzip.World) : steady s s.
Proof. split; [done|]. exists []. by rewrite app_nil_r. Qed.

Lemma steady_trans {O : Type} (s1 s2 s3 : O * sevenzip.World) :
  steady s1 s2 -> steady s2 s3 -> steady s1 s3.
Proof.
  intros [H1 (e1 & Hw1 & F1)] [H2 (e2 & Hw2 & F2)]. split; [congruence|].
  exists (e1 ++ e2). rewrite Hw2, Hw1, app_assoc. split; [done|].
  by apply Forall_app.
Qed.

Lemma count_app (p : sevenzip.Event -> bool) (w1 w2 : sevenzip.World) :
  count p (w1 ++ w2) = (count p w1 + count p w2)%nat.
Proof. unfold count. by rewrite List.filter_app, List.length_app. Qed.

Lemma count_routine (p : sevenzip.Event -> bool) (evs : sevenzip.World) :
  (forall e, p e = true -> lifecycle e = true) ->
  Forall (fun e => lifecycle e = false) evs -> count p evs = 0%nat.
Proof.
  intros Hp. unfold count. induction 1 as [|e evs He _ IH]; simpl; [done|].
  destruct (p e) eqn:E; [|done]. apply Hp in E. congruence.
Qed.

Lemma steady_count {O : Type} (p : sevenzip.Event -> bool) (s s' : O * sevenzip.World) :
  (forall e, p e = true -> lifecycle e = true) ->
  steady s s' -> count p (snd s') = count p (snd s).
Proof.
  intros Hp [_ (evs & -> & F)]. rewrite count_app, (count_routine p evs Hp F). lia.
Qed.

Section Calls.
Context (lib : sevenzip.NativeLib) (host : sevenzip.Host).

Lemma item_count_steady s : steady s (snd (sevenzip.Archive.item_count lib s)).
Proof.
  destruct s as [self w]. unfold sevenzip.Archive.item_count. run.
  destruct (sevenzip.truth _); simpl; [|steady_now].
  destruct (sevenzip.sz_archive_get_item_count _ _ _) as [r n].
  check_cases lib; steady_now.
Qed.

Lemma get_item_info_steady i s :
  steady s (snd (sevenzip.Archive.get_item_info lib i s)).
Proof.
  destruct s as [self w]. unfold sevenzip.Archive.get_item_info. run.
  destruct (sevenzip.truth _); simpl; [|steady_now].
  destruct (sevenzip.sz_archive_get_item_info _ _ _ _) as [r n].
  check_cases lib; [|steady_now].
  match goal with
  | |- context [sevenzip.Item.__init__ n ?s] =>
      destruct (item_init_cases n s) as [[_ ->]|[_ ->]]
  end; steady_now.
Qed.

Lemma extract_to_memory_steady i s :
  steady s (snd (sevenzip.Archive.extract_to_memory lib host i s)).
Proof.
  destruct s as [self w]. unfold sevenzip.Archive.extract_to_memory. run.
  destruct (sevenzip.truth _); simpl; [|steady_now].
  destruct (sevenzip.sz_archive_extract_to_memory _ _ _ _) as [r [ptr n]].
  check_cases lib; steady_now.
Qed.

Lemma collect_steady (n : nat) : forall i s,
  steady s (snd (sevenzip.Archive.collect lib i n s)).
Proof.
  induction n as [|n IH]; intros i s; [apply steady_refl|].
  simpl. unfold bind at 1.
  pose proof (get_item_info_steady i s) as Hget.
  destruct (sevenzip.Archive.get_item_info lib i s) as [[item|e] s1]; [|exact Hget].
  unfold bind. pose proof (IH (i + 1) s1) as Hrest.
  destruct (sevenzip.Archive.collect lib (i + 1) n s1) as [[rest|e] s2];
    by eapply steady_trans.
Qed.

Lemma yielded_steady s : steady s (snd (sevenzip.Archive.yielded lib s)).
Proof.
  unfold sevenzip.Archive.yielded, bind.
  pose proof (item_count_steady s) as Hcount.
  destruct (sevenzip.Archive.item_count lib s) as [[count|e] s1]; [|exact Hcount].
  eapply steady_trans; [exact Hcount|apply collect_steady].
Qed.

Lemma add_file_steady f a s : steady s (snd (sevenzip.Writer.add_file lib f a s)).
Proof.
  destruct s as [self w]. unfold sevenzip.Writer.add_file. run.
  destruct (sevenzip.truth _); simpl; [|steady_now].
  destruct (sevenzip.Writer._finalized self); simpl; [steady_now|].
  check_cases lib; steady_now.
Qed.

Lemma add_directory_steady d r s :
  steady s (snd (sevenzip.Writer.add_directory lib d r s)).
Proof.
  destruct s as [self w]. unfold sevenzip.Writer.add_directory. run.
  destruct (sevenzip.truth _); simpl; [|steady_now].
  destruct (sevenzip.Writer._finalized self); simpl; [steady_now|].
  check_cases lib; steady_now.
Qed.

Lemma add_memory_steady d a s :
  steady s (snd (sevenzip.Writer.add_memory lib d a s)).
Proof.
  destruct s as [self w]. unfold sevenzip.Writer.add_memory. run.
  destruct (sevenzip.truth _); simpl; [|steady_now].
  destruct (sevenzip.Writer._finalized self); simpl; [steady_now|].
  check_cases lib; steady_now.
Qed.

Lemma set_password_steady p s :
  steady s (snd (sevenzip.Writer.set_password lib p s)).
Proof.
  destruct s as [self w]. unfold sevenzip.Writer.set_password. run.
  destruct (sevenzip.truth _); simpl; [|steady_now].
  destruct (sevenzip.Writer._finalized self); simpl; [steady_now|].
  check_cases lib; steady_now.
Qed.

Lemma set_compression_level_steady l s :
  steady s (snd (sevenzip.Writer.set_compression_level lib l s)).
Proof.
  destruct s as [self w]. unfold sevenzip.Writer.set_compression_level. run.
  destruct (sevenzip.truth _); simpl; [|steady_now].
  destruct (sevenzip.Writer._finalized self); simpl; [steady_now|].
  check_cases lib; steady_now.
Qed.

End Calls.

(** *** Release *)

Lemma close_spec (self : sevenzip.Archive.t) (w : sevenzip.World) :
  sevenzip.Archive.close (self, w)
  = if sevenzip.truth (sevenzip.Archive._handle self)
    then (Returns tt,
          ({| sevenzip.Archive._handle := None |},
           w ++ [sevenzip.Call_archive_close
                   (sevenzip.address (sevenzip.Archive._handle self))]))
    else (Returns tt, (self, w)).
Proof. unfold sevenzip.Archive.close. run. by destruct (sevenzip.truth _). Qed.

Lemma cancel_spec (self : sevenzip.Writer.t) (w : sevenzip.World) :
  sevenzip.Writer.cancel (self, w)
  = if sevenzip.truth (sevenzip.Writer._handle self)
    then (Returns tt,
          ({| sevenzip.Writer._handle := None; sevenzip.Writer._finalized := true |},
           w ++ [sevenzip.Call_writer_cancel
                   (sevenzip.address (sevenzip.Writer._handle self))]))
    else (Returns tt, (self, w)).
Proof. unfold sevenzip.Writer.cancel. run. by destruct (sevenzip.truth _). Qed.

(** The three ways [finalize] ends: refused for want of a handle, a silent
    return on a writer already finalized, or one native call. *)
Lemma finalize_spec (lib : sevenzip.NativeLib) (self : sevenzip.Writer.t)
    (w : sevenzip.World) :
  let h := sevenzip.address (sevenzip.Writer._handle self) in
  (sevenzip.truth (sevenzip.Writer._handle self) = false
   /\ sevenzip.Writer.finalize lib (self, w)
      = (Raises (sevenzip.SevenZipError "写入器未初始化" sevenzip.FAIL), (self, w)))
  \/ (sevenzip.truth (sevenzip.Writer._handle self) = true
      /\ sevenzip.Writer._finalized self = true
      /\ sevenzip.Writer.finalize lib (self, w) = (Returns tt, (self, w)))
  \/ (sevenzip.truth (sevenzip.Writer._handle self) = true
      /\ sevenzip.Writer._finalized self = false
      /\ sevenzip.sz_writer_finalize lib w h = 0
      /\ sevenzip.Writer.finalize lib (self, w)
         = (Returns tt,
            ({| sevenzip.Writer._handle := sevenzip.Writer._handle self;
                sevenzip.Writer._finalized := true |},
             w ++ [sevenzip.Call_writer_finalize h])))
  \/ (sevenzip.truth (sevenzip.Writer._handle self) = true
      /\ sevenzip.Writer._finalized self = false
      /\ sevenzip.sz_writer_finalize lib w h <> 0
      /\ exists e,
           sevenzip.Writer.finalize lib (self, w)
           = (Raises e,
              (self, w ++ [sevenzip.Call_writer_finalize h;
                           sevenzip.Call_get_last_error_message]))).
Proof.
  intros h. unfold sevenzip.Writer.finalize. run.
  destruct (sevenzip.truth _) eqn:Ht; simpl; [|by left].
  destruct (sevenzip.Writer._finalized self) eqn:Hf; simpl; [by right; left|].
  right; right. fold h.
  destruct (check_result_cases lib (sevenzip.sz_writer_finalize lib w h) "完成归档"
              (w ++ [sevenzip.Call_writer_finalize h])) as [[Hr Hc]|[Hr [e Hc]]];
    rewrite Hc; simpl.
  - left. auto.
  - right. repeat split; try done. exists e. by rewrite <- app_assoc.
Qed.

Lemma finalize_returns (lib : sevenzip.NativeLib)
    (s s' : sevenzip.Writer.t * sevenzip.World) :
  sevenzip.Writer.finalize lib s = (Returns tt, s') ->
  sevenzip.truth (sevenzip.Writer._handle (fst s')) = true
  /\ sevenzip.Writer._finalized (fst s') = true
  /\ sevenzip.Writer._handle (fst s') = sevenzip.Writer._handle (fst s).
Proof.
  destruct s as [self w]. intros Hfin.
  destruct (finalize_spec lib self w)
    as [[_ H]|[(Ht & Hf & H)|[(Ht & Hf & _ & H)|(_ & _ & _ & e & H)]]];
    rewrite H in Hfin; inversion Hfin; subst; simpl; auto.
Qed.

Lemma cancel_releases (s : sevenzip.Writer.t * sevenzip.World) :
  sevenzip.truth (sevenzip.Writer._handle (fst (snd (sevenzip.Writer.cancel s)))) = false.
Proof.
  destruct s as [self w]. rewrite cancel_spec.
  destruct (sevenzip.truth (sevenzip.Writer._handle self)) eqn:E; simpl; auto.
Qed.

Lemma close_releases (a : sevenzip.Archive.t * sevenzip.World) :
  sevenzip.truth (sevenzip.Archive._handle (fst (snd (sevenzip.Archive.close a)))) = false.
Proof.
  destruct a as [self w]. rewrite close_spec.
  destruct (sevenzip.truth (sevenzip.Archive._handle self)) eqn:E; simpl; auto.
Qed.

(** *** Calls on a released object *)

Section Guards.
Context (lib : sevenzip.NativeLib) (host : sevenzip.Host).

Lemma writer_guard (s : sevenzip.Writer.t * sevenzip.World) :
  sevenzip.truth (sevenzip.Writer._handle (fst s)) = false
  \/ sevenzip.Writer._finalized (fst s) = true ->
  (forall f a, rejected (sevenzip.Writer.add_file lib f a) s)
  /\ (forall d r, rejected (sevenzip.Writer.add_directory lib d r) s)
  /\ (forall d a, rejected (sevenzip.Writer.add_memory lib d a) s)
  /\ (forall p, rejected (sevenzip.Writer.set_password lib p) s)
  /\ (forall l, rejected (sevenzip.Writer.set_compression_level lib l) s).
Proof.
  destruct s as [self w]. simpl. intros Hterm.
  repeat split; intros;
    unfold rejected, sevenzip.Writer.add_file, sevenzip.Writer.add_directory,
      sevenzip.Writer.add_memory, sevenzip.Writer.set_password,
      sevenzip.Writer.set_compression_level; run;
    destruct (sevenzip.truth _); simpl; eauto;
    (destruct Hterm as [Hterm|Hterm]; [done|rewrite Hterm; eauto]).
Qed.

Lemma archive_guard (a : sevenzip.Archive.t * sevenzip.World) :
  sevenzip.truth (sevenzip.Archive._handle (fst a)) = false ->
  rejected (sevenzip.Archive.item_count lib) a
  /\ (forall i, rejected (sevenzip.Archive.get_item_info lib i) a)
  /\ (forall i, rejected (sevenzip.Archive.extract_to_memory lib host i) a).
Proof.
  destruct a as [self w]. simpl. intros Ht.
  repeat split; intros;
    unfold rejected, sevenzip.Archive.item_count, sevenzip.Archive.get_item_info,
      sevenzip.Archive.extract_to_memory; run; rewrite Ht; simpl; eauto.
Qed.

End Guards.

(** C2, as the code has it.  On a writer that [finalize] has completed or
    [cancel] has been called on, each of [add_file], [add_directory],
    [add_memory], [set_password] and [set_compression_level], and on an
    archive after [close] each of [item_count], [get_item_info] and
    [extract_to_memory], raises [SevenZipError] carrying the generic code
    [FAIL], with the object and the call history unchanged: no native function
    is invoked. *)
Theorem released_objects_reject_calls (lib : sevenzip.NativeLib) (host : sevenzip.Host)
    (s s' : sevenzip.Writer.t * sevenzip.World)
    (a a' : sevenzip.Archive.t * sevenzip.World) :
  sevenzip.Writer.finalize lib s = (Returns tt, s')
  \/ snd (sevenzip.Writer.cancel s) = s' ->
  snd (sevenzip.Archive.close a) = a' ->
  (forall f p, rejected (sevenzip.Writer.add_file lib f p) s')
  /\ (forall d r, rejected (sevenzip.Writer.add_directory lib d r) s')
  /\ (forall d p, rejected (sevenzip.Writer.add_memory lib d p) s')
  /\ (forall p, rejected (sevenzip.Writer.set_password lib p) s')
  /\ (forall l, rejected (sevenzip.Writer.set_compression_level lib l) s')
  /\ rejected (sevenzip.Archive.item_count lib) a'
  /\ (forall i, rejected (sevenzip.Archive.get_item_info lib i) a')
  /\ (forall i, rejected (sevenzip.Archive.extract_to_memory lib host i) a').
Proof.
  intros Hw Ha.
  assert (Hterm : sevenzip.truth (sevenzip.Writer._handle (fst s')) = false
                  \/ sevenzip.Writer._finalized (fst s') = true).
  { destruct Hw as [Hfin|<-].
    - right. by destruct (finalize_returns lib s s' Hfin) as (_ & ? & _).
    - left. apply cancel_releases. }
  destruct (writer_guard lib s' Hterm) as (H1 & H2 & H3 & H4 & H5).
  destruct (archive_guard lib host a') as (H6 & H7 & H8).
  { subst a'. apply close_releases. }
  repeat split; assumption.
Qed.

Lemma released_objects_reject_calls_witness :
  rejected (sevenzip.Writer.add_file (Demo.lib [] 0) (inl "a.txt") None)
    (Demo.finalized, [sevenzip.Call_writer_finalize 2])
  /\ rejected (sevenzip.Archive.item_count (Demo.lib [] 0))
       (Demo.closed, [sevenzip.Call_archive_close 1]).
Proof.
  destruct (released_objects_reject_calls (Demo.lib [] 0) (Demo.host [])
              (Demo.fresh, []) (Demo.finalized, [sevenzip.Call_writer_finalize 2])
              (Demo.opened, []) (Demo.closed, [sevenzip.Call_archive_close 1])
              (or_introl eq_refl) eq_refl)
    as (H1 & _ & _ & _ & _ & H6 & _).
  exact (conj (H1 (inl "a.txt") None) H6).
Defined.

(** C2, the claim as worded fails on the kind of error: the error raised on a
    cancelled writer carries the code [FAIL], and the enumeration of
    [sevenzip.py] has no member [INVALID_STATE] an error could carry. *)
Lemma rejection_code_is_FAIL :
  sevenzip.Writer.add_file (Demo.lib [] 0) (inl "a.txt") None (Demo.cancelled, [])
  = (Raises (sevenzip.SevenZipError "写入器未初始化" sevenzip.FAIL),
     (Demo.cancelled, []))
  /\ sevenzip.SzResult_name sevenzip.FAIL = "FAIL"
  /\ sevenzip.SzResult_of_name "INVALID_STATE" = None
  /\ sevenzip.Archive.item_count (Demo.lib [] 0) (Demo.closed, [])
     = (Raises (sevenzip.SevenZipError "归档未打开" sevenzip.FAIL), (Demo.closed, [])).
Proof. repeat split; vm_compute; reflexivity. Qed.

(** *** [cancel] and [finalize] after a successful [finalize] *)

(** C1, as the code has it.  After a successful [finalize] the writer still
    holds its handle.  [cancel] then does not raise: it calls
    [sz_writer_cancel] once on that handle and clears it, and a further
    [cancel] changes nothing.  A second [finalize] made while the handle is
    held returns silently, with no native call; a [finalize] made after the
    [cancel] raises [SevenZipError] with the code [FAIL], with no native call. *)
Theorem cancel_and_finalize_after_finalize (lib : sevenzip.NativeLib)
    (s s1 : sevenzip.Writer.t * sevenzip.World) :
  sevenzip.Writer.finalize lib s = (Returns tt, s1) ->
  let s2 := ({| sevenzip.Writer._handle := None; sevenzip.Writer._finalized := true |},
             snd s1 ++ [sevenzip.Call_writer_cancel
                          (sevenzip.address (sevenzip.Writer._handle (fst s1)))]) in
  sevenzip.Writer.cancel s1 = (Returns tt, s2)
  /\ sevenzip.Writer.cancel s2 = (Returns tt, s2)
  /\ sevenzip.Writer.finalize lib s1 = (Returns tt, s1)
  /\ sevenzip.Writer.finalize lib s2
     = (Raises (sevenzip.SevenZipError "写入器未初始化" sevenzip.FAIL), s2).
Proof.
  intros Hfin s2. destruct (finalize_returns lib s s1 Hfin) as (Ht & Hf & _).
  destruct s1 as [self1 w1]. simpl in *.
  split; [by rewrite cancel_spec, Ht|].
  split; [reflexivity|].
  split; [|reflexivity].
  destruct (finalize_spec lib self1 w1)
    as [[Hn _]|[(_ & _ & H)|[(_ & Hn & _)|(_ & Hn & _)]]]; congruence.
Qed.

Lemma cancel_and_finalize_after_finalize_witness :
  sevenzip.Writer.finalize (Demo.lib [] 0) (Demo.fresh, [])
  = (Returns tt, (Demo.finalized, [sevenzip.Call_writer_finalize 2]))
  /\ sevenzip.Writer.cancel (Demo.finalized, [sevenzip.Call_writer_finalize 2])
     = (Returns tt,
        (Demo.cancelled, [sevenzip.Call_writer_finalize 2; sevenzip.Call_writer_cancel 2]))
  /\ sevenzip.Writer.finalize (Demo.lib [] 0)
       (Demo.finalized, [sevenzip.Call_writer_finalize 2])
     = (Returns tt, (Demo.finalized, [sevenzip.Call_writer_finalize 2])).
Proof.
  split; [reflexivity|].
  destruct (cancel_and_finalize_after_finalize (Demo.lib [] 0) (Demo.fresh, [])
              (Demo.finalized, [sevenzip.Call_writer_finalize 2]) eq_refl)
    as (H1 & _ & H3 & _).
  exact (conj H1 H3).
Defined.

(** C1, the claim as worded fails twice on a writer just finalized: the
    second [finalize] returns instead of being rejected, and [cancel] is no
    no-op, since it calls [sz_writer_cancel] and clears the handle. *)
Lemma second_finalize_is_not_rejected :
  sevenzip.Writer.finalize (Demo.lib [] 0) (Demo.fresh, [])
  = (Returns tt, (Demo.finalized, [sevenzip.Call_writer_finalize 2]))
  /\ sevenzip.Writer.finalize (Demo.lib [] 0)
       (Demo.finalized, [sevenzip.Call_writer_finalize 2])
     = (Returns tt, (Demo.finalized, [sevenzip.Call_writer_finalize 2]))
  /\ sevenzip.Writer.cancel (Demo.finalized, [sevenzip.Call_writer_finalize 2])
     = (Returns tt,
        (Demo.cancelled, [sevenzip.Call_writer_finalize 2; sevenzip.Call_writer_cancel 2])).
Proof. repeat split; vm_compute; reflexivity. Qed.

(** *** At most one release *)

Section AtMostOnce.
Context (lib : sevenzip.NativeLib) (host : sevenzip.Host).

Lemma close_implies_lifecycle e : is_close e = true -> lifecycle e = true.
Proof. by destruct e. Qed.

Lemma cancel_implies_lifecycle e : is_cancel e = true -> lifecycle e = true.
Proof. by destruct e. Qed.

Lemma steady_holds_handle (s s' : sevenzip.Writer.t * sevenzip.World) :
  steady s s' -> holds_handle s s'.
Proof.
  intros [Ho (evs & Hw & F)]. split; [by rewrite Ho|].
  exists evs. split; [done|]. eapply Forall_impl; [exact F|].
  intros e He. simpl in *. by destruct e.
Qed.

Lemma holds_handle_refl s : holds_handle s s.
Proof. apply steady_holds_handle, steady_refl. Qed.

Lemma holds_handle_trans s1 s2 s3 :
  holds_handle s1 s2 -> holds_handle s2 s3 -> holds_handle s1 s3.
Proof.
  intros [H1 (e1 & Hw1 & F1)] [H2 (e2 & Hw2 & F2)]. split; [congruence|].
  exists (e1 ++ e2). rewrite Hw2, Hw1, app_assoc. split; [done|].
  by apply Forall_app.
Qed.

Lemma holds_handle_count s s' :
  holds_handle s s' -> count is_cancel (snd s') = count is_cancel (snd s).
Proof.
  intros [_ (evs & -> & F)]. rewrite count_app.
  assert (count is_cancel evs = 0%nat) as ->; [|lia].
  unfold count. induction F as [|e evs He _ IH]; simpl; [done|]. by rewrite He.
Qed.

Lemma finalize_holds_handle s : holds_handle s (snd (sevenzip.Writer.finalize lib s)).
Proof.
  destruct s as [self w].
  destruct (finalize_spec lib self w)
    as [[_ H]|[(_ & _ & H)|[(_ & _ & _ & H)|(_ & _ & _ & e & H)]]]; rewrite H; simpl.
  - apply holds_handle_refl.
  - apply holds_handle_refl.
  - split; [done|]. eexists. split; [reflexivity|]. by repeat constructor.
  - split; [done|]. eexists. split; [reflexivity|]. by repeat constructor.
Qed.

(** The state [Writer.__exit__] leaves: that of [cancel], run after
    [finalize] when no exception is pending and [finalize] returns. *)
Lemma writer_exit_state (exc : option sevenzip.exn)
    (s : sevenzip.Writer.t * sevenzip.World) :
  snd (sevenzip.Writer.__exit__ lib exc s)
  = match exc with
    | Some _ => snd (sevenzip.Writer.cancel s)
    | None =>
        match sevenzip.Writer.finalize lib s with
        | (Returns _, s1) => snd (sevenzip.Writer.cancel s1)
        | (Raises _, s1) => s1
        end
    end.
Proof.
  assert (Hthen : forall s0 : sevenzip.Writer.t * sevenzip.World,
             snd ((sevenzip.Writer.cancel;;; ret false) s0)
             = snd (sevenzip.Writer.cancel s0)).
  { intros [self0 w0]. unfold bind. rewrite cancel_spec.
    by destruct (sevenzip.truth _). }
  unfold sevenzip.Writer.__exit__. destruct exc as [e|].
  - exact (Hthen s).
  - unfold bind at 1.
    destruct (sevenzip.Writer.finalize lib s) as [[[]|e] s1]; [apply Hthen|done].
Qed.

(** One call on an archive either leaves the handle alone and closes nothing,
    or it is the one that closes a live handle and clears it. *)
Lemma archive_call_cases (c : ArchiveCall) (s : sevenzip.Archive.t * sevenzip.World) :
  steady s (archive_call lib host c s)
  \/ (sevenzip.truth (sevenzip.Archive._handle (fst s)) = true
      /\ archive_call lib host c s
         = ({| sevenzip.Archive._handle := None |},
            snd s ++ [sevenzip.Call_archive_close
                        (sevenzip.address (sevenzip.Archive._handle (fst s)))])).
Proof.
  destruct c; simpl.
  - destruct s as [self w]. rewrite close_spec.
    destruct (sevenzip.truth _) eqn:Ht; simpl; [right; auto|left; apply steady_refl].
  - destruct s as [self w]. unfold sevenzip.Archive.__exit__, bind.
    rewrite close_spec.
    destruct (sevenzip.truth _) eqn:Ht; simpl; [right; auto|left; apply steady_refl].
  - left. apply item_count_steady.
  - left. apply get_item_info_steady.
  - left. apply extract_to_memory_steady.
  - left. apply item_count_steady.
  - left. apply yielded_steady.
Qed.

Lemma writer_call_cases (c : WriterCall) (s : sevenzip.Writer.t * sevenzip.World) :
  holds_handle s (writer_call lib c s)
  \/ (sevenzip.truth (sevenzip.Writer._handle (fst s)) = true
      /\ sevenzip.Writer._handle (fst (writer_call lib c s)) = None
      /\ count is_cancel (snd (writer_call lib c s))
         = S (count is_cancel (snd s))).
Proof.
  assert (Hcancel : forall s0 : sevenzip.Writer.t * sevenzip.World,
             holds_handle s0 (snd (sevenzip.Writer.cancel s0))
             \/ (sevenzip.truth (sevenzip.Writer._handle (fst s0)) = true
                 /\ sevenzip.Writer._handle (fst (snd (sevenzip.Writer.cancel s0))) = None
                 /\ count is_cancel (snd (snd (sevenzip.Writer.cancel s0)))
                    = S (count is_cancel (snd s0)))).
  { intros [self0 w0]. rewrite cancel_spec.
    destruct (sevenzip.truth _) eqn:Ht; simpl; [right|left; apply holds_handle_refl].
    repeat split. rewrite count_app. simpl. unfold count at 2. simpl. lia. }
  destruct c; simpl;
    try (left; apply steady_holds_handle;
         first [ apply add_file_steady | apply add_directory_steady
               | apply add_memory_steady | apply set_password_steady
               | apply set_compression_level_steady ]).
  - left. apply finalize_holds_handle.
  - apply Hcancel.
  - rewrite writer_exit_state. destruct exc as [e|]; [apply Hcancel|].
    pose proof (finalize_holds_handle s) as Hfin.
    destruct (sevenzip.Writer.finalize lib s) as [[[]|e] s1]; simpl in *;
      [|by left].
    destruct (Hcancel s1) as [Hh|(Ht & Hn & Hc)].
    + left. by eapply holds_handle_trans.
    + right. destruct Hfin as [Hsame Hevs].
      split; [by rewrite <- Hsame|]. split; [done|].
      rewrite Hc. f_equal. apply holds_handle_count. by split.
Qed.

Lemma archive_released_stays (cs : list ArchiveCall)
    (s : sevenzip.Archive.t * sevenzip.World) :
  sevenzip.truth (sevenzip.Archive._handle (fst s)) = false ->
  steady s (archive_session lib host cs s).
Proof.
  revert s. induction cs as [|c cs IH]; intros s Ht; simpl; [apply steady_refl|].
  destruct (archive_call_cases c s) as [Hst|[Hlive _]]; [|congruence].
  eapply steady_trans; [exact Hst|]. apply IH.
  destruct Hst as [-> _]. exact Ht.
Qed.

Lemma writer_released_stays (cs : list WriterCall)
    (s : sevenzip.Writer.t * sevenzip.World) :
  sevenzip.truth (sevenzip.Writer._handle (fst s)) = false ->
  holds_handle s (writer_session lib cs s).
Proof.
  revert s. induction cs as [|c cs IH]; intros s Ht; simpl; [apply holds_handle_refl|].
  destruct (writer_call_cases c s) as [Hst|[Hlive _]]; [|congruence].
  eapply holds_handle_trans; [exact Hst|]. apply IH.
  destruct Hst as [-> _]. exact Ht.
Qed.

Lemma archive_session_cases (cs : list ArchiveCall)
    (s : sevenzip.Archive.t * sevenzip.World) :
  steady s (archive_session lib host cs s)
  \/ (count is_close (snd (archive_session lib host cs s)) = S (count is_close (snd s))
      /\ sevenzip.Archive._handle (fst (archive_session lib host cs s)) = None).
Proof.
  revert s. induction cs as [|c cs IH]; intros s; simpl; [left; apply steady_refl|].
  destruct (archive_call_cases c s) as [Hst|[Hlive Hrel]].
  - destruct (IH (archive_call lib host c s)) as [Hst'|[Hc Hn]].
    + left. by eapply steady_trans.
    + right. split; [|done].
      by rewrite Hc, (steady_count is_close _ _ close_implies_lifecycle Hst).
  - right. rewrite Hrel.
    pose proof (archive_released_stays cs
                  ({| sevenzip.Archive._handle := None |},
                   snd s ++ [sevenzip.Call_archive_close
                               (sevenzip.address (sevenzip.Archive._handle (fst s)))])
                  eq_refl) as Hst.
    split.
    + rewrite (steady_count is_close _ _ close_implies_lifecycle Hst). simpl.
      rewrite count_app. unfold count at 2. simpl. lia.
    + by destruct Hst as [-> _].
Qed.

Lemma writer_session_cases (cs : list WriterCall)
    (s : sevenzip.Writer.t * sevenzip.World) :
  holds_handle s (writer_session lib cs s)
  \/ (count is_cancel (snd (writer_session lib cs s)) = S (count is_cancel (snd s))
      /\ sevenzip.Writer._handle (fst (writer_session lib cs s)) = None).
Proof.
  revert s. induction cs as [|c cs IH]; intros s; simpl; [left; apply holds_handle_refl|].
  destruct (writer_call_cases c s) as [Hst|(Hlive & Hnone & Hcount)].
  - destruct (IH (writer_call lib c s)) as [Hst'|[Hc Hn]].
    + left. by eapply holds_handle_trans.
    + right. split; [|done]. by rewrite Hc, (holds_handle_count _ _ Hst).
  - right.
    assert (Hdead : sevenzip.truth (sevenzip.Writer._handle (fst (writer_call lib c s)))
                    = false) by (by rewrite Hnone).
    pose proof (writer_released_stays cs _ Hdead) as Hst.
    split.
    + by rewrite (holds_handle_count _ _ Hst).
    + destruct Hst as [-> _]. exact Hnone.
Qed.

End AtMostOnce.

(** C3. Over any sequence of calls on one archive, and so over any sequence
    of [close] calls, [sz_archive_close] is invoked at most once; over any
    sequence of calls on one writer, and so over any sequence of [cancel]
    calls, [sz_writer_cancel] is invoked at most once.  Once the release has
    been made the object's handle is [None], which is what stops a second
    one. *)
Theorem release_at_most_once (lib : sevenzip.NativeLib) (host : sevenzip.Host)
    (cs : list ArchiveCall) (ws : list WriterCall) (n : nat)
    (a : sevenzip.Archive.t * sevenzip.World)
    (s : sevenzip.Writer.t * sevenzip.World) :
  let a' := archive_session lib host cs a in
  let s' := writer_session lib ws s in
  (count is_close (snd a') <= count is_close (snd a) + 1)%nat
  /\ (count is_cancel (snd s') <= count is_cancel (snd s) + 1)%nat
  /\ (count is_close (snd a') = count is_close (snd a)
      \/ sevenzip.Archive._handle (fst a') = None)
  /\ (count is_cancel (snd s') = count is_cancel (snd s)
      \/ sevenzip.Writer._handle (fst s') = None)
  /\ (count is_close (snd (archive_session lib host (repeat Archive_close n) a))
      <= count is_close (snd a) + 1)%nat
  /\ (count is_cancel (snd (writer_session lib (repeat Writer_cancel n) s))
      <= count is_cancel (snd s) + 1)%nat.
Proof.
  intros a' s'.
  assert (HA : forall l,
             (count is_close (snd (archive_session lib host l a))
              <= count is_close (snd a) + 1)%nat
             /\ (count is_close (snd (archive_session lib host l a))
                 = count is_close (snd a)
                 \/ sevenzip.Archive._handle (fst (archive_session lib host l a)) = None)).
  { intros l. destruct (archive_session_cases lib host l a) as [Hst|[Hc Hn]].
    - rewrite (steady_count is_close _ _ close_implies_lifecycle Hst). split; [lia|auto].
    - rewrite Hc. split; [lia|auto]. }
  assert (HW : forall l,
             (count is_cancel (snd (writer_session lib l s))
              <= count is_cancel (snd s) + 1)%nat
             /\ (count is_cancel (snd (writer_session lib l s))
                 = count is_cancel (snd s)
                 \/ sevenzip.Writer._handle (fst (writer_session lib l s)) = None)).
  { intros l. destruct (writer_session_cases lib l s) as [Hst|[Hc Hn]].
    - rewrite (holds_handle_count _ _ Hst). split; [lia|auto].
    - rewrite Hc. split; [lia|auto]. }
  subst a' s'.
  destruct (HA cs) as [H1 H3]. destruct (HW ws) as [H2 H4].
  destruct (HA (repeat Archive_close n)) as [H5 _].
  destruct (HW (repeat Writer_cancel n)) as [H6 _].
  repeat split; assumption.
Qed.

(** *** Reading an archive *)

Section Reading.
Context (lib : sevenzip.NativeLib) (host : sevenzip.Host).

Lemma item_count_ok (self : sevenzip.Archive.t) (w : sevenzip.World) (n : Z) :
  sevenzip.truth (sevenzip.Archive._handle self) = true ->
  sevenzip.sz_archive_get_item_count lib w
    (sevenzip.address (sevenzip.Archive._handle self)) = (0, n) ->
  sevenzip.Archive.item_count lib (self, w)
  = (Returns n,
     (self, w ++ [sevenzip.Call_archive_get_item_count
                    (sevenzip.address (sevenzip.Archive._handle self))])).
Proof.
  intros Ht Hn. unfold sevenzip.Archive.item_count. run. rewrite Ht. simpl. rewrite Hn.
  by rewrite check_result_ok.
Qed.

Lemma get_item_info_ok (self : sevenzip.Archive.t) (w : sevenzip.World) (i : Z)
    (info : sevenzip.SzItemInfo.t) :
  sevenzip.truth (sevenzip.Archive._handle self) = true ->
  sevenzip.sz_archive_get_item_info lib w
    (sevenzip.address (sevenzip.Archive._handle self)) i = (0, info) ->
  path_valid info = true ->
  sevenzip.Archive.get_item_info lib i (self, w)
  = (Returns (item_of info),
     (self, w ++ [sevenzip.Call_archive_get_item_info
                    (sevenzip.address (sevenzip.Archive._handle self)) i])).
Proof.
  intros Ht Hn Hv. unfold sevenzip.Archive.get_item_info. run. rewrite Ht. simpl.
  rewrite Hn. rewrite check_result_ok.
  match goal with
  | |- context [sevenzip.Item.__init__ info ?s] =>
      destruct (item_init_cases info s) as [[_ ->]|[Hno _]]
  end; [done|congruence].
Qed.

(** The three ways [extract_to_memory] ends: refused for want of a handle,
    failed in the engine (nothing was allocated for the caller, nothing is
    freed), or extracted, copied and freed, in that order. *)
Lemma extract_to_memory_spec (self : sevenzip.Archive.t) (w : sevenzip.World)
    (index : Z) :
  let h := sevenzip.address (sevenzip.Archive._handle self) in
  let answer := sevenzip.sz_archive_extract_to_memory lib w h index in
  let w1 := w ++ [sevenzip.Call_archive_extract_to_memory h index] in
  (sevenzip.truth (sevenzip.Archive._handle self) = false
   /\ sevenzip.Archive.extract_to_memory lib host index (self, w)
      = (Raises (sevenzip.SevenZipError "归档未打开" sevenzip.FAIL), (self, w)))
  \/ (sevenzip.truth (sevenzip.Archive._handle self) = true
      /\ fst answer <> 0
      /\ exists e,
           sevenzip.Archive.extract_to_memory lib host index (self, w)
           = (Raises e, (self, w1 ++ [sevenzip.Call_get_last_error_message])))
  \/ (sevenzip.truth (sevenzip.Archive._handle self) = true
      /\ fst answer = 0
      /\ sevenzip.Archive.extract_to_memory lib host index (self, w)
         = (Returns (sevenzip.string_at host w1 (fst (snd answer)) (snd (snd answer))),
            (self, w1 ++ [sevenzip.Copy_string_at (fst (snd answer)) (snd (snd answer));
                          sevenzip.Call_memory_free (fst (snd answer))]))).
Proof.
  intros h answer w1. unfold sevenzip.Archive.extract_to_memory. run.
  destruct (sevenzip.truth _) eqn:Ht; simpl; [|by left]. right.
  fold h. fold answer. destruct answer as [r [ptr size]]. simpl. fold w1.
  destruct (check_result_cases lib r "提取到内存" w1) as [[-> Hc]|[Hr [e Hc]]];
    rewrite Hc; simpl.
  - right. repeat split. by rewrite <- app_assoc.
  - left. repeat split; [done|]. by exists e.
Qed.

End Reading.

(** C7. Whenever [extract_to_memory] returns, it has made three steps in this
    order and nothing else: the native extraction, the copy of the buffer
    into a Python [bytes] object, and [sz_memory_free] on the buffer.  The free
    call is the only one of the call, it is the last event, and the bytes
    returned are those the buffer held before it: they are a value of their
    own, which nothing the engine does from the free call on can change. *)
Theorem extracted_buffer_freed_once (lib : sevenzip.NativeLib) (host : sevenzip.Host)
    (index : Z) (s s' : sevenzip.Archive.t * sevenzip.World) (data : bytes) :
  sevenzip.Archive.extract_to_memory lib host index s = (Returns data, s') ->
  let h := sevenzip.address (sevenzip.Archive._handle (fst s)) in
  let buffer := snd (sevenzip.sz_archive_extract_to_memory lib (snd s) h index) in
  let w1 := snd s ++ [sevenzip.Call_archive_extract_to_memory h index] in
  fst s' = fst s
  /\ snd s' = w1 ++ [sevenzip.Copy_string_at (fst buffer) (snd buffer);
                     sevenzip.Call_memory_free (fst buffer)]
  /\ data = sevenzip.string_at host w1 (fst buffer) (snd buffer)
  /\ count is_free (snd s') = S (count is_free (snd s))
  /\ count is_free w1 = count is_free (snd s).
Proof.
  destruct s as [self w]. intros Hret h buffer w1. simpl in h, buffer, w1.
  destruct (extract_to_memory_spec lib host self w index)
    as [[_ H]|[(_ & _ & e & H)|(_ & _ & H)]];
    rewrite H in Hret; inversion Hret; subst; clear Hret.
  fold h buffer w1. simpl. repeat split.
  - rewrite count_app. unfold w1. rewrite count_app. unfold count at 2 3. simpl. lia.
  - unfold w1. rewrite count_app. unfold count at 2. simpl. lia.
Qed.

Lemma extracted_buffer_freed_once_witness :
  sevenzip.Archive.extract_to_memory (Demo.lib Demo.entries 0) (Demo.host Demo.entries) 2
    (Demo.opened, [])
  = (Returns (encode "three"),
     (Demo.opened,
      [sevenzip.Call_archive_extract_to_memory 1 2; sevenzip.Copy_string_at 4098 5;
       sevenzip.Call_memory_free 4098]))
  /\ count is_free
       [sevenzip.Call_archive_extract_to_memory 1 2; sevenzip.Copy_string_at 4098 5;
        sevenzip.Call_memory_free 4098] = 1%nat.
Proof.
  split; [reflexivity|].
  destruct (extracted_buffer_freed_once (Demo.lib Demo.entries 0) (Demo.host Demo.entries)
              2 (Demo.opened, [])
              (Demo.opened,
               [sevenzip.Call_archive_extract_to_memory 1 2;
                sevenzip.Copy_string_at 4098 5; sevenzip.Call_memory_free 4098])
              (encode "three") eq_refl) as (_ & _ & _ & Hfree & _).
  exact Hfree.
Defined.

(** *** The cleanup of a writer *)

Section Cleanup.
Context (lib : sevenzip.NativeLib) (host : sevenzip.Host).

(** With an exception pending, [__exit__] is [cancel]: it never reaches
    [finalize], and it lets the exception through. *)
Lemma writer_exit_pending (e : sevenzip.exn) (s : sevenzip.Writer.t * sevenzip.World) :
  sevenzip.Writer.__exit__ lib (Some e) s
  = (Returns false, snd (sevenzip.Writer.cancel s)).
Proof.
  destruct s as [self w]. unfold sevenzip.Writer.__exit__, bind, ret.
  rewrite cancel_spec. by destruct (sevenzip.truth _).
Qed.

Lemma cancel_events (s : sevenzip.Writer.t * sevenzip.World) :
  count is_finalize (snd (snd (sevenzip.Writer.cancel s))) = count is_finalize (snd s)
  /\ (sevenzip.truth (sevenzip.Writer._handle (fst s)) = true ->
      snd (snd (sevenzip.Writer.cancel s))
      = snd s ++ [sevenzip.Call_writer_cancel
                    (sevenzip.address (sevenzip.Writer._handle (fst s)))]).
Proof.
  destruct s as [self w]. rewrite cancel_spec. simpl.
  destruct (sevenzip.truth (sevenzip.Writer._handle self)); simpl; [|done].
  split; [|done]. rewrite count_app. unfold count at 2. simpl. lia.
Qed.

(** With no exception pending, [__exit__] starts with [finalize]; when that
    raises, the error leaves [__exit__] at once and [cancel] is not run. *)
Lemma writer_exit_failed_finalize (e : sevenzip.exn)
    (s s1 : sevenzip.Writer.t * sevenzip.World) :
  sevenzip.Writer.finalize lib s = (Raises e, s1) ->
  sevenzip.Writer.__exit__ lib None s = (Raises e, s1).
Proof. intros H. unfold sevenzip.Writer.__exit__, bind. by rewrite H. Qed.

Lemma finalize_implies_lifecycle e : is_finalize e = true -> lifecycle e = true.
Proof. by destruct e. Qed.

Lemma steady_bind {O A B : Type} (m : sevenzip.M (O * sevenzip.World) A)
    (k : A -> sevenzip.M (O * sevenzip.World) B) (s : O * sevenzip.World) :
  steady s (snd (m s)) ->
  (forall a s', steady s' (snd (k a s'))) ->
  steady s (snd (bind m k s)).
Proof.
  intros Hm Hk. unfold bind. destruct (m s) as [[a|e] s1]; simpl in *; [|done].
  eapply steady_trans; [exact Hm|apply Hk].
Qed.

Lemma add_each_steady (files : list (string + pathlib.Path))
    (s : sevenzip.Writer.t * sevenzip.World) :
  steady s (snd (sevenzip.add_each lib host files s)).
Proof.
  revert s. induction files as [|f files IH]; intros s; simpl; [apply steady_refl|].
  apply steady_bind.
  - split; [done|]. eexists. split; [reflexivity|]. by repeat constructor.
  - intros d s1. apply steady_bind; [|intros _ s2; apply IH].
    destruct d; [apply add_directory_steady|apply add_file_steady].
Qed.

(** The body of [create_archive] configures and adds; it neither finalizes
    nor cancels, and it leaves the writer object as it found it. *)
Lemma create_archive_body_steady (files : list (string + pathlib.Path))
    (password : option string) (level : string)
    (s : sevenzip.Writer.t * sevenzip.World) :
  steady s (snd (sevenzip.create_archive_body lib host files password level s)).
Proof.
  unfold sevenzip.create_archive_body.
  apply steady_bind; [apply set_compression_level_steady|]. intros _ s1.
  apply steady_bind; [|intros _ s2; apply add_each_steady].
  destruct (sevenzip.nonempty password); [apply set_password_steady|apply steady_refl].
Qed.

Lemma create_returns (path : string + pathlib.Path) (format : string + sevenzip.SzFormat)
    (w w1 : sevenzip.World) (writer : sevenzip.Writer.t) :
  sevenzip.Writer.create lib path format w = (Returns writer, w1) ->
  sevenzip.Writer._finalized writer = false
  /\ exists fmt, w1 = w ++ [sevenzip.Call_writer_create (encode (sevenzip.str_of path)) fmt].
Proof.
  unfold sevenzip.Writer.create. unfold bind at 1. unfold call at 1.
  destruct (sevenzip.sz_writer_create lib _ _ _) as [r h]. unfold bind.
  match goal with
  | |- context [sevenzip._check_result lib ?r ?op ?w0] =>
      destruct (check_result_cases lib r op w0) as [[-> Hc]|[_ [e Hc]]]; rewrite Hc
  end; simpl; intros Heq; inversion Heq; subst; eauto.
Qed.

End Cleanup.



(** *** Extracting a whole archive *)

Lemma bind_returns {E S A B : Type} (m : Py E S A) (k : A -> Py E S B) (s s' : S) (a : A) :
  m s = (Returns a, s') -> bind m k s = k a s'.
Proof. intros H. unfold bind. by rewrite H. Qed.

Section Extraction.
Context (lib : sevenzip.NativeLib) (host : sevenzip.Host) (h : Z)
  (entries : list (sevenzip.SzItemInfo.t * bytes)).
Context (served : Serves lib host h entries).
Context (output_dir : pathlib.Path).

Let archive : sevenzip.Archive.t := {| sevenzip.Archive._handle := Some h |}.

Lemma archive_live : sevenzip.truth (sevenzip.Archive._handle archive) = true.
Proof.
  simpl. pose proof (serves_handle _ _ _ _ served) as Hh.
  by destruct (Z.eqb_spec h 0).
Qed.

Let extraction := extraction_call h.

(** A directory entry is passed over: nothing is extracted or written. *)
Lemma extract_item_directory (e : sevenzip.SzItemInfo.t * bytes) (w : sevenzip.World) :
  sevenzip.SzItemInfo.is_directory (fst e) <> 0 ->
  sevenzip.extract_item lib host output_dir (item_of (fst e)) (archive, w)
  = (Returns tt, (archive, w)).
Proof.
  intros Hd. unfold sevenzip.extract_item. simpl.
  by destruct (Z.eqb_spec (sevenzip.SzItemInfo.is_directory (fst e)) 0).
Qed.

(** A file entry is extracted, copied, freed, and written under its parent
    directory, which is made first. *)
Lemma extract_item_file (e : sevenzip.SzItemInfo.t * bytes) (w : sevenzip.World) :
  e ∈ entries ->
  sevenzip.SzItemInfo.is_directory (fst e) = 0 ->
  exists ptr size,
    sevenzip.extract_item lib host output_dir (item_of (fst e)) (archive, w)
    = (Returns tt,
       (archive,
        w ++ [extraction e; sevenzip.Copy_string_at ptr size; sevenzip.Call_memory_free ptr]
          ++ written output_dir e)).
Proof.
  intros Hin Hd. unfold sevenzip.extract_item. simpl. rewrite Hd. simpl.
  destruct (serves_content _ _ _ _ served w e Hin Hd) as (ptr & Hx & Hdata).
  exists ptr, (Z.of_nat (List.length (snd e))).
  assert (Ha : sevenzip.address (sevenzip.Archive._handle archive) = h) by reflexivity.
  destruct (extract_to_memory_spec lib host archive w (sevenzip.SzItemInfo.index (fst e)))
    as [[Hdead _]|[(_ & Hr & _)|(_ & _ & Hrun)]].
  - by rewrite archive_live in Hdead.
  - rewrite Ha, Hx in Hr. by destruct Hr.
  - rewrite Ha, Hx in Hrun. simpl in Hrun. rewrite Hdata in Hrun.
    rewrite (bind_returns _ _ _ _ _ Hrun).
    unfold sevenzip.os_mkdir, sevenzip.os_write_bytes. run.
    rewrite !(serves_mkdir _ _ _ _ served), !(serves_write _ _ _ _ served). simpl.
    unfold written, destination, extraction. simpl.
    by rewrite <- !app_assoc.
Qed.

Lemma iterate_extracts (suffix : list (sevenzip.SzItemInfo.t * bytes)) :
  forall (done : list (sevenzip.SzItemInfo.t * bytes)) (w : sevenzip.World),
    entries = done ++ suffix ->
    exists evs,
      sevenzip.Archive.iterate lib (sevenzip.extract_item lib host output_dir)
        (Z.of_nat (List.length done)) (List.length suffix) (archive, w)
      = (Returns tt, (archive, w ++ evs))
      /\ List.filter is_fs evs = flat_map (written output_dir) (files_of suffix)
      /\ List.filter is_extract evs = List.map extraction (files_of suffix)
      /\ List.filter is_close evs = [].
Proof.
  induction suffix as [|e suffix IH]; intros done w Hsplit.
  - exists []. simpl. by rewrite app_nil_r.
  - assert (Hat : entries !! List.length done = Some e).
    { rewrite Hsplit. by rewrite list_lookup_middle. }
    assert (Hin : e ∈ entries) by (by eapply list_elem_of_lookup_2).
    pose proof (get_item_info_ok lib archive w (Z.of_nat (List.length done)) (fst e)
                  archive_live (serves_info _ _ _ _ served w _ e Hat)
                  (serves_paths _ _ _ _ served e Hin)) as Hinfo.
    assert (Ha : sevenzip.address (sevenzip.Archive._handle archive) = h) by reflexivity.
    rewrite Ha in Hinfo.
    simpl sevenzip.Archive.iterate. rewrite (bind_returns _ _ _ _ _ Hinfo).
    set (w1 := w ++ [sevenzip.Call_archive_get_item_info h (Z.of_nat (List.length done))]).
    replace (Z.of_nat (List.length done) + 1) with (Z.of_nat (List.length (done ++ [e])))
      by (rewrite List.length_app; simpl; lia).
    destruct (Z.eqb_spec (sevenzip.SzItemInfo.is_directory (fst e)) 0) as [Hfile|Hdir].
    + destruct (extract_item_file e w1 Hin Hfile) as (ptr & size & Hrun).
      rewrite (bind_returns _ _ _ _ _ Hrun).
      destruct (IH (done ++ [e])
                  (w1 ++ [extraction e; sevenzip.Copy_string_at ptr size;
                          sevenzip.Call_memory_free ptr] ++ written output_dir e))
        as (evs' & Hrest & Hfs & Hex & Hcl); [by rewrite <- app_assoc|].
      eexists. split.
      { cbv beta. rewrite Hrest. unfold w1. rewrite <- !app_assoc. reflexivity. }
      unfold files_of in *. simpl. rewrite (proj2 (Z.eqb_eq _ _) Hfile). simpl.
      rewrite Hfs, Hex, Hcl. done.
    + rewrite (bind_returns _ _ _ _ _ (extract_item_directory e w1 Hdir)).
      destruct (IH (done ++ [e]) w1) as (evs' & Hrest & Hfs & Hex & Hcl);
        [by rewrite <- app_assoc|].
      eexists. split.
      { cbv beta. rewrite Hrest. unfold w1. rewrite <- !app_assoc. reflexivity. }
      unfold files_of in *. simpl. rewrite (proj2 (Z.eqb_neq _ _) Hdir). simpl.
      rewrite Hfs, Hex, Hcl. done.
Qed.

End Extraction.

(** Components that hold no [..] are all kept, after what was kept before. *)
Lemma step_plain (absolute : bool) (cs kept : list string) :
  (".." ∉ cs) -> fold_left (step absolute) cs kept = rev cs ++ kept.
Proof.
  revert kept. induction cs as [|c cs IH]; intros kept Hno; [done|].
  rewrite not_elem_of_cons in Hno. destruct Hno as [Hc Hcs].
  simpl. unfold step at 2.
  destruct (String.eqb_spec c "..") as [->|_]; [done|].
  rewrite (IH _ Hcs). by rewrite <- app_assoc.
Qed.

(** A relative path without [..] joined to a directory stays under it. *)
Lemma truediv_under (dir : pathlib.Path) (key : string) :
  pathlib.is_absolute_str key = false ->
  (".." ∉ pathlib.components key) ->
  under dir (pathlib.truediv dir key) = true.
Proof.
  intros Hrel Hno. unfold under, pathlib.truediv. rewrite Hrel. simpl.
  rewrite String.eqb_refl. simpl. apply bool_decide_eq_true_2.
  unfold resolved. simpl. rewrite fold_left_app, (step_plain _ _ _ Hno).
  rewrite rev_app_distr, rev_involutive. by apply prefix_app_r.
Qed.


Lemma Demo_serves :
  Serves (Demo.lib Demo.entries 0) (Demo.host Demo.entries) 1 Demo.entries.
Proof.
  split; try done.
  - intros e Hin. unfold Demo.entries in Hin.
    rewrite !elem_of_cons, elem_of_nil in Hin.
    destruct Hin as [->|[->|[->|[]]]]; reflexivity.
  - intros w i e Hi. destruct i as [|[|[|i]]]; simpl in Hi; inversion Hi; reflexivity.
  - intros w e Hin Hfile. unfold Demo.entries in Hin.
    rewrite !elem_of_cons, elem_of_nil in Hin.
    destruct Hin as [->|[->|[->|[]]]]; try discriminate; eexists; split; reflexivity.
Qed.



(** ** Further properties of [sevenzip.py] *)

(** *** Result codes and enumerations *)

Lemma SzResult_of_value_sound (v : Z) (c : sevenzip.SzResult) :
  sevenzip.SzResult_of_value v = Some c -> sevenzip.SzResult_value c = v.
Proof.
  unfold sevenzip.SzResult_of_value. intros H.
  apply List.find_some in H. destruct H as [_ H]. by apply Z.eqb_eq in H.
Qed.

Lemma SzResult_of_value_range (v : Z) :
  is_Some (sevenzip.SzResult_of_value v) <-> 0 <= v <= 16.
Proof.
  split.
  - intros [c Hc]. apply SzResult_of_value_sound in Hc. destruct c; simpl in Hc; lia.
  - intros Hv.
    assert (Hin : In v (List.map sevenzip.SzResult_value sevenzip.SzResult_members))
      by (simpl; lia).
    apply List.in_map_iff in Hin. destruct Hin as (c & Hc & Hmem).
    unfold sevenzip.SzResult_of_value.
    destruct (List.find _ _) as [c'|] eqn:Hfind; [eauto|].
    pose proof (List.find_none _ _ Hfind c Hmem) as Hno. simpl in Hno.
    apply Z.eqb_neq in Hno. congruence.
Qed.

(** X1. [_check_result] never lets a failure pass: on a result other than 0
    it asks the engine for its message, once, and raises.  When the message
    is not well-formed UTF-8, decoding it fails and what is raised is a
    [UnicodeDecodeError], whatever the result.  Otherwise a result between 1
    and 16 comes back as a [SevenZipError] whose code has that value and
    whose message is the engine's text, or the name of the operation when
    the engine has none, followed by the number; any other result ends in a
    [ValueError], because the enumeration has no member for it. *)
Theorem check_result_reports (lib : sevenzip.NativeLib) (r : Z) (operation : string)
    (w : sevenzip.World) :
  r <> 0 ->
  let message := sevenzip.sz_get_last_error_message lib w in
  let readable := match message with Some b => utf8_valid b | None => true end in
  let text := match message with
              | Some (b :: bs) => decode (b :: bs)
              | _ => operation +:+ "失败"
              end in
  exists e,
    sevenzip._check_result lib r operation w
    = (Raises e, w ++ [sevenzip.Call_get_last_error_message])
    /\ (readable = false -> e = sevenzip.UnicodeDecodeError)
    /\ (readable = true -> 0 <= r <= 16 ->
        exists c, sevenzip.SzResult_value c = r
                  /\ e = sevenzip.SevenZipError
                           (text +:+ " (code=" +:+ pretty r +:+ ")") c)
    /\ (readable = true -> ~ 0 <= r <= 16 -> e = sevenzip.ValueError r).
Proof.
  intros Hr message readable text. unfold sevenzip._check_result.
  destruct (r =? _) eqn:E; [apply Z.eqb_eq in E; simpl in E; lia|].
  unfold bind at 1. unfold call at 1. fold message.
  assert (Hdecoded :
    (readable = true
     /\ match message with
        | Some (b :: bs) => decode_utf8 sevenzip.UnicodeDecodeError (b :: bs)
        | _ => ret (operation +:+ "失败")
        end (w ++ [sevenzip.Call_get_last_error_message])
        = (Returns text, w ++ [sevenzip.Call_get_last_error_message]))
    \/ (readable = false
        /\ match message with
           | Some (b :: bs) => decode_utf8 sevenzip.UnicodeDecodeError (b :: bs)
           | _ => ret (operation +:+ "失败")
           end (w ++ [sevenzip.Call_get_last_error_message])
           = (Raises sevenzip.UnicodeDecodeError,
              w ++ [sevenzip.Call_get_last_error_message]))).
  { subst readable text. unfold decode_utf8.
    destruct message as [[|b bs]|]; [by left| |by left].
    destruct (utf8_valid (b :: bs)); [by left|by right]. }
  unfold bind. destruct Hdecoded as [[Hread ->]|[Hread ->]].
  - destruct (sevenzip.SzResult_of_value r) as [c|] eqn:Hc.
    + eexists. split; [reflexivity|]. split; [congruence|]. split.
      * intros _ _. exists c. split; [by apply SzResult_of_value_sound|reflexivity].
      * intros _ Hout. destruct Hout. apply SzResult_of_value_range. eauto.
    + eexists. split; [reflexivity|]. split; [congruence|]. split; [|done].
      intros _ Hin. apply SzResult_of_value_range in Hin. rewrite Hc in Hin.
      by destruct Hin.
  - eexists. split; [reflexivity|]. split; [done|]. split; congruence.
Qed.

Lemma check_result_reports_witness :
  sevenzip._check_result (Demo.lib [] 0) 99 "打开归档" []
  = (Raises (sevenzip.ValueError 99), [sevenzip.Call_get_last_error_message])
  /\ sevenzip._check_result Demo2.garbled 8 "打开归档" []
     = (Raises sevenzip.UnicodeDecodeError, [sevenzip.Call_get_last_error_message]).
Proof.
  assert (H8 : 8 <> 0) by lia. assert (H99 : 99 <> 0) by lia.
  destruct (check_result_reports (Demo.lib [] 0) 99 "打开归档" [] H99)
    as (e & He & _ & _ & Hout).
  destruct (check_result_reports Demo2.garbled 8 "打开归档" [] H8)
    as (e' & He' & Hbad & _).
  rewrite He, He', (Hout eq_refl), (Hbad eq_refl); [done|lia].
Defined.

(** X2. No two members of an enumeration share a value or a name, in either
    module: looking a member up by its value, or by its name, gives that
    member back. *)
Theorem enum_lookups_invert :
  (forall r, sevenzip.SzResult_of_value (sevenzip.SzResult_value r) = Some r)
  /\ (forall r, sevenzip.SzResult_of_name (sevenzip.SzResult_name r) = Some r)
  /\ (forall f, sevenzip.SzFormat_of_value (sevenzip.SzFormat_value f) = Some f)
  /\ (forall f, sevenzip.SzFormat_of_name (sevenzip.SzFormat_name f) = Some f)
  /\ (forall r, sevenzip_ffi.SzResult_of_value (sevenzip_ffi.SzResult_value r) = Some r)
  /\ (forall r, sevenzip_ffi.SzResult_of_name (sevenzip_ffi.SzResult_name r) = Some r)
  /\ (forall f, sevenzip_ffi.SzFormat_of_value (sevenzip_ffi.SzFormat_value f) = Some f)
  /\ (forall f, sevenzip_ffi.SzFormat_of_name (sevenzip_ffi.SzFormat_name f) = Some f)
  /\ (forall l, sevenzip_ffi.SzCompressionLevel_of_name
                  (sevenzip_ffi.SzCompressionLevel_name l) = Some l).
Proof. repeat split; intros []; reflexivity. Qed.

(** *** Opening and creating *)


(** X4. The password given to [Archive.open] or to [extract_archive] has no
    effect at all: no native function receives it, and the call behaves as
    with no password. *)
Theorem password_is_ignored (lib : sevenzip.NativeLib) (host : sevenzip.Host)
    (archive_path output_dir : string + pathlib.Path) (password : option string)
    (w : sevenzip.World) :
  sevenzip.Archive.open lib archive_path password w
  = sevenzip.Archive.open lib archive_path None w
  /\ sevenzip.extract_archive lib host archive_path output_dir password w
     = sevenzip.extract_archive lib host archive_path output_dir None w.
Proof. split; reflexivity. Qed.

(** X5. A [with] block on an archive releases it on every exit path.
    Whatever the body does, the block ends in the state [close] leaves after
    the body, in which the archive holds no handle; the block returns when
    the body returns and raises what the body raises. *)
Theorem archive_with_block_closes
    (body : sevenzip.M (sevenzip.Archive.t * sevenzip.World) unit)
    (s : sevenzip.Archive.t * sevenzip.World) :
  let after := snd (sevenzip.Archive.close (snd (body s))) in
  with_stmt sevenzip.Archive.__exit__ body s = (fst (body s), after)
  /\ sevenzip.truth (sevenzip.Archive._handle (fst after)) = false.
Proof.
  intros after. split; [|apply close_releases].
  subst after. unfold with_stmt, sevenzip.Archive.__exit__, bind.
  destruct (body s) as [[[]|e] [self1 w1]]; simpl; rewrite close_spec;
    by destruct (sevenzip.truth _).
Qed.



(** *** The life of a writer *)

Section WriterLife.
Context (lib : sevenzip.NativeLib).

(** X6. A [with] block on a writer whose body returns commits and then
    releases: when the engine accepts [sz_writer_finalize], the block makes
    that call and then [sz_writer_cancel], in this order and nothing else,
    and leaves the writer without a handle. *)
Theorem writer_with_block_commits
    (body : sevenzip.M (sevenzip.Writer.t * sevenzip.World) unit)
    (s s1 : sevenzip.Writer.t * sevenzip.World) :
  body s = (Returns tt, s1) ->
  sevenzip.truth (sevenzip.Writer._handle (fst s1)) = true ->
  sevenzip.Writer._finalized (fst s1) = false ->
  sevenzip.sz_writer_finalize lib (snd s1)
    (sevenzip.address (sevenzip.Writer._handle (fst s1))) = 0 ->
  with_stmt (sevenzip.Writer.__exit__ lib) body s
  = (Returns tt,
     ({| sevenzip.Writer._handle := None; sevenzip.Writer._finalized := true |},
      snd s1 ++ [sevenzip.Call_writer_finalize
                   (sevenzip.address (sevenzip.Writer._handle (fst s1)));
                 sevenzip.Call_writer_cancel
                   (sevenzip.address (sevenzip.Writer._handle (fst s1)))])).
Proof.
  intros Hbody Ht Hf Hok. destruct s1 as [self1 w1]. simpl in *.
  unfold with_stmt. rewrite Hbody. unfold sevenzip.Writer.__exit__, bind.
  destruct (finalize_spec lib self1 w1)
    as [[Hd _]|[(_ & Hd & _)|[(_ & _ & _ & H)|(_ & _ & Hd & _)]]]; try congruence.
  rewrite H, cancel_spec. simpl. rewrite Ht. unfold ret.
  by rewrite <- app_assoc.
Qed.

(** X7. When the body returns and the engine refuses [sz_writer_finalize],
    the block raises the error of [finalize] and stops there: no
    [sz_writer_cancel] is made and the writer is left as it was, still
    holding its handle.  A [cancel] called afterwards releases it. *)
Theorem writer_with_block_failed_finalize
    (body : sevenzip.M (sevenzip.Writer.t * sevenzip.World) unit)
    (s s1 : sevenzip.Writer.t * sevenzip.World) :
  body s = (Returns tt, s1) ->
  sevenzip.truth (sevenzip.Writer._handle (fst s1)) = true ->
  sevenzip.Writer._finalized (fst s1) = false ->
  sevenzip.sz_writer_finalize lib (snd s1)
    (sevenzip.address (sevenzip.Writer._handle (fst s1))) <> 0 ->
  let h := sevenzip.address (sevenzip.Writer._handle (fst s1)) in
  let w2 := snd s1 ++ [sevenzip.Call_writer_finalize h;
                       sevenzip.Call_get_last_error_message] in
  exists e,
    with_stmt (sevenzip.Writer.__exit__ lib) body s = (Raises e, (fst s1, w2))
    /\ sevenzip.Writer.finalize lib s1 = (Raises e, (fst s1, w2))
    /\ count is_cancel w2 = count is_cancel (snd s1)
    /\ sevenzip.Writer.cancel (fst s1, w2)
       = (Returns tt,
          ({| sevenzip.Writer._handle := None; sevenzip.Writer._finalized := true |},
           w2 ++ [sevenzip.Call_writer_cancel h])).
Proof.
  intros Hbody Ht Hf Hbad h w2. destruct s1 as [self1 w1]. simpl in *.
  destruct (finalize_spec lib self1 w1)
    as [[Hd _]|[(_ & Hd & _)|[(_ & _ & Hd & _)|(_ & _ & _ & e & H)]]]; try congruence.
  exists e. split; [|split; [exact H|split]].
  - unfold with_stmt. rewrite Hbody. unfold sevenzip.Writer.__exit__, bind.
    by rewrite H.
  - unfold w2. rewrite count_app. unfold count at 2. simpl. lia.
  - by rewrite cancel_spec, Ht.
Qed.

End WriterLife.

Lemma writer_with_block_failed_finalize_witness :
  exists e,
    with_stmt (sevenzip.Writer.__exit__ Demo2.refusing) (ret tt) (Demo.fresh, [])
    = (Raises e,
       (Demo.fresh, [sevenzip.Call_writer_finalize 2;
                     sevenzip.Call_get_last_error_message]))
    /\ e = sevenzip.SevenZipError "完成归档失败 (code=13)" sevenzip.WRITE_ERROR.
Proof.
  assert (Hbad : sevenzip.sz_writer_finalize Demo2.refusing []
                   (sevenzip.address (sevenzip.Writer._handle Demo.fresh)) <> 0)
    by (simpl; lia).
  destruct (writer_with_block_failed_finalize Demo2.refusing (ret tt) (Demo.fresh, [])
              (Demo.fresh, []) eq_refl eq_refl eq_refl Hbad) as (e & Hrun & Hfin & _).
  exists e. split; [exact Hrun|]. simpl in Hfin. by inversion Hfin.
Defined.

Lemma writer_with_block_commits_witness :
  with_stmt (sevenzip.Writer.__exit__ (Demo.lib [] 0))
    (sevenzip.Writer.add_file (Demo.lib [] 0) (inl "a.txt") None) (Demo.fresh, [])
  = (Returns tt,
     (Demo.cancelled,
      [sevenzip.Call_writer_add_file 2 (encode "a.txt") (encode "a.txt")]
      ++ [sevenzip.Call_writer_finalize 2; sevenzip.Call_writer_cancel 2])).
Proof.
  exact (writer_with_block_commits (Demo.lib [] 0)
           (sevenzip.Writer.add_file (Demo.lib [] 0) (inl "a.txt") None)
           (Demo.fresh, [])
           (Demo.fresh, [sevenzip.Call_writer_add_file 2 (encode "a.txt") (encode "a.txt")])
           eq_refl eq_refl eq_refl eq_refl).
Defined.

(** *** Objects that hold no handle *)

Section Inert.
Context (lib : sevenzip.NativeLib) (host : sevenzip.Host).

Lemma rejected_state {S A : Type} (m : sevenzip.M S A) (s : S) :
  rejected m s -> snd (m s) = s.
Proof. intros [msg H]. by rewrite H. Qed.

Lemma archive_call_dead (c : ArchiveCall) (a : sevenzip.Archive.t * sevenzip.World) :
  sevenzip.truth (sevenzip.Archive._handle (fst a)) = false ->
  archive_call lib host c a = a.
Proof.
  intros Hd. destruct (archive_guard lib host a Hd) as (H1 & H2 & H3).
  destruct c; simpl; try (by apply rejected_state).
  - destruct a as [self w]. simpl in Hd. by rewrite close_spec, Hd.
  - destruct a as [self w]. simpl in Hd.
    unfold sevenzip.Archive.__exit__, bind. by rewrite close_spec, Hd.
  - unfold sevenzip.Archive.yielded, bind. destruct H1 as [msg H1]. by rewrite H1.
Qed.

Lemma writer_call_dead (c : WriterCall) (s : sevenzip.Writer.t * sevenzip.World) :
  sevenzip.truth (sevenzip.Writer._handle (fst s)) = false ->
  writer_call lib c s = s.
Proof.
  intros Hd. destruct (writer_guard lib s (or_introl Hd)) as (H1 & H2 & H3 & H4 & H5).
  assert (Hfin : sevenzip.Writer.finalize lib s
                 = (Raises (sevenzip.SevenZipError "写入器未初始化" sevenzip.FAIL), s)).
  { destruct s as [self w]. simpl in Hd.
    destruct (finalize_spec lib self w)
      as [[_ H]|[(Ht & _)|[(Ht & _)|(Ht & _)]]]; congruence. }
  assert (Hcan : snd (sevenzip.Writer.cancel s) = s).
  { destruct s as [self w]. simpl in Hd. by rewrite cancel_spec, Hd. }
  destruct c; simpl; try (by apply rejected_state).
  - by rewrite Hfin.
  - exact Hcan.
  - rewrite writer_exit_state. destruct exc; [exact Hcan|]. by rewrite Hfin.
Qed.

(** A writer already finalized answers one call by doing nothing, or, if it
    still holds its handle and the call is [cancel] or the end of a [with]
    block, by releasing it. *)
Lemma writer_call_finalized (c : WriterCall) (s : sevenzip.Writer.t * sevenzip.World) :
  sevenzip.Writer._finalized (fst s) = true ->
  writer_call lib c s = s
  \/ (sevenzip.truth (sevenzip.Writer._handle (fst s)) = true
      /\ writer_call lib c s
         = ({| sevenzip.Writer._handle := None; sevenzip.Writer._finalized := true |},
            snd s ++ [sevenzip.Call_writer_cancel
                        (sevenzip.address (sevenzip.Writer._handle (fst s)))])).
Proof.
  intros Hf.
  destruct (sevenzip.truth (sevenzip.Writer._handle (fst s))) eqn:Ht;
    [|left; by apply writer_call_dead].
  destruct (writer_guard lib s (or_intror Hf)) as (H1 & H2 & H3 & H4 & H5).
  assert (Hfin : sevenzip.Writer.finalize lib s = (Returns tt, s)).
  { destruct s as [self w]. simpl in *.
    destruct (finalize_spec lib self w)
      as [[Hd _]|[(_ & _ & H)|[(_ & Hd & _)|(_ & Hd & _)]]]; congruence. }
  assert (Hcan : snd (sevenzip.Writer.cancel s)
                 = ({| sevenzip.Writer._handle := None;
                       sevenzip.Writer._finalized := true |},
                    snd s ++ [sevenzip.Call_writer_cancel
                                (sevenzip.address (sevenzip.Writer._handle (fst s)))])).
  { destruct s as [self w]. simpl in *. by rewrite cancel_spec, Ht. }
  destruct c; simpl; try (left; by apply rejected_state).
  - left. by rewrite Hfin.
  - right. auto.
  - right. split; [done|]. rewrite writer_exit_state.
    destruct exc; [exact Hcan|]. by rewrite Hfin.
Qed.

Lemma archive_session_dead (cs : list ArchiveCall)
    (a : sevenzip.Archive.t * sevenzip.World) :
  sevenzip.truth (sevenzip.Archive._handle (fst a)) = false ->
  archive_session lib host cs a = a.
Proof.
  intros Ha. induction cs as [|c cs IH]; simpl; [done|].
  by rewrite (archive_call_dead c a Ha).
Qed.

Lemma writer_session_dead (ws : list WriterCall)
    (s : sevenzip.Writer.t * sevenzip.World) :
  sevenzip.truth (sevenzip.Writer._handle (fst s)) = false ->
  writer_session lib ws s = s.
Proof.
  intros Hs. induction ws as [|c ws IH]; simpl; [done|].
  by rewrite (writer_call_dead c s Hs).
Qed.

End Inert.

(** X13. An archive or a writer that holds no handle (never opened or
    created, closed, cancelled) is inert: whatever calls are made on it, in
    whatever order ([close], the end of a [with] block, [item_count],
    [get_item_info], [extract_to_memory], [__len__] and an iteration on an
    archive; the additions and settings, [finalize], [cancel] and the end of
    a [with] block on a writer), the object stays as it is and no native
    function is called. *)
Theorem released_objects_are_inert (lib : sevenzip.NativeLib) (host : sevenzip.Host)
    (cs : list ArchiveCall) (ws : list WriterCall)
    (a : sevenzip.Archive.t * sevenzip.World)
    (s : sevenzip.Writer.t * sevenzip.World) :
  sevenzip.truth (sevenzip.Archive._handle (fst a)) = false ->
  sevenzip.truth (sevenzip.Writer._handle (fst s)) = false ->
  archive_session lib host cs a = a /\ writer_session lib ws s = s.
Proof.
  intros Ha Hs. split.
  - by apply archive_session_dead.
  - by apply writer_session_dead.
Qed.

Lemma released_objects_are_inert_witness :
  archive_session (Demo.lib [] 0) (Demo.host [])
    [Archive_item_count; Archive_close; Archive_extract_to_memory 0] (Demo.closed, [])
  = (Demo.closed, [])
  /\ writer_session (Demo.lib [] 0)
       [Writer_finalize; Writer_set_password "x"; Writer_cancel; Writer_exit None]
       (Demo.cancelled, [])
     = (Demo.cancelled, []).
Proof.
  exact (released_objects_are_inert (Demo.lib [] 0) (Demo.host [])
           [Archive_item_count; Archive_close; Archive_extract_to_memory 0]
           [Writer_finalize; Writer_set_password "x"; Writer_cancel; Writer_exit None]
           (Demo.closed, []) (Demo.cancelled, []) eq_refl eq_refl).
Defined.

(** X14. Once a writer is finalized, the engine hears of it at most once
    more, and only to release it: over any sequence of calls, either nothing
    at all happens, or the whole effect is a single [sz_writer_cancel] on
    its handle.  No file, directory or setting reaches the engine and
    [sz_writer_finalize] is not called again. *)
Theorem finalized_writer_only_cancels (lib : sevenzip.NativeLib)
    (ws : list WriterCall) (s : sevenzip.Writer.t * sevenzip.World) :
  sevenzip.Writer._finalized (fst s) = true ->
  writer_session lib ws s = s
  \/ (sevenzip.truth (sevenzip.Writer._handle (fst s)) = true
      /\ writer_session lib ws s
         = ({| sevenzip.Writer._handle := None; sevenzip.Writer._finalized := true |},
            snd s ++ [sevenzip.Call_writer_cancel
                        (sevenzip.address (sevenzip.Writer._handle (fst s)))])).
Proof.
  intros Hf. induction ws as [|c ws IH]; simpl; [by left|].
  destruct (writer_call_finalized lib c s Hf) as [->|[Ht ->]]; [exact IH|].
  right. split; [done|]. by apply writer_session_dead.
Qed.

Lemma finalized_writer_only_cancels_witness :
  writer_session (Demo.lib [] 0)
    [Writer_add_file (inl "late.txt") None; Writer_finalize; Writer_exit None;
     Writer_cancel]
    (Demo.finalized, [sevenzip.Call_writer_finalize 2])
  = (Demo.cancelled, [sevenzip.Call_writer_finalize 2; sevenzip.Call_writer_cancel 2]).
Proof.
  destruct (finalized_writer_only_cancels (Demo.lib [] 0)
              [Writer_add_file (inl "late.txt") None; Writer_finalize; Writer_exit None;
               Writer_cancel]
              (Demo.finalized, [sevenzip.Call_writer_finalize 2]) eq_refl)
    as [Hsame|[_ Hrel]].
  - discriminate Hsame.
  - exact Hrel.
Defined.

(** *** Creating a whole archive *)

Section Creation.
Context (lib : sevenzip.NativeLib) (host : sevenzip.Host) (h : Z)
  (dir : pathlib.Path -> bool).
Context (accepted : Accepts lib host h dir).

Let writer : sevenzip.Writer.t :=
  {| sevenzip.Writer._handle := Some h; sevenzip.Writer._finalized := false |}.

Lemma writer_live : sevenzip.truth (sevenzip.Writer._handle writer) = true.
Proof.
  simpl. pose proof (accepts_handle _ _ _ _ accepted) as Hh.
  by destruct (Z.eqb_spec h 0).
Qed.

Lemma set_compression_level_accepted (level : string + sevenzip.SzCompressionLevel)
    (w : sevenzip.World) :
  sevenzip.Writer.set_compression_level lib level (writer, w)
  = (Returns tt,
     (writer,
      w ++ [sevenzip.Call_writer_set_compression_level h
              (sevenzip.SzCompressionLevel_value
                 match level with
                 | inl name => default sevenzip.NORMAL
                                 (sevenzip.Writer.level_map !! lower name)
                 | inr l => l
                 end)])).
Proof.
  unfold sevenzip.Writer.set_compression_level. run.
  pose proof writer_live as Ht. simpl in Ht. rewrite Ht. simpl.
  rewrite (accepts_set_compression_level _ _ _ _ accepted).
  by rewrite check_result_ok.
Qed.

Lemma set_password_accepted (password : string) (w : sevenzip.World) :
  sevenzip.Writer.set_password lib password (writer, w)
  = (Returns tt, (writer, w ++ [sevenzip.Call_writer_set_password h (encode password)])).
Proof.
  unfold sevenzip.Writer.set_password. run.
  pose proof writer_live as Ht. simpl in Ht. rewrite Ht. simpl.
  rewrite (accepts_set_password _ _ _ _ accepted).
  by rewrite check_result_ok.
Qed.

Lemma add_file_accepted (file_path : pathlib.Path) (w : sevenzip.World) :
  sevenzip.Writer.add_file lib (inr file_path) None (writer, w)
  = (Returns tt,
     (writer,
      w ++ [sevenzip.Call_writer_add_file h (encode (pathlib.to_str file_path))
              (encode (pathlib.name file_path))])).
Proof.
  unfold sevenzip.Writer.add_file. run.
  pose proof writer_live as Ht. simpl in Ht. rewrite Ht. simpl.
  rewrite (accepts_add_file _ _ _ _ accepted).
  by rewrite check_result_ok.
Qed.

Lemma add_directory_accepted (dir_path : pathlib.Path) (w : sevenzip.World) :
  sevenzip.Writer.add_directory lib (inr dir_path) true (writer, w)
  = (Returns tt,
     (writer,
      w ++ [sevenzip.Call_writer_add_directory h (encode (pathlib.to_str dir_path)) 1])).
Proof.
  unfold sevenzip.Writer.add_directory. run.
  pose proof writer_live as Ht. simpl in Ht. rewrite Ht. simpl.
  rewrite (accepts_add_directory _ _ _ _ accepted).
  by rewrite check_result_ok.
Qed.

Lemma add_each_accepted (files : list (string + pathlib.Path)) (w : sevenzip.World) :
  sevenzip.add_each lib host files (writer, w)
  = (Returns tt, (writer, w ++ flat_map (added h dir) files)).
Proof.
  revert w. induction files as [|f files IH]; intros w; simpl.
  - by rewrite app_nil_r.
  - unfold bind at 1. unfold on_world at 1. unfold sevenzip.os_is_dir, call. simpl.
    rewrite (accepts_is_dir _ _ _ _ accepted).
    destruct (dir (sevenzip.Path_of f)).
    + rewrite (bind_returns _ _ _ _ _ (add_directory_accepted _ _)).
      rewrite IH. by rewrite <- !app_assoc.
    + rewrite (bind_returns _ _ _ _ _ (add_file_accepted _ _)).
      rewrite IH. by rewrite <- !app_assoc.
Qed.

Lemma writer_exit_accepted (w : sevenzip.World) :
  sevenzip.Writer.__exit__ lib None (writer, w)
  = (Returns false,
     ({| sevenzip.Writer._handle := None; sevenzip.Writer._finalized := true |},
      w ++ [sevenzip.Call_writer_finalize h; sevenzip.Call_writer_cancel h])).
Proof.
  unfold sevenzip.Writer.__exit__, bind.
  destruct (finalize_spec lib writer w)
    as [[Hd _]|[(_ & Hd & _)|[(_ & _ & _ & H)|(_ & _ & Hd & _)]]].
  - by rewrite writer_live in Hd.
  - discriminate Hd.
  - rewrite H, cancel_spec. pose proof writer_live as Ht. simpl in *. rewrite Ht.
    unfold ret. by rewrite <- app_assoc.
  - destruct Hd. apply (accepts_finalize _ _ _ _ accepted).
Qed.

End Creation.


Lemma Demo_accepts :
  Accepts (Demo.lib [] 0) (Demo.host []) 2 (fun _ => false).
Proof. by split. Qed.


(** *** The archive of [extract_archive] is always closed *)

Section Release.
Context (lib : sevenzip.NativeLib) (host : sevenzip.Host).

Lemma os_mkdir_cases (p : pathlib.Path) (w : sevenzip.World) :
  sevenzip.os_mkdir host p w
  = (if sevenzip.mkdir host w p then Returns tt else Raises sevenzip.OSError,
     w ++ [sevenzip.Fs_mkdir p]).
Proof. unfold sevenzip.os_mkdir. run. by destruct (sevenzip.mkdir host w p). Qed.

Lemma os_write_bytes_cases (p : pathlib.Path) (d : bytes) (w : sevenzip.World) :
  sevenzip.os_write_bytes host p d w
  = (if sevenzip.write_bytes host w p d then Returns tt else Raises sevenzip.OSError,
     w ++ [sevenzip.Fs_write_bytes p d]).
Proof.
  unfold sevenzip.os_write_bytes. run. by destruct (sevenzip.write_bytes host w p d).
Qed.

Lemma on_world_steady {O A : Type} (m : sevenzip.M sevenzip.World A) (ev : sevenzip.Event)
    (s : O * sevenzip.World) :
  lifecycle ev = false ->
  snd (m (snd s)) = snd s ++ [ev] ->
  steady s (snd (on_world m s)).
Proof.
  intros Hev Hm. unfold on_world. destruct (m (snd s)) as [r w'] eqn:E. simpl in *.
  split; [done|]. exists [ev]. split; [done|]. by repeat constructor.
Qed.

Lemma extract_item_steady (output_dir : pathlib.Path) (item : sevenzip.Item.t)
    (s : sevenzip.Archive.t * sevenzip.World) :
  steady s (snd (sevenzip.extract_item lib host output_dir item s)).
Proof.
  unfold sevenzip.extract_item.
  destruct (sevenzip.Item.is_directory item); [apply steady_refl|].
  apply steady_bind; [apply extract_to_memory_steady|]. intros data s1.
  apply steady_bind.
  - eapply on_world_steady; [|by rewrite os_mkdir_cases]. done.
  - intros _ s2. eapply on_world_steady; [|by rewrite os_write_bytes_cases]. done.
Qed.

Lemma iterate_steady (body : sevenzip.Item.t -> sevenzip.M (sevenzip.Archive.t * sevenzip.World) unit)
    (n : nat) :
  (forall item s, steady s (snd (body item s))) ->
  forall i s, steady s (snd (sevenzip.Archive.iterate lib body i n s)).
Proof.
  intros Hbody. induction n as [|n IH]; intros i s; simpl; [apply steady_refl|].
  apply steady_bind; [apply get_item_info_steady|]. intros item s1.
  apply steady_bind; [apply Hbody|]. intros _ s2. apply IH.
Qed.

Lemma iter_steady (body : sevenzip.Item.t -> sevenzip.M (sevenzip.Archive.t * sevenzip.World) unit)
    (s : sevenzip.Archive.t * sevenzip.World) :
  (forall item s, steady s (snd (body item s))) ->
  steady s (snd (sevenzip.Archive.__iter__ lib body s)).
Proof.
  intros Hbody. unfold sevenzip.Archive.__iter__.
  apply steady_bind; [apply item_count_steady|]. intros n s1.
  by apply iterate_steady.
Qed.

(** The outcome and the state of a [with] block on an archive. *)
Lemma archive_with_block
    (body : sevenzip.M (sevenzip.Archive.t * sevenzip.World) unit)
    (s : sevenzip.Archive.t * sevenzip.World) :
  with_stmt sevenzip.Archive.__exit__ body s
  = (fst (body s), snd (sevenzip.Archive.close (snd (body s)))).
Proof.
  unfold with_stmt, sevenzip.Archive.__exit__, bind.
  destruct (body s) as [[[]|e] [self1 w1]]; simpl; rewrite close_spec;
    by destruct (sevenzip.truth _).
Qed.

Lemma archive_open_cases (path : string + pathlib.Path) (password : option string)
    (w : sevenzip.World) :
  let p := encode (sevenzip.str_of path) in
  let answer := sevenzip.sz_archive_open lib w p in
  (fst answer = 0
   /\ sevenzip.Archive.open lib path password w
      = (Returns {| sevenzip.Archive._handle := Some (snd answer) |},
         w ++ [sevenzip.Call_archive_open p]))
  \/ (fst answer <> 0
      /\ exists e,
           sevenzip.Archive.open lib path password w
           = (Raises e, w ++ [sevenzip.Call_archive_open p;
                              sevenzip.Call_get_last_error_message])).
Proof.
  intros p answer. subst answer p. unfold sevenzip.Archive.open. run.
  destruct (sevenzip.sz_archive_open lib w _) as [r h]. simpl.
  check_cases lib; [left; by subst|].
  right. split; [done|]. eexists. by rewrite <- ?app_assoc.
Qed.

End Release.

(** X9. [extract_archive] closes the archive it opened, once, as its last
    act, however the extraction ends: with every item written, or with an
    error of the engine or of the file system in the middle.  Before that
    it makes no release call.  When the output directory cannot be made it
    stops before touching the engine; when the engine refuses to open it
    raises and closes nothing; when the engine reports success with a null
    handle it raises the error of an unopened archive and closes nothing. *)
Theorem extract_archive_releases (lib : sevenzip.NativeLib) (host : sevenzip.Host)
    (archive_path output_dir : string + pathlib.Path) (password : option string)
    (w : sevenzip.World) :
  let out := sevenzip.Path_of output_dir in
  let p := encode (sevenzip.str_of archive_path) in
  let w1 := w ++ [sevenzip.Fs_mkdir out] in
  let w2 := w1 ++ [sevenzip.Call_archive_open p] in
  let answer := sevenzip.sz_archive_open lib w1 p in
  let run := sevenzip.extract_archive lib host archive_path output_dir password w in
  if sevenzip.mkdir host w out then
    if fst answer =? 0 then
      if snd answer =? 0 then
        run = (Raises (sevenzip.SevenZipError "归档未打开" sevenzip.FAIL), w2)
      else
        exists evs,
          snd run = w2 ++ evs ++ [sevenzip.Call_archive_close (snd answer)]
          /\ Forall (fun e => lifecycle e = false) evs
    else
      exists e, run = (Raises e, w2 ++ [sevenzip.Call_get_last_error_message])
  else run = (Raises sevenzip.OSError, w1).
Proof.
  intros out p w1 w2 answer run.
  assert (Hstart : run
                   = (if sevenzip.mkdir host w out
                      then bind (sevenzip.Archive.open lib archive_path password)
                             (fun archive =>
                                with_object archive
                                  (with_stmt sevenzip.Archive.__exit__
                                     (sevenzip.Archive.__iter__ lib
                                        (sevenzip.extract_item lib host out)))) w1
                      else (Raises sevenzip.OSError, w1))).
  { subst run. unfold sevenzip.extract_archive. fold out. unfold bind at 1.
    rewrite os_mkdir_cases. fold w1. by destruct (sevenzip.mkdir host w out). }
  destruct (sevenzip.mkdir host w out); [|exact Hstart].
  destruct (archive_open_cases lib archive_path password w1)
    as [[Hz Hopen]|[Hz [e Hopen]]];
    fold p in Hz, Hopen; fold answer in Hz, Hopen; fold w2 in Hopen.
  - rewrite Hz. simpl.
    rewrite (bind_returns _ _ _ _ _ Hopen) in Hstart.
    unfold with_object in Hstart. rewrite archive_with_block in Hstart.
    set (archive := {| sevenzip.Archive._handle := Some (snd answer) |}) in *.
    destruct (Z.eqb_spec (snd answer) 0) as [Hnull|Hlive].
    + assert (Hdead : sevenzip.truth (sevenzip.Archive._handle archive) = false).
      { simpl. by rewrite Hnull. }
      assert (Hbody : sevenzip.Archive.__iter__ lib (sevenzip.extract_item lib host out)
                        (archive, w2)
                      = (Raises (sevenzip.SevenZipError "归档未打开" sevenzip.FAIL),
                         (archive, w2))).
      { unfold sevenzip.Archive.__iter__, bind, sevenzip.Archive.item_count. run.
        simpl in Hdead. by rewrite Hdead. }
      rewrite Hbody in Hstart. simpl in Hstart.
      rewrite close_spec, Hdead in Hstart. exact Hstart.
    + pose proof (iter_steady lib (sevenzip.extract_item lib host out) (archive, w2)
                    (extract_item_steady lib host out)) as [Hobj (evs & Hw & Hevs)].
      destruct (sevenzip.Archive.__iter__ lib _ (archive, w2)) as [r [self1 w3]].
      simpl in *. subst self1 w3. rewrite close_spec in Hstart.
      assert (Hlive' : sevenzip.truth (sevenzip.Archive._handle archive) = true).
      { simpl. by destruct (Z.eqb_spec (snd answer) 0). }
      rewrite Hlive' in Hstart. simpl in Hstart. exists evs.
      split; [|done]. rewrite Hstart. simpl. by rewrite <- app_assoc.
  - destruct (Z.eqb_spec (fst answer) 0); [done|]. exists e.
    rewrite Hstart. unfold bind. rewrite Hopen. unfold w2. by rewrite <- app_assoc.
Qed.

(** *** Listing an archive *)

Section Listing.
Context (lib : sevenzip.NativeLib) (host : sevenzip.Host) (h : Z)
  (entries : list (sevenzip.SzItemInfo.t * bytes)).
Context (served : Serves lib host h entries).

Let archive : sevenzip.Archive.t := {| sevenzip.Archive._handle := Some h |}.

Lemma collect_served (suffix : list (sevenzip.SzItemInfo.t * bytes)) :
  forall (done : list (sevenzip.SzItemInfo.t * bytes)) (w : sevenzip.World),
    entries = done ++ suffix ->
    sevenzip.Archive.collect lib (Z.of_nat (List.length done)) (List.length suffix)
      (archive, w)
    = (Returns (List.map (fun e => item_of (fst e)) suffix),
       (archive, w ++ info_calls h (List.length done) (List.length suffix))).
Proof.
  induction suffix as [|e suffix IH]; intros done w Hsplit.
  - simpl. unfold info_calls. simpl. by rewrite app_nil_r.
  - assert (Hat : entries !! List.length done = Some e).
    { rewrite Hsplit. by rewrite list_lookup_middle. }
    assert (Hin : e ∈ entries) by (by eapply list_elem_of_lookup_2).
    pose proof (get_item_info_ok lib archive w (Z.of_nat (List.length done)) (fst e)
                  (archive_live lib host h entries served)
                  (serves_info _ _ _ _ served w _ e Hat)
                  (serves_paths _ _ _ _ served e Hin)) as Hinfo.
    assert (Ha : sevenzip.address (sevenzip.Archive._handle archive) = h) by reflexivity.
    rewrite Ha in Hinfo.
    simpl sevenzip.Archive.collect. rewrite (bind_returns _ _ _ _ _ Hinfo).
    replace (Z.of_nat (List.length done) + 1) with (Z.of_nat (List.length (done ++ [e])))
      by (rewrite List.length_app; simpl; lia).
    unfold bind. rewrite (IH (done ++ [e])) by (by rewrite <- app_assoc).
    unfold ret, info_calls. simpl. rewrite List.length_app. simpl.
    rewrite <- app_assoc. simpl.
    by replace (List.length done + 1)%nat with (S (List.length done)) by lia.
Qed.

End Listing.

(** X10. On an archive the engine serves, with paths that can be decoded,
    iterating over the archive to the end (a loop or a comprehension over
    it) yields one item per entry, in the order of the entries, each built
    from the structure the engine gave for its position.  The iteration asks
    for the count once and then for each structure once, by increasing
    index, and it leaves the archive open.  [__len__] returns the number of
    entries for one request of the count. *)
Theorem iteration_yields_entries (lib : sevenzip.NativeLib) (host : sevenzip.Host)
    (h : Z) (entries : list (sevenzip.SzItemInfo.t * bytes)) (w : sevenzip.World) :
  Serves lib host h entries ->
  let archive := {| sevenzip.Archive._handle := Some h |} in
  sevenzip.Archive.yielded lib (archive, w)
  = (Returns (List.map (fun e => item_of (fst e)) entries),
     (archive,
      w ++ sevenzip.Call_archive_get_item_count h
        :: info_calls h 0 (List.length entries)))
  /\ sevenzip.Archive.__len__ lib (archive, w)
     = (Returns (Z.of_nat (List.length entries)),
        (archive, w ++ [sevenzip.Call_archive_get_item_count h])).
Proof.
  intros served archive.
  assert (Hcount : sevenzip.Archive.item_count lib (archive, w)
                   = (Returns (Z.of_nat (List.length entries)),
                      (archive, w ++ [sevenzip.Call_archive_get_item_count h]))).
  { apply (item_count_ok lib archive w _ (archive_live lib host h entries served)).
    apply (serves_count _ _ _ _ served). }
  split; [|exact Hcount].
  unfold sevenzip.Archive.yielded. rewrite (bind_returns _ _ _ _ _ Hcount).
  rewrite Nat2Z.id.
  rewrite (collect_served lib host h entries served entries [] _ eq_refl).
  simpl. by rewrite <- app_assoc.
Qed.

Lemma iteration_yields_entries_witness :
  List.map sevenzip.Item.path
    match fst (sevenzip.Archive.yielded (Demo.lib Demo.entries 0) (Demo.opened, [])) with
    | Returns items => items
    | Raises _ => []
    end
  = ["file1.txt"; "subdir"; "subdir/file3.txt"].
Proof.
  destruct (iteration_yields_entries (Demo.lib Demo.entries 0) (Demo.host Demo.entries) 1
              Demo.entries [] Demo_serves) as [Hlist _].
  change (sevenzip.Archive.yielded (Demo.lib Demo.entries 0) (Demo.opened, []))
    with (sevenzip.Archive.yielded (Demo.lib Demo.entries 0)
            ({| sevenzip.Archive._handle := Some 1 |}, [])).
  rewrite Hlist. reflexivity.
Defined.

(** X11. Every item [get_item_info] returns is built from the structure the
    engine filled, whose path could be decoded: its two size aliases are
    equal, and it carries a checksum exactly when the engine says there is
    one (a checksum of 0 that is present differs from no checksum).  Its
    index is the one the engine reports, whatever the index asked for, and
    its path is the text of the bytes the engine gave, empty for a null or
    an empty path. *)
Theorem fetched_item_fields (lib : sevenzip.NativeLib) (index : Z)
    (s s' : sevenzip.Archive.t * sevenzip.World) (item : sevenzip.Item.t) :
  sevenzip.Archive.get_item_info lib index s = (Returns item, s') ->
  let info := snd (sevenzip.sz_archive_get_item_info lib (snd s)
                     (sevenzip.address (sevenzip.Archive._handle (fst s))) index) in
  item = item_of info
  /\ path_valid info = true
  /\ sevenzip.Item.compressed_size item = sevenzip.Item.packed_size item
  /\ sevenzip.Item.index item = sevenzip.SzItemInfo.index info
  /\ (sevenzip.Item.crc item = None <-> sevenzip.SzItemInfo.has_crc info = 0)
  /\ (sevenzip.Item.crc item = Some (sevenzip.SzItemInfo.crc info)
      <-> sevenzip.SzItemInfo.has_crc info <> 0)
  /\ (sevenzip.Item.has_crc item = true <-> is_Some (sevenzip.Item.crc item))
  /\ (forall b, sevenzip.SzItemInfo.path info = Some b ->
                sevenzip.Item.path item = decode b)
  /\ (sevenzip.SzItemInfo.path info = None \/ sevenzip.SzItemInfo.path info = Some [] ->
      sevenzip.Item.path item = "").
Proof.
  destruct s as [self w]. simpl. intros Hret.
  set (info := snd (sevenzip.sz_archive_get_item_info lib w
                      (sevenzip.address (sevenzip.Archive._handle self)) index)).
  assert (Hitem : item = item_of info /\ path_valid info = true).
  { revert Hret. unfold sevenzip.Archive.get_item_info. run.
    destruct (sevenzip.truth _); simpl; [|done]. subst info.
    destruct (sevenzip.sz_archive_get_item_info lib w _ index) as [r info]. simpl.
    check_cases lib; [|done].
    match goal with
    | |- context [sevenzip.Item.__init__ info ?st] =>
        destruct (item_init_cases info st) as [[Hv ->]|[_ ->]]
    end; [|done].
    by intros [= <- _]. }
  destruct Hitem as [-> Hvalid]. split; [done|]. split; [done|].
  unfold item_of, path_text. simpl.
  destruct (Z.eqb_spec (sevenzip.SzItemInfo.has_crc info) 0) as [Hz|Hnz]; simpl.
  - repeat split; try done; try (intros [x Hx]; done).
    + by intros b ->.
    + intros [-> | ->]; done.
  - repeat split; try done; eauto.
    + by intros b ->.
    + intros [-> | ->]; done.
Qed.

Lemma fetched_item_fields_witness :
  sevenzip.Item.crc
    (item_of (snd (sevenzip.sz_archive_get_item_info (Demo.lib Demo.entries 0) [] 1 0)))
  = None.
Proof.
  destruct (fetched_item_fields (Demo.lib Demo.entries 0) 0 (Demo.opened, [])
              (Demo.opened, [sevenzip.Call_archive_get_item_info 1 0])
              (item_of (fst (Demo.entry 0 "file1.txt" "one"))) eq_refl)
    as (_ & _ & _ & _ & Hcrc & _).
  apply Hcrc. reflexivity.
Defined.

(** ** Further properties of [sevenzip_ffi.py] *)

(** *** Computations that only add events *)

Section Emits.
Context {E Ev : Type} (P : Ev -> Prop).

Lemma emits_ret {A : Type} (a : A) : emits P (ret (E := E) a).
Proof. intros w. exists []. by rewrite app_nil_r. Qed.

Lemma emits_raise {A : Type} (e : E) : emits P (raise (A := A) e).
Proof. intros w. exists []. by rewrite app_nil_r. Qed.

Lemma emits_call {A : Type} (ev : Ev) (answer : list Ev -> A) :
  P ev -> emits P (call (E := E) ev answer).
Proof. intros Hev w. exists [ev]. split; [done|]. by repeat constructor. Qed.

Lemma emits_bind {A B : Type} (m : Py E (list Ev) A) (k : A -> Py E (list Ev) B) :
  emits P m -> (forall a, emits P (k a)) -> emits P (bind m k).
Proof.
  intros Hm Hk w. unfold bind. destruct (Hm w) as (e1 & Hw1 & F1).
  destruct (m w) as [[a|e] w1]; simpl in *; subst w1; [|by exists e1].
  destruct (Hk a (w ++ e1)) as (e2 & Hw2 & F2).
  exists (e1 ++ e2). rewrite Hw2, app_assoc. split; [done|]. by apply Forall_app.
Qed.

Lemma emits_try_finally {A : Type} (body : Py E (list Ev) A) (fin : Py E (list Ev) unit) :
  emits P body -> emits P fin -> emits P (try_finally body fin).
Proof.
  intros Hb Hf w. unfold try_finally. destruct (Hb w) as (e1 & Hw1 & F1).
  destruct (body w) as [r w1]; simpl in *; subst w1.
  destruct (Hf (w ++ e1)) as (e2 & Hw2 & F2).
  exists (e1 ++ e2). split; [|by apply Forall_app].
  destruct (fin (w ++ e1)) as [[[]|e] w2]; simpl in *; subst w2; by rewrite app_assoc.
Qed.

(** The state after [try: body finally: call(ev)] is the state after the
    body with [ev] added, whatever the body did. *)
Lemma try_finally_call {A : Type} (body : Py E (list Ev) A) (ev : Ev) (w : list Ev) :
  try_finally body (call ev (fun _ => tt)) w = (fst (body w), snd (body w) ++ [ev]).
Proof. unfold try_finally, call. by destruct (body w). Qed.

End Emits.

Lemma bind_inv {E S A B : Type} (m : Py E S A) (k : A -> Py E S B) (s s2 : S) (b : B) :
  bind m k s = (Returns b, s2) ->
  exists a s1, m s = (Returns a, s1) /\ k a s1 = (Returns b, s2).
Proof. unfold bind. destruct (m s) as [[a|e] s1]; [eauto|done]. Qed.

(** *** Names of formats and levels *)

Lemma ffi_format_unknown (n : string) :
  (n ∉ ffi_format_names) -> sevenzip_ffi.SzFormat_of_name n = None.
Proof.
  unfold ffi_format_names. rewrite !not_elem_of_cons.
  intros (? & ? & ? & ? & ? & ? & ? & _).
  unfold sevenzip_ffi.SzFormat_of_name, sevenzip_ffi.SzFormat_members.
  cbn [List.find sevenzip_ffi.SzFormat_name].
  repeat match goal with
         | |- context [String.eqb ?a n] => destruct (String.eqb_spec a n); [congruence|]
         end.
  done.
Qed.

Lemma ffi_level_unknown (n : string) :
  (n ∉ ffi_level_names) -> sevenzip_ffi.SzCompressionLevel_of_name n = None.
Proof.
  unfold ffi_level_names. rewrite !not_elem_of_cons.
  intros (? & ? & ? & ? & ? & ? & _).
  unfold sevenzip_ffi.SzCompressionLevel_of_name,
    sevenzip_ffi.SzCompressionLevel_members.
  cbn [List.find sevenzip_ffi.SzCompressionLevel_name].
  repeat match goal with
         | |- context [String.eqb ?a n] => destruct (String.eqb_spec a n); [congruence|]
         end.
  done.
Qed.

(** X15. A format name that is ASCII and whose upper-case form is no member
    of [SzFormat] never reaches the engine: [SevenZip.compress] and the
    module-level [compress] raise [AttributeError], and
    [is_format_supported] answers [False], each without a native call.
    ["7z"], the default format of both [compress] functions, is such a name.
    A level name of that kind makes [SevenZip.compress] raise
    [AttributeError] in the same way. *)
Theorem unknown_names_never_reach_engine (lib : sevenzip_ffi.SevenZip.NativeLib)
    (cwd : pathlib.Path)
    (is_dir : list sevenzip_ffi.SevenZip.Event -> pathlib.Path -> bool)
    (source_path archive_path format level : string) (password : option string)
    (w : list sevenzip_ffi.SevenZip.Event) :
  is_ascii format = true ->
  (upper format ∉ ffi_format_names) ->
  sevenzip_ffi.SevenZip.compress lib cwd is_dir source_path archive_path format level
    password w
  = (Raises sevenzip_ffi.AttributeError, w)
  /\ sevenzip_ffi.compress lib cwd source_path archive_path format w
     = (Raises sevenzip_ffi.AttributeError, w)
  /\ sevenzip_ffi.SevenZip.is_format_supported lib format w = (Returns false, w)
  /\ (upper "7z" ∉ ffi_format_names)
  /\ (forall known bad : string,
        is_Some (sevenzip_ffi.SzFormat_of_name (upper known)) ->
        is_ascii bad = true ->
        (upper bad ∉ ffi_level_names) ->
        sevenzip_ffi.SevenZip.compress lib cwd is_dir source_path archive_path known bad
          password w
        = (Raises sevenzip_ffi.AttributeError, w)).
Proof.
  intros _ Hf. pose proof (ffi_format_unknown _ Hf) as Hnone.
  repeat split.
  - unfold sevenzip_ffi.SevenZip.compress. by rewrite Hnone.
  - unfold sevenzip_ffi.compress. by rewrite Hnone.
  - unfold sevenzip_ffi.SevenZip.is_format_supported. by rewrite Hnone.
  - apply (bool_decide_unpack _). vm_compute. exact I.
  - intros known bad [f Hk] _ Hl. unfold sevenzip_ffi.SevenZip.compress.
    by rewrite Hk, (ffi_level_unknown _ Hl).
Qed.

Lemma unknown_names_never_reach_engine_witness :
  sevenzip_ffi.SevenZip.compress (Demo2.ffi_lib 0 0) Demo2.cwd (fun _ _ => true)
    "test_data" "test_archive.7z" "7z" "normal" None []
  = (Raises sevenzip_ffi.AttributeError, [])
  /\ sevenzip_ffi.SevenZip.is_format_supported (Demo2.ffi_lib 0 0) "7z" []
     = (Returns false, []).
Proof.
  assert (Hf : upper "7z" ∉ ffi_format_names)
    by (apply (bool_decide_unpack _); vm_compute; exact I).
  destruct (unknown_names_never_reach_engine (Demo2.ffi_lib 0 0) Demo2.cwd
              (fun _ _ => true) "test_data" "test_archive.7z" "7z" "normal" None []
              eq_refl Hf) as (H1 & _ & H3 & _).
  exact (conj H1 H3).
Defined.

(** *** Result codes in [class SevenZip] *)

Section FfiCheck.
Context (lib : sevenzip_ffi.SevenZip.NativeLib).

Lemma ffi_check_ok (w : list sevenzip_ffi.SevenZip.Event) :
  sevenzip_ffi.SevenZip._check_result lib 0 w = (Returns tt, w).
Proof. reflexivity. Qed.

Lemma ffi_check_cases (r : Z) (w : list sevenzip_ffi.SevenZip.Event) :
  (r = 0 /\ sevenzip_ffi.SevenZip._check_result lib r w = (Returns tt, w))
  \/ (r <> 0
      /\ exists e evs,
           sevenzip_ffi.SevenZip._check_result lib r w = (Raises e, w ++ evs)
           /\ Forall (fun ev => ffi_plain ev = true) evs).
Proof.
  destruct (Z.eqb_spec r 0) as [->|Hr]; [left; by split|].
  right. split; [done|].
  unfold sevenzip_ffi.SevenZip._check_result.
  destruct (Z.eqb_spec r (sevenzip_ffi.SzResult_value sevenzip_ffi.OK)); [done|].
  destruct (sevenzip_ffi.SzResult_of_value r) as [c|].
  - unfold sevenzip_ffi.SevenZip.SevenZipError__init__,
      sevenzip_ffi.SevenZip.decode_char_p, decode_utf8. run.
    destruct (sevenzip_ffi.SevenZip.sz_error_to_string lib w _) as [m|]; simpl;
      [|do 2 eexists; split; [reflexivity|by repeat constructor]].
    destruct (utf8_valid m); simpl;
      [|do 2 eexists; split; [reflexivity|by repeat constructor]].
    destruct (sevenzip_ffi.SevenZip.sz_get_last_error_message lib _) as [d|]; simpl;
      [destruct (utf8_valid d); simpl|];
      do 2 eexists; (split; [by rewrite <- app_assoc|by repeat constructor]).
  - exists (sevenzip_ffi.ValueError r), []. by rewrite app_nil_r.
Qed.

Lemma ffi_check_returns (r : Z) (w w' : list sevenzip_ffi.SevenZip.Event) (u : unit) :
  sevenzip_ffi.SevenZip._check_result lib r w = (Returns u, w') -> r = 0 /\ w' = w.
Proof.
  destruct (ffi_check_cases r w) as [[-> H]|[_ (e & evs & H & _)]]; rewrite H; [|done].
  by intros [= _ <-].
Qed.

Lemma ffi_check_emits (r : Z) :
  emits (fun ev => ffi_handle_event ev = false) (sevenzip_ffi.SevenZip._check_result lib r).
Proof.
  intros w. destruct (ffi_check_cases r w) as [[_ H]|[_ (e & evs & H & F)]]; rewrite H.
  - exists []. by rewrite app_nil_r.
  - exists evs. split; [done|]. eapply Forall_impl; [exact F|].
    intros ev. unfold ffi_plain. by destruct (ffi_handle_event ev).
Qed.

End FfiCheck.

Lemma ffi_check_emits_messages (lib : sevenzip_ffi.SevenZip.NativeLib)
    (P : sevenzip_ffi.SevenZip.Event -> Prop) (r : Z) :
  (forall c, P (sevenzip_ffi.SevenZip.Call_error_to_string c)) ->
  P sevenzip_ffi.SevenZip.Call_get_last_error_message ->
  emits P (sevenzip_ffi.SevenZip._check_result lib r).
Proof.
  intros Hc Hl. unfold sevenzip_ffi.SevenZip._check_result.
  destruct (r =? _); [apply emits_ret|].
  destruct (sevenzip_ffi.SzResult_of_value r); [|apply emits_raise].
  unfold sevenzip_ffi.SevenZip.SevenZipError__init__,
    sevenzip_ffi.SevenZip.decode_char_p, decode_utf8.
  repeat (cbv beta;
          match goal with
          | |- emits _ (bind _ _) => apply emits_bind; [|intros]
          | |- emits _ (call _ _) => apply emits_call; first [apply Hc|exact Hl]
          | |- emits _ (ret _) => apply emits_ret
          | |- emits _ (raise _) => apply emits_raise
          | |- emits _ (match ?x with _ => _ end) => destruct x
          end).
Qed.

Arguments sevenzip_ffi.SevenZip._check_result : simpl never.

Ltac emits_tac lib :=
  repeat (cbv beta zeta;
          match goal with
          | |- emits _ (bind _ _) => apply emits_bind; [|intros]
          | |- emits _ (call _ _) => apply emits_call; reflexivity
          | |- emits _ (ret _) => apply emits_ret
          | |- emits _ (raise _) => apply emits_raise
          | |- emits _ (sevenzip_ffi.SevenZip._check_result _ _) =>
              apply (ffi_check_emits lib)
          | |- emits _ (match ?x with _ => _ end) => destruct x
          end).

(** *** Scoped handles in [class SevenZip] *)

Section Scoped.
Context (lib : sevenzip_ffi.SevenZip.NativeLib) (cwd : pathlib.Path)
  (is_dir : list sevenzip_ffi.SevenZip.Event -> pathlib.Path -> bool).

(** The shape the three scoped functions share: acquire, check, and then
    a body with the release in its [finally]. *)
Lemma scoped_cases {A : Type} (acquire release : Z -> sevenzip_ffi.SevenZip.Event)
    (ev : sevenzip_ffi.SevenZip.Event)
    (answer : list sevenzip_ffi.SevenZip.Event -> Z * Z)
    (body : Z -> sevenzip_ffi.SevenZip.M A) (w : list sevenzip_ffi.SevenZip.Event) :
  (forall h, emits (fun e => ffi_handle_event e = false) (body h)) ->
  let run :=
    bind (call ev answer)
      (fun x => match x with
                | (result, handle) =>
                    bind (sevenzip_ffi.SevenZip._check_result lib result)
                      (fun _ => try_finally (body handle)
                                  (call (release handle) (fun _ => tt)))
                end) w in
  if fst (answer w) =? 0 then
    exists evs,
      run = (fst (body (snd (answer w)) (w ++ [ev])),
             w ++ [ev] ++ evs ++ [release (snd (answer w))])
      /\ snd (body (snd (answer w)) (w ++ [ev])) = (w ++ [ev]) ++ evs
      /\ Forall (fun e => ffi_handle_event e = false) evs
  else
    exists e evs,
      run = (Raises e, w ++ ev :: evs)
      /\ Forall (fun e => ffi_handle_event e = false) evs.
Proof.
  intros Hbody run.
  assert (Hrun : run
                 = bind (sevenzip_ffi.SevenZip._check_result lib (fst (answer w)))
                     (fun _ => try_finally (body (snd (answer w)))
                                 (call (release (snd (answer w))) (fun _ => tt)))
                     (w ++ [ev])).
  { subst run. unfold bind at 1. unfold call at 1. by destruct (answer w). }
  clearbody run. destruct (answer w) as [r h]. simpl in *. subst run. unfold bind.
  destruct (ffi_check_cases lib r (w ++ [ev])) as [[-> H]|[Hr (e & evs & H & F)]];
    rewrite H; simpl.
  - destruct (Hbody h (w ++ [ev])) as (evs & Hw & F).
    exists evs. rewrite try_finally_call, Hw. split; [|done].
    by rewrite <- ?app_assoc.
  - destruct (Z.eqb_spec r 0); [done|]. exists e, evs.
    split; [by rewrite <- ?app_assoc|].
    eapply Forall_impl; [exact F|]. intros x. unfold ffi_plain.
    by destruct (ffi_handle_event x).
Qed.

End Scoped.

(** X16. [SevenZip.compress] destroys the writer it created exactly once, as
    its last native call, however the steps in between end; it creates one
    writer only, and when the engine refuses to create it nothing is
    destroyed.  When [compress] returns, the call before the destruction is
    [sz_writer_finalize]: the archive was committed before the writer went. *)
Theorem compress_destroys_once (lib : sevenzip_ffi.SevenZip.NativeLib)
    (cwd : pathlib.Path)
    (is_dir : list sevenzip_ffi.SevenZip.Event -> pathlib.Path -> bool)
    (source_path archive_path format level : string) (password : option string)
    (w : list sevenzip_ffi.SevenZip.Event)
    (f : sevenzip_ffi.SzFormat) (l : sevenzip_ffi.SzCompressionLevel) :
  sevenzip_ffi.SzFormat_of_name (upper format) = Some f ->
  sevenzip_ffi.SzCompressionLevel_of_name (upper level) = Some l ->
  let a := sevenzip_ffi.SevenZip.absolute_bytes cwd archive_path in
  let create := sevenzip_ffi.SevenZip.Call_writer_create a (sevenzip_ffi.SzFormat_value f) in
  let answer := sevenzip_ffi.SevenZip.sz_writer_create lib w a
                  (sevenzip_ffi.SzFormat_value f) in
  let run := sevenzip_ffi.SevenZip.compress lib cwd is_dir source_path archive_path
               format level password w in
  if fst answer =? 0 then
    exists evs,
      snd run = w ++ [create] ++ evs
                  ++ [sevenzip_ffi.SevenZip.Call_writer_destroy (snd answer)]
      /\ Forall (fun e => ffi_handle_event e = false) evs
      /\ (fst run = Returns tt ->
          exists before,
            snd run = before ++ [sevenzip_ffi.SevenZip.Call_writer_finalize (snd answer);
                                 sevenzip_ffi.SevenZip.Call_writer_destroy (snd answer)])
  else
    exists e evs,
      run = (Raises e, w ++ create :: evs)
      /\ Forall (fun e => ffi_handle_event e = false) evs.
Proof.
  intros Hf Hl a create answer run.
  assert (Hshape :
    exists body,
      run = bind (call create
                    (fun h => sevenzip_ffi.SevenZip.sz_writer_create lib h a
                                (sevenzip_ffi.SzFormat_value f)))
              (fun x => match x with
                        | (result, handle) =>
                            bind (sevenzip_ffi.SevenZip._check_result lib result)
                              (fun _ =>
                                 try_finally (body handle)
                                   (call (sevenzip_ffi.SevenZip.Call_writer_destroy handle)
                                      (fun _ => tt)))
                        end) w
      /\ (forall h, emits (fun e => ffi_handle_event e = false) (body h))
      /\ (forall h w1 w2,
            body h w1 = (Returns tt, w2) ->
            exists before,
              w2 = before ++ [sevenzip_ffi.SevenZip.Call_writer_finalize h])).
  { eexists. split; [|split].
    - subst run. unfold sevenzip_ffi.SevenZip.compress. rewrite Hf, Hl. reflexivity.
    - intros h. emits_tac lib.
    - intros h w1 w2 H. cbv beta zeta in H.
      repeat (apply bind_inv in H; destruct H as (? & ? & ? & H)).
      apply ffi_check_returns in H. destruct H as [_ ->].
      match goal with
      | Hc : call (sevenzip_ffi.SevenZip.Call_writer_finalize _) _ ?s0 = _ |- _ =>
          unfold call in Hc; inversion Hc; subst; by exists s0
      end. }
  destruct Hshape as (body & Hrun & Hemits & Hlast).
  pose proof (scoped_cases lib (fun _ => create) sevenzip_ffi.SevenZip.Call_writer_destroy
                create
                (fun h => sevenzip_ffi.SevenZip.sz_writer_create lib h a
                            (sevenzip_ffi.SzFormat_value f))
                body w Hemits) as Hs.
  cbv beta zeta in Hs. rewrite <- Hrun in Hs. fold answer in Hs.
  destruct (fst answer =? 0).
  - destruct Hs as (evs & Hr & Hw & F). exists evs. rewrite Hr. simpl.
    split; [done|]. split; [done|]. intros Hret.
    destruct (body (snd answer) (w ++ [create])) as [o w2] eqn:Hb. simpl in *.
    subst o. destruct (Hlast _ _ _ Hb) as [before Hbefore].
    exists before.
    trans (((w ++ [create]) ++ evs)
             ++ [sevenzip_ffi.SevenZip.Call_writer_destroy (snd answer)]);
      [by rewrite <- ?app_assoc|].
    by rewrite <- Hw, Hbefore, <- app_assoc.
  - exact Hs.
Qed.

Lemma compress_destroys_once_witness :
  sevenzip_ffi.SzFormat_of_name (upper "zip") = Some sevenzip_ffi.ZIP
  /\ sevenzip_ffi.SzCompressionLevel_of_name (upper "fast") = Some sevenzip_ffi.FAST
  /\ exists evs,
       snd (sevenzip_ffi.SevenZip.compress (Demo2.ffi_lib 0 11) Demo2.cwd
              (fun _ _ => false) "notes.txt" "out.zip" "zip" "fast" (Some "pw") [])
       = [] ++ [sevenzip_ffi.SevenZip.Call_writer_create (encode "/work/out.zip") 2]
            ++ evs ++ [sevenzip_ffi.SevenZip.Call_writer_destroy 7]
       /\ Forall (fun e => ffi_handle_event e = false) evs.
Proof.
  split; [reflexivity|]. split; [reflexivity|].
  destruct (compress_destroys_once (Demo2.ffi_lib 0 11) Demo2.cwd (fun _ _ => false)
              "notes.txt" "out.zip" "zip" "fast" (Some "pw") []
              sevenzip_ffi.ZIP sevenzip_ffi.FAST eq_refl eq_refl) as (evs & H & F & _).
  exists evs. exact (conj H F).
Defined.

(** X17. [SevenZip.extract] closes the archive it opened exactly once, as its
    last native call, whether the password or the extraction is refused or
    not; it opens one archive only, and when the engine refuses to open it
    nothing is closed.  Without a progress callback nothing is ever
    extracted: the call of [sz_archive_extract_all] is refused before it
    reaches the engine, so [extract] never returns, and with no password it
    opens the archive, closes it and raises [ArgumentError].  When [extract]
    returns, a callback was given and the call before the close is
    [sz_archive_extract_all] on that archive, with the absolute destination
    and the callback wrapped. *)
Theorem extract_closes_once (lib : sevenzip_ffi.SevenZip.NativeLib)
    (cwd : pathlib.Path) (archive_path dest_dir : string) (password : option string)
    (progress_callback : option (Z -> Z -> bool))
    (w : list sevenzip_ffi.SevenZip.Event) :
  let a := sevenzip_ffi.SevenZip.absolute_bytes cwd archive_path in
  let d := sevenzip_ffi.SevenZip.absolute_bytes cwd dest_dir in
  let open := sevenzip_ffi.SevenZip.Call_archive_open a in
  let answer := sevenzip_ffi.SevenZip.sz_archive_open lib w a in
  let close := sevenzip_ffi.SevenZip.Call_archive_close (snd answer) in
  let run := sevenzip_ffi.SevenZip.extract lib cwd archive_path dest_dir password
               progress_callback w in
  if fst answer =? 0 then
    exists evs,
      snd run = w ++ [open] ++ evs ++ [close]
      /\ Forall (fun e => ffi_handle_event e = false) evs
      /\ match progress_callback with
         | None =>
             (forall u, fst run <> Returns u)
             /\ Forall (fun e => ffi_is_extraction e = false) evs
             /\ (sevenzip_ffi.SevenZip.nonempty password = None ->
                 run = (Raises sevenzip_ffi.ArgumentError, w ++ [open; close]))
         | Some f =>
             fst run = Returns tt ->
             exists before,
               snd run
               = before ++ [sevenzip_ffi.SevenZip.Call_archive_extract_all (snd answer) d
                              (sevenzip_ffi.SevenZip.wrapper f);
                            close]
         end
  else
    exists e evs,
      run = (Raises e, w ++ open :: evs)
      /\ Forall (fun e => ffi_handle_event e = false) evs.
Proof.
  intros a d open answer close run.
  assert (Hshape :
    exists body,
      run = bind (call open (fun h => sevenzip_ffi.SevenZip.sz_archive_open lib h a))
              (fun x => match x with
                        | (result, handle) =>
                            bind (sevenzip_ffi.SevenZip._check_result lib result)
                              (fun _ =>
                                 try_finally (body handle)
                                   (call (sevenzip_ffi.SevenZip.Call_archive_close handle)
                                      (fun _ => tt)))
                        end) w
      /\ (forall h, emits (fun e => ffi_handle_event e = false) (body h))
      /\ match progress_callback with
         | None =>
             (forall h, emits (fun e => ffi_is_extraction e = false) (body h))
             /\ (forall h w1 w2 u, body h w1 <> (Returns u, w2))
             /\ (sevenzip_ffi.SevenZip.nonempty password = None ->
                 forall h w1, body h w1 = (Raises sevenzip_ffi.ArgumentError, w1))
         | Some f =>
             forall h w1 w2,
               body h w1 = (Returns tt, w2) ->
               exists before,
                 w2 = before ++ [sevenzip_ffi.SevenZip.Call_archive_extract_all h d
                                   (sevenzip_ffi.SevenZip.wrapper f)]
         end).
  { eexists. split; [|split].
    - subst run. unfold sevenzip_ffi.SevenZip.extract. reflexivity.
    - intros h. emits_tac lib.
    - destruct progress_callback as [f|].
      + intros h w1 w2 H. cbv beta zeta in H.
        repeat (apply bind_inv in H; destruct H as (? & ? & ? & H)).
        apply ffi_check_returns in H. destruct H as [_ ->].
        match goal with
        | Hc : call (sevenzip_ffi.SevenZip.Call_archive_extract_all _ _ _) _ ?s0 = _
          |- _ => unfold call in Hc; inversion Hc; subst; by exists s0
        end.
      + split; [|split].
        * intros h. cbv beta.
          repeat (cbv beta zeta;
                  match goal with
                  | |- emits _ (bind _ _) => apply emits_bind; [|intros]
                  | |- emits _ (call _ _) => apply emits_call; reflexivity
                  | |- emits _ (ret _) => apply emits_ret
                  | |- emits _ (raise _) => apply emits_raise
                  | |- emits _ (sevenzip_ffi.SevenZip._check_result _ _) =>
                      apply ffi_check_emits_messages; by simpl
                  | |- emits _ (match ?x with _ => _ end) => destruct x
                  end).
        * intros h w1 w2 u H. cbv beta in H.
          apply bind_inv in H. by destruct H as (? & ? & _ & H).
        * intros Hpw h w1. cbv beta. by rewrite Hpw. }
  destruct Hshape as (body & Hrun & Hemits & Hlast).
  pose proof (scoped_cases lib (fun _ => open) sevenzip_ffi.SevenZip.Call_archive_close
                open (fun h => sevenzip_ffi.SevenZip.sz_archive_open lib h a)
                body w Hemits) as Hs.
  cbv beta zeta in Hs. rewrite <- Hrun in Hs. fold answer in Hs. fold close in Hs.
  destruct (fst answer =? 0); [|exact Hs].
  destruct Hs as (evs & Hr & Hw & F). exists evs. rewrite Hr. simpl.
  split; [done|]. split; [done|].
  destruct (body (snd answer) (w ++ [open])) as [o w2] eqn:Hb. simpl in Hw |- *.
  destruct progress_callback as [f|].
  - intros Hret. subst o. destruct (Hlast _ _ _ Hb) as [before Hbefore].
    exists before.
    trans (((w ++ [open]) ++ evs) ++ [close]); [by rewrite <- ?app_assoc|].
    by rewrite <- Hw, Hbefore, <- app_assoc.
  - destruct Hlast as (Hnone & Hnever & Hplain). split; [|split].
    + intros u ->. by apply (Hnever _ _ _ _ Hb).
    + destruct (Hnone (snd answer) (w ++ [open])) as (evs' & Hw' & F').
      rewrite Hb in Hw'. simpl in Hw'. rewrite Hw in Hw'.
      apply app_inv_head in Hw'. by subst evs'.
    + intros Hpw. rewrite (Hplain Hpw) in Hb. injection Hb as <- <-.
      assert (Hevs : evs = []).
      { apply (app_inv_head (w ++ [open])). by rewrite app_nil_r. }
      subst evs. by rewrite <- ?app_assoc.
Qed.

(** *** Item structures in [list_items] *)

Section FfiListing.
Context (lib : sevenzip_ffi.SevenZip.NativeLib).

Lemma ffi_count_app (p : sevenzip_ffi.SevenZip.Event -> bool)
    (w1 w2 : list sevenzip_ffi.SevenZip.Event) :
  ffi_count p (w1 ++ w2) = (ffi_count p w1 + ffi_count p w2)%nat.
Proof. unfold ffi_count. by rewrite List.filter_app, length_app. Qed.

Lemma ffi_count_plain (p : sevenzip_ffi.SevenZip.Event -> bool)
    (evs : list sevenzip_ffi.SevenZip.Event) :
  (forall e, ffi_plain e = true -> p e = false) ->
  Forall (fun e => ffi_plain e = true) evs -> ffi_count p evs = 0%nat.
Proof.
  intros Hp F. unfold ffi_count. induction F as [|e evs He _ IH]; [done|].
  simpl. by rewrite (Hp e He).
Qed.

Lemma ffi_plain_not_info (e : sevenzip_ffi.SevenZip.Event) :
  ffi_plain e = true -> ffi_is_info e = false.
Proof. by destruct e. Qed.

Lemma ffi_plain_not_free (e : sevenzip_ffi.SevenZip.Event) :
  ffi_plain e = true -> ffi_is_free e = false.
Proof. by destruct e. Qed.

Lemma ffi_plain_not_handle (e : sevenzip_ffi.SevenZip.Event) :
  ffi_plain e = true -> ffi_handle_event e = false.
Proof. by destruct e. Qed.

Lemma cons_split {A : Type} (x y : A) (l pre post : list A) :
  x :: l = pre ++ y :: post ->
  (pre = [] /\ x = y /\ l = post)
  \/ (exists pre', pre = x :: pre' /\ l = pre' ++ y :: post).
Proof.
  destruct pre as [|p pre']; simpl; intros [= -> ->]; [by left|].
  right. by exists pre'.
Qed.

Lemma plain_no_fetch (evs pre post : list sevenzip_ffi.SevenZip.Event) (k j : Z) :
  Forall (fun e => ffi_plain e = true) evs ->
  evs <> pre ++ sevenzip_ffi.SevenZip.Call_archive_get_item_info k j :: post.
Proof.
  intros F ->. apply Forall_app in F. destruct F as [_ F].
  by inversion F.
Qed.

(** The loop of [list_items]: what it adds to the history, and what it
    returns. *)
Lemma fetch_items_cases (h : Z) (n : nat) :
  forall (i : Z) (items : list (gmap string PyValue))
         (w : list sevenzip_ffi.SevenZip.Event),
    exists o evs,
      sevenzip_ffi.SevenZip.fetch_items lib h i n items w = (o, w ++ evs)
      /\ Forall (fun e => ffi_handle_event e = false) evs
      /\ (ffi_count ffi_is_info evs = ffi_count ffi_is_free evs
          \/ ffi_count ffi_is_info evs = S (ffi_count ffi_is_free evs))
      /\ fetches_freed lib h w evs
      /\ (forall r,
            o = Returns r ->
            length r = (length items + n)%nat
            /\ ffi_count ffi_is_info evs = n
            /\ ffi_count ffi_is_free evs = n).
Proof.
  induction n as [|n IH]; intros i items w.
  - exists (Returns items), []. simpl. rewrite app_nil_r.
    split; [done|]. split; [done|]. split; [by left|]. split.
    + intros pre k j post Hsplit. by destruct pre.
    + intros r [= <-]. unfold ffi_count. simpl. lia.
  - cbn [sevenzip_ffi.SevenZip.fetch_items]. unfold bind at 1. unfold call at 1.
    destruct (sevenzip_ffi.SevenZip.sz_archive_get_item_info lib w h i) as [res info]
      eqn:Hanswer.
    set (fetch := sevenzip_ffi.SevenZip.Call_archive_get_item_info h i).
    set (free := sevenzip_ffi.SevenZip.Call_item_info_free info).
    unfold bind at 1.
    destruct (ffi_check_cases lib res (w ++ [fetch])) as [[-> H]|[Hres (e & evs & H & F)]];
      rewrite H.
    + unfold bind at 1. rewrite try_finally_call.
      assert (Hdict :
        (exists d, sevenzip_ffi.SevenZip.item_dict info (w ++ [fetch])
                   = (Returns d, w ++ [fetch]))
        \/ (exists e, sevenzip_ffi.SevenZip.item_dict info (w ++ [fetch])
                      = (Raises e, w ++ [fetch]))).
      { unfold sevenzip_ffi.SevenZip.item_dict, sevenzip_ffi.SevenZip.decode_char_p,
          decode_utf8, bind.
        destruct (sevenzip_ffi._SzItemInfo.path info) as [b|]; [|right; by eexists].
        destruct (utf8_valid b); [left|right]; by eexists. }
      unfold bind.
      destruct Hdict as [[d ->]|[e ->]]; simpl.
      * match goal with
        | |- context [sevenzip_ffi.SevenZip.fetch_items lib h (i + 1) n ?its ?w1] =>
            destruct (IH (i + 1) its w1) as (o & evs & Hw & F & Hc & Hfreed & Hret)
        end.
        exists o, (fetch :: free :: evs). rewrite Hw, <- !app_assoc.
        split; [done|]. split; [by repeat constructor|].
        change (fetch :: free :: evs) with ([fetch; free] ++ evs).
        rewrite !ffi_count_app.
        change (ffi_count ffi_is_info [fetch; free]) with 1%nat.
        change (ffi_count ffi_is_free [fetch; free]) with 1%nat.
        split; [lia|]. split.
        -- intros pre k j post Hsplit. simpl in Hsplit.
           apply cons_split in Hsplit.
           destruct Hsplit as [(-> & [= <- <-] & <-)|(pre1 & -> & Hsplit)].
           ++ split; [done|]. rewrite app_nil_r, Hanswer. simpl. by eexists.
           ++ apply cons_split in Hsplit.
              destruct Hsplit as [(_ & Hno & _)|(pre2 & -> & Hsplit)]; [done|].
              destruct (Hfreed pre2 k j post Hsplit) as [-> Hnext].
              split; [done|].
              by replace (w ++ fetch :: free :: pre2)
                with (((w ++ [fetch]) ++ [free]) ++ pre2)
                by (by rewrite <- !app_assoc).
        -- intros r Hr. destruct (Hret r Hr) as (Hl & Hi & Hfree).
           rewrite length_app in Hl. simpl in Hl. lia.
      * eexists _, [fetch; free]. rewrite <- app_assoc.
        split; [done|]. split; [by repeat constructor|]. split; [by left|].
        split; [|done].
        intros pre k j post Hsplit. apply cons_split in Hsplit.
        destruct Hsplit as [(-> & [= <- <-] & <-)|(pre1 & -> & Hsplit)].
        -- split; [done|]. rewrite app_nil_r, Hanswer. simpl. by eexists.
        -- apply cons_split in Hsplit.
           destruct Hsplit as [(_ & Hno & _)|(pre2 & -> & Hsplit)]; [done|].
           by destruct pre2.
    + simpl. eexists _, (fetch :: evs). rewrite <- app_assoc.
      split; [done|]. split.
      { constructor; [done|]. eapply Forall_impl; [exact F|].
        apply ffi_plain_not_handle. }
      change (fetch :: evs) with ([fetch] ++ evs). rewrite !ffi_count_app.
      rewrite (ffi_count_plain ffi_is_info evs ffi_plain_not_info F),
        (ffi_count_plain ffi_is_free evs ffi_plain_not_free F).
      split; [by right|]. split; [|done].
      intros pre k j post Hsplit. simpl in Hsplit. apply cons_split in Hsplit.
      destruct Hsplit as [(-> & [= <- <-] & <-)|(pre1 & -> & Hsplit)].
      * split; [done|]. rewrite app_nil_r, Hanswer. simpl.
        by destruct (Z.eqb_spec res 0).
      * by destruct (plain_no_fetch evs pre1 post k j F).
Qed.

(** The body of the [try] of [list_items]. *)
Lemma list_body_cases (h : Z) (w : list sevenzip_ffi.SevenZip.Event) :
  exists o evs,
    bind (call (sevenzip_ffi.SevenZip.Call_archive_get_item_count h)
            (fun hist => sevenzip_ffi.SevenZip.sz_archive_get_item_count lib hist h))
      (fun x => match x with
                | (result, count) =>
                    bind (sevenzip_ffi.SevenZip._check_result lib result)
                      (fun _ => sevenzip_ffi.SevenZip.fetch_items lib h 0
                                  (Z.to_nat count) [])
                end) w
    = (o, w ++ evs)
    /\ Forall (fun e => ffi_handle_event e = false) evs
    /\ (ffi_count ffi_is_info evs = ffi_count ffi_is_free evs
        \/ ffi_count ffi_is_info evs = S (ffi_count ffi_is_free evs))
    /\ fetches_freed lib h w evs
    /\ (forall items,
          o = Returns items ->
          let count := snd (sevenzip_ffi.SevenZip.sz_archive_get_item_count lib w h) in
          length items = Z.to_nat count
          /\ ffi_count ffi_is_info evs = Z.to_nat count
          /\ ffi_count ffi_is_free evs = Z.to_nat count).
Proof.
  unfold bind at 1. unfold call at 1.
  destruct (sevenzip_ffi.SevenZip.sz_archive_get_item_count lib w h) as [res count].
  set (ask := sevenzip_ffi.SevenZip.Call_archive_get_item_count h).
  unfold bind at 1.
  destruct (ffi_check_cases lib res (w ++ [ask])) as [[-> H]|[_ (e & evs & H & F)]];
    rewrite H.
  - destruct (fetch_items_cases h (Z.to_nat count) 0 [] (w ++ [ask]))
      as (o & evs & Hw & F & Hc & Hfreed & Hret).
    exists o, (ask :: evs). rewrite Hw, <- app_assoc.
    split; [done|]. split; [by constructor|].
    change (ask :: evs) with ([ask] ++ evs). rewrite !ffi_count_app.
    change (ffi_count ffi_is_info [ask]) with 0%nat.
    change (ffi_count ffi_is_free [ask]) with 0%nat.
    split; [exact Hc|]. split; [|intros items Hi; simpl; exact (Hret items Hi)].
    intros pre k j post Hsplit. simpl in Hsplit. apply cons_split in Hsplit.
    destruct Hsplit as [(_ & Hno & _)|(pre1 & -> & Hsplit)]; [done|].
    destruct (Hfreed pre1 k j post Hsplit) as [-> Hnext]. split; [done|].
    by replace (w ++ ask :: pre1) with ((w ++ [ask]) ++ pre1)
      by (by rewrite <- app_assoc).
  - eexists _, (ask :: evs). rewrite <- app_assoc.
    split; [done|]. split.
    { constructor; [done|]. eapply Forall_impl; [exact F|].
      apply ffi_plain_not_handle. }
    change (ask :: evs) with ([ask] ++ evs). rewrite !ffi_count_app.
    rewrite (ffi_count_plain ffi_is_info evs ffi_plain_not_info F),
      (ffi_count_plain ffi_is_free evs ffi_plain_not_free F).
    split; [by left|]. split; [|done].
    intros pre k j post Hsplit. simpl in Hsplit. apply cons_split in Hsplit.
    destruct Hsplit as [(_ & Hno & _)|(pre1 & -> & Hsplit)]; [done|].
    by destruct (plain_no_fetch evs pre1 post k j F).
Qed.

End FfiListing.

(** X18. [SevenZip.list_items] closes the archive it opened exactly once, as
    its last native call, and closes nothing when the engine refuses to open.
    Every fetch of an item structure that the engine accepts is followed at
    once by [sz_item_info_free] on the structure it gave, whether the item
    could be built from it or not (a null path, a path that is no UTF-8);
    after a fetch the engine refuses, only the error texts are asked for.
    So frees and fetches differ by at most the refused fetch.  When
    [list_items] returns, it returns as many items as the engine counted,
    and it fetched and freed that many structures. *)
Theorem list_items_releases (lib : sevenzip_ffi.SevenZip.NativeLib)
    (cwd : pathlib.Path) (archive_path : string)
    (w : list sevenzip_ffi.SevenZip.Event) :
  let a := sevenzip_ffi.SevenZip.absolute_bytes cwd archive_path in
  let open := sevenzip_ffi.SevenZip.Call_archive_open a in
  let answer := sevenzip_ffi.SevenZip.sz_archive_open lib w a in
  let run := sevenzip_ffi.SevenZip.list_items lib cwd archive_path w in
  if fst answer =? 0 then
    exists evs,
      snd run = w ++ [open] ++ evs
                  ++ [sevenzip_ffi.SevenZip.Call_archive_close (snd answer)]
      /\ Forall (fun e => ffi_handle_event e = false) evs
      /\ fetches_freed lib (snd answer) (w ++ [open]) evs
      /\ (ffi_count ffi_is_info evs = ffi_count ffi_is_free evs
          \/ ffi_count ffi_is_info evs = S (ffi_count ffi_is_free evs))
      /\ (forall items,
            fst run = Returns items ->
            let count :=
              snd (sevenzip_ffi.SevenZip.sz_archive_get_item_count lib (w ++ [open])
                     (snd answer)) in
            length items = Z.to_nat count
            /\ ffi_count ffi_is_info evs = Z.to_nat count
            /\ ffi_count ffi_is_free evs = Z.to_nat count)
  else
    exists e evs,
      run = (Raises e, w ++ open :: evs)
      /\ Forall (fun e => ffi_handle_event e = false) evs.
Proof.
  intros a open answer run.
  set (body := fun h : Z =>
    bind (call (sevenzip_ffi.SevenZip.Call_archive_get_item_count h)
            (fun hist => sevenzip_ffi.SevenZip.sz_archive_get_item_count lib hist h))
      (fun x => match x with
                | (result, count) =>
                    bind (sevenzip_ffi.SevenZip._check_result lib result)
                      (fun _ => sevenzip_ffi.SevenZip.fetch_items lib h 0
                                  (Z.to_nat count) [])
                end)).
  assert (Hemits : forall h, emits (fun e => ffi_handle_event e = false) (body h)).
  { intros h w1. destruct (list_body_cases lib h w1) as (o & evs & Hb & F & _).
    exists evs. unfold body. by rewrite Hb. }
  pose proof (scoped_cases lib (fun _ => open) sevenzip_ffi.SevenZip.Call_archive_close
                open (fun h => sevenzip_ffi.SevenZip.sz_archive_open lib h a)
                body w Hemits) as Hs.
  cbv beta zeta in Hs.
  change (bind _ _ w) with run in Hs. fold answer in Hs.
  destruct (fst answer =? 0); [|exact Hs].
  destruct Hs as (evs & Hr & Hw & _).
  destruct (list_body_cases lib (snd answer) (w ++ [open]))
    as (o & evs' & Hb & F & Hc & Hfreed & Hret).
  fold (body (snd answer)) in Hb. rewrite Hb in Hr, Hw. simpl in Hr, Hw.
  apply app_inv_head in Hw. subst evs'.
  exists evs. rewrite Hr. simpl. split; [done|]. split; [done|]. split; [done|].
  split; [done|]. exact Hret.
Qed.

(** A structure with a null path is freed although no item can be built from
    it. *)
Lemma list_items_releases_witness :
  sevenzip_ffi.SevenZip.list_items Demo2.nameless Demo2.cwd "a.7z" []
  = (Raises sevenzip_ffi.AttributeError,
     [sevenzip_ffi.SevenZip.Call_archive_open (encode "/work/a.7z");
      sevenzip_ffi.SevenZip.Call_archive_get_item_count 7;
      sevenzip_ffi.SevenZip.Call_archive_get_item_info 7 0;
      sevenzip_ffi.SevenZip.Call_item_info_free Demo2.nameless_info;
      sevenzip_ffi.SevenZip.Call_archive_close 7])
  /\ exists evs,
       snd (sevenzip_ffi.SevenZip.list_items Demo2.nameless Demo2.cwd "a.7z" [])
       = [] ++ [sevenzip_ffi.SevenZip.Call_archive_open (encode "/work/a.7z")]
            ++ evs ++ [sevenzip_ffi.SevenZip.Call_archive_close 7]
       /\ fetches_freed Demo2.nameless 7
            ([] ++ [sevenzip_ffi.SevenZip.Call_archive_open (encode "/work/a.7z")]) evs.
Proof.
  split; [reflexivity|].
  destruct (list_items_releases Demo2.nameless Demo2.cwd "a.7z" [])
    as (evs & Hw & _ & Hfreed & _).
  exists evs. exact (conj Hw Hfreed).
Defined.

(** *** The handle of [get_archive_info] *)

(** X19. [get_archive_info] closes the archive it opened exactly once, as its
    last native call, also when reading the summary fails or the summary
    names a format the enumeration does not have; when the engine refuses to
    open, nothing is closed.  When it returns a dictionary, the one call
    between the open and the close is [sz_archive_get_info]. *)
Theorem get_archive_info_closes_once (lib : sevenzip_ffi.NativeLib)
    (cwd : pathlib.Path) (archive_path : string) (w : list sevenzip_ffi.Event) :
  let a := encode (pathlib.to_str (pathlib.absolute cwd (pathlib.of_str archive_path))) in
  let open := sevenzip_ffi.Call_archive_open a in
  let answer := sevenzip_ffi.sz_archive_open lib w a in
  if fst answer =? 0 then
    exists o evs,
      sevenzip_ffi.get_archive_info lib cwd archive_path w
      = (o, w ++ [open] ++ evs ++ [sevenzip_ffi.Call_archive_close (snd answer)])
      /\ Forall (fun e => info_handle_event e = false) evs
      /\ (forall d, o = Returns d ->
                    evs = [sevenzip_ffi.Call_archive_get_info (snd answer)])
  else
    exists e evs,
      sevenzip_ffi.get_archive_info lib cwd archive_path w
      = (Raises e, w ++ open :: evs)
      /\ Forall (fun e => info_handle_event e = false) evs.
Proof.
  intros a open answer.
  assert (Hrun : exists body,
            sevenzip_ffi.get_archive_info lib cwd archive_path w
            = bind (sevenzip_ffi._check_result lib (fst answer))
                (fun _ => try_finally (body (snd answer))
                            (call (sevenzip_ffi.Call_archive_close (snd answer))
                               (fun _ => tt)))
                (w ++ [open])
            /\ forall h w1,
                 exists o evs,
                   body h w1 = (o, w1 ++ evs)
                   /\ Forall (fun e => info_handle_event e = false) evs
                   /\ (forall d, o = Returns d ->
                                 evs = [sevenzip_ffi.Call_archive_get_info h])).
  { eexists (fun h => bind (call (sevenzip_ffi.Call_archive_get_info h)
                              (fun hist => sevenzip_ffi.sz_archive_get_info lib hist h))
                        (fun x => match x with
                                  | (result, info) =>
                                      bind (sevenzip_ffi._check_result lib result)
                                        (fun _ => sevenzip_ffi.archive_info_dict info)
                                  end)).
    split.
    - unfold sevenzip_ffi.get_archive_info. fold a. fold open.
      unfold bind at 1. unfold call at 1. fold answer. by destruct answer.
    - intros h w1. set (ask := sevenzip_ffi.Call_archive_get_info h).
      unfold bind at 1. unfold call at 1.
      destruct (sevenzip_ffi.sz_archive_get_info lib w1 h) as [r' info].
      unfold bind.
      destruct (info_check_cases lib r' (w1 ++ [ask]))
        as [[-> H']|[Hr' (e & evs & H' & F)]]; rewrite H'.
      + pose proof (archive_info_dict_spec info (w1 ++ [ask])) as Hd.
        destruct (sevenzip_ffi.archive_info_dict info _) as [[d|e] w3];
          destruct Hd as [-> _]; eexists _, [ask];
          (split; [done|]); (split; [by repeat constructor|done]).
      + eexists _, (ask :: evs). rewrite <- !app_assoc.
        split; [done|]. split; [by constructor|done]. }
  destruct Hrun as (body & -> & Hbody).
  destruct answer as [r h]. simpl.
  destruct (info_check_cases lib r (w ++ [open])) as [[-> H]|[Hr (e & evs & H & F)]].
  - simpl. unfold bind. rewrite H. rewrite try_finally_call.
    destruct (Hbody h (w ++ [open])) as (o & evs & -> & F & Hret). simpl.
    exists o, evs. rewrite <- !app_assoc. split; [done|]. by split.
  - destruct (Z.eqb_spec r 0); [done|]. unfold bind. rewrite H.
    exists e, evs. split; [by rewrite <- ?app_assoc|done].
Qed.

(** *** What [_check_result] of [sevenzip_ffi.py] raises *)

Lemma ffi_SzResult_of_value_sound (r : Z) (c : sevenzip_ffi.SzResult) :
  sevenzip_ffi.SzResult_of_value r = Some c -> sevenzip_ffi.SzResult_value c = r.
Proof.
  unfold sevenzip_ffi.SzResult_of_value. intros H.
  apply List.find_some in H. destruct H as [_ H]. by apply Z.eqb_eq in H.
Qed.

Lemma ffi_SzResult_of_value_range (r : Z) :
  0 <= r <= 14 <-> exists c, sevenzip_ffi.SzResult_of_value r = Some c.
Proof.
  split.
  - intros Hr.
    assert (Hc : r = 0 \/ r = 1 \/ r = 2 \/ r = 3 \/ r = 4 \/ r = 5 \/ r = 6 \/ r = 7
                 \/ r = 8 \/ r = 9 \/ r = 10 \/ r = 11 \/ r = 12 \/ r = 13 \/ r = 14)
      by lia.
    repeat (destruct Hc as [->|Hc]; [eexists; reflexivity|]).
    subst. eexists. reflexivity.
  - intros [c Hc]. apply ffi_SzResult_of_value_sound in Hc. subst r. by destruct c.
Qed.

(** X20. [_check_result] of [sevenzip_ffi.py] never lets a result other than 0
    pass.  For a result between 1 and 14 it asks the engine for the text of
    the code and then for the last message, and raises a [SevenZipError] with
    the member of that value and the text, followed by a colon and the
    message when the message is not empty.  The error is lost when the
    engine's answers cannot be used: a null pointer gives an
    [AttributeError], bytes that are no UTF-8 give a [UnicodeDecodeError],
    and when the text of the code fails either way the last message is not
    asked for.  Any other result ends in a [ValueError] with no request to
    the engine. *)
Theorem ffi_check_result_reports (lib : sevenzip_ffi.SevenZip.NativeLib) (r : Z)
    (w : list sevenzip_ffi.SevenZip.Event) :
  r <> 0 ->
  let ask := sevenzip_ffi.SevenZip.Call_error_to_string r in
  let last := sevenzip_ffi.SevenZip.Call_get_last_error_message in
  let run := sevenzip_ffi.SevenZip._check_result lib r w in
  (0 <= r <= 14 ->
   exists c,
     sevenzip_ffi.SzResult_value c = r
     /\ match sevenzip_ffi.SevenZip.sz_error_to_string lib w r,
              sevenzip_ffi.SevenZip.sz_get_last_error_message lib (w ++ [ask]) with
        | Some text, Some detail =>
            if utf8_valid text then
              if utf8_valid detail then
                run = (Raises (sevenzip_ffi.SevenZipError c
                                 (if String.eqb (decode detail) "" then decode text
                                  else decode text +:+ ": " +:+ decode detail)),
                       w ++ [ask; last])
              else run = (Raises sevenzip_ffi.UnicodeDecodeError, w ++ [ask; last])
            else run = (Raises sevenzip_ffi.UnicodeDecodeError, w ++ [ask])
        | Some text, None =>
            if utf8_valid text
            then run = (Raises sevenzip_ffi.AttributeError, w ++ [ask; last])
            else run = (Raises sevenzip_ffi.UnicodeDecodeError, w ++ [ask])
        | None, _ => run = (Raises sevenzip_ffi.AttributeError, w ++ [ask])
        end)
  /\ (~ 0 <= r <= 14 -> run = (Raises (sevenzip_ffi.ValueError r), w)).
Proof.
  intros Hr ask last run. subst run. unfold sevenzip_ffi.SevenZip._check_result.
  destruct (Z.eqb_spec r (sevenzip_ffi.SzResult_value sevenzip_ffi.OK)) as [E|_];
    [simpl in E; lia|].
  destruct (sevenzip_ffi.SzResult_of_value r) as [c|] eqn:Hc; split.
  - intros _. exists c. split; [by apply ffi_SzResult_of_value_sound|].
    apply ffi_SzResult_of_value_sound in Hc. subst r.
    unfold sevenzip_ffi.SevenZip.SevenZipError__init__,
      sevenzip_ffi.SevenZip.decode_char_p, decode_utf8. run. fold ask.
    destruct (sevenzip_ffi.SevenZip.sz_error_to_string lib w _) as [text|]; simpl;
      [|done].
    destruct (utf8_valid text); simpl;
      [|by destruct (sevenzip_ffi.SevenZip.sz_get_last_error_message lib _)].
    destruct (sevenzip_ffi.SevenZip.sz_get_last_error_message lib _) as [detail|];
      simpl; [|by rewrite <- app_assoc].
    destruct (utf8_valid detail); simpl; by rewrite <- app_assoc.
  - intros Hout. destruct Hout. apply ffi_SzResult_of_value_range. eauto.
  - intros Hin. apply ffi_SzResult_of_value_range in Hin. rewrite Hc in Hin.
    by destruct Hin.
  - done.
Qed.

Lemma ffi_check_result_reports_witness :
  sevenzip_ffi.SevenZip._check_result (Demo2.ffi_lib 0 0) 99 []
  = (Raises (sevenzip_ffi.ValueError 99), [])
  /\ sevenzip_ffi.SevenZip._check_result (Demo2.ffi_lib 0 0) 11 []
     = (Raises (sevenzip_ffi.SevenZipError sevenzip_ffi.DISK_FULL "error"),
        [sevenzip_ffi.SevenZip.Call_error_to_string 11;
         sevenzip_ffi.SevenZip.Call_get_last_error_message]).
Proof.
  assert (H99 : 99 <> 0) by lia. assert (H11 : 11 <> 0) by lia.
  destruct (ffi_check_result_reports (Demo2.ffi_lib 0 0) 99 [] H99) as [_ Hout].
  destruct (ffi_check_result_reports (Demo2.ffi_lib 0 0) 11 [] H11) as [Hin _].
  split; [apply Hout; lia|].
  destruct Hin as (c & Hc & Hrun); [lia|].
  destruct c; try discriminate Hc. exact Hrun.
Defined.

(** *** The paths handed to the engine *)

Lemma split_sep_free (s : string) :
  Forall (fun x => no_sep x = true) (pathlib.split s).
Proof.
  induction s as [|c r IH]; simpl; [by repeat constructor|].
  destruct (Ascii.eqb c "/") eqn:Hc; [by constructor|].
  destruct (pathlib.split r) as [|x xs]; [by repeat constructor; simpl; rewrite Hc|].
  inversion IH as [|? ? Hx Hxs]; subst. constructor; [|done].
  simpl. by rewrite Hc, Hx.
Qed.

Lemma components_ok (rel : string) :
  Forall (fun x => pathlib.is_component x = true /\ no_sep x = true)
    (pathlib.components rel).
Proof.
  apply List.Forall_forall. intros x Hx. unfold pathlib.components in Hx.
  apply List.filter_In in Hx. destruct Hx as [Hin Hc]. split; [done|].
  pose proof (split_sep_free rel) as F.
  by apply (proj1 (List.Forall_forall _ _) F).
Qed.

Lemma splitroot_one (c : ascii) (r : string) :
  c <> "/"%char -> pathlib.splitroot (String "/" (String c r)) = ("/", String c r).
Proof.
  intros Hc. destruct c as [[] [] [] [] [] [] [] []]; try reflexivity.
  by destruct Hc.
Qed.

Lemma splitroot_two (c : ascii) (r : string) :
  c <> "/"%char ->
  pathlib.splitroot (String "/" (String "/" (String c r))) = ("//", String c r).
Proof.
  intros Hc. destruct c as [[] [] [] [] [] [] [] []]; try reflexivity.
  by destruct Hc.
Qed.

Lemma splitroot_root (s : string) :
  fst (pathlib.splitroot s) = ""
  \/ fst (pathlib.splitroot s) = "/" \/ fst (pathlib.splitroot s) = "//".
Proof.
  destruct s as [|c1 s1]; [by left|].
  destruct (decide (c1 = "/"%char)) as [->|H1];
    [|rewrite splitroot_relative by done; by left].
  destruct s1 as [|c2 s2]; [right; by left|].
  destruct (decide (c2 = "/"%char)) as [->|H2];
    [|rewrite splitroot_one by done; right; by left].
  destruct s2 as [|c3 s3]; [right; by right|].
  destruct (decide (c3 = "/"%char)) as [->|H3]; [right; by left|].
  rewrite splitroot_two by done. right; by right.
Qed.

Lemma of_str_ok (s : string) : path_ok (pathlib.of_str s).
Proof.
  split; [|rewrite tail_of_str; apply components_ok].
  pose proof (splitroot_root s) as H. unfold pathlib.of_str.
  by destruct (pathlib.splitroot s).
Qed.

Lemma absolute_ok (cwd p : pathlib.Path) :
  path_ok cwd -> path_ok p -> path_ok (pathlib.absolute cwd p).
Proof.
  intros [Hr Ht] [Hr' Ht']. unfold pathlib.absolute.
  destruct (String.eqb (pathlib.root p) ""); [|done].
  split; [done|]. simpl. by apply Forall_app.
Qed.

Lemma join_sep_cons (x y : string) (l : list string) :
  pathlib.join_sep (x :: y :: l) = x +:+ String "/" (pathlib.join_sep (y :: l)).
Proof. reflexivity. Qed.

Lemma components_join_sep (l : list string) :
  Forall (fun x => pathlib.is_component x = true /\ no_sep x = true) l ->
  pathlib.components (pathlib.join_sep l) = l.
Proof.
  induction l as [|x [|y l] IH]; intros F; [done| |].
  - inversion F as [|? ? [Hc Hs] _]; subst. simpl. unfold pathlib.components.
    rewrite (split_no_sep x Hs). simpl. by rewrite Hc.
  - inversion F as [|? ? [Hc Hs] F']; subst. rewrite join_sep_cons.
    unfold pathlib.components. rewrite split_app_sep, List.filter_app.
    rewrite (split_no_sep x Hs). simpl List.filter at 1. rewrite Hc.
    fold (pathlib.components (pathlib.join_sep (y :: l))). by rewrite (IH F').
Qed.

Lemma join_sep_head (x : string) (l : list string) :
  pathlib.is_component x = true -> no_sep x = true ->
  exists c r, pathlib.join_sep (x :: l) = String c r /\ c <> "/"%char.
Proof.
  intros Hc Hs. destruct x as [|c r]; [done|]. simpl in Hs.
  destruct (Ascii.eqb_spec c "/") as [|Hne]; [done|].
  destruct l as [|y l]; [by exists c, r|].
  rewrite join_sep_cons. simpl. eauto.
Qed.

(** [Path(str(p))] is [p]. *)
Lemma of_str_to_str (p : pathlib.Path) :
  path_ok p -> pathlib.of_str (pathlib.to_str p) = p.
Proof.
  destruct p as [root tail]. intros [Hr Ht]. simpl in Hr, Ht.
  unfold pathlib.to_str. simpl.
  destruct tail as [|x l].
  - by destruct Hr as [->|[->| ->]].
  - inversion Ht as [|? ? [Hc Hs] _]; subst.
    destruct (join_sep_head x l Hc Hs) as (c & r & Hj & Hne).
    pose proof (components_join_sep (x :: l) Ht) as Hcomp. rewrite Hj in Hcomp.
    destruct Hr as [->|[->| ->]]; simpl String.eqb; cbv iota; rewrite Hj.
    + unfold pathlib.of_str. rewrite (splitroot_relative c r Hne). by rewrite Hcomp.
    + change ("/" +:+ String c r) with (String "/" (String c r)).
      unfold pathlib.of_str. rewrite (splitroot_one c r Hne). by rewrite Hcomp.
    + change ("//" +:+ String c r) with (String "/" (String "/" (String c r))).
      unfold pathlib.of_str. rewrite (splitroot_two c r Hne). by rewrite Hcomp.
Qed.

(** X21. The paths [class SevenZip] hands to the engine are absolute, and
    making them absolute again changes nothing.  [compress] tests for a
    directory the very path it then adds: the path it reads back from the
    bytes is the absolute source path, the engine gets the text of that path
    with no archive path, and a directory is added recursively. *)
Theorem compress_tests_what_it_adds (lib : sevenzip_ffi.SevenZip.NativeLib)
    (cwd : pathlib.Path)
    (is_dir : list sevenzip_ffi.SevenZip.Event -> pathlib.Path -> bool)
    (source_path archive_path format level : string) (password : option string) :
  path_ok cwd ->
  pathlib.root cwd <> "" ->
  let p := pathlib.absolute cwd (pathlib.of_str source_path) in
  let b := sevenzip_ffi.SevenZip.absolute_bytes cwd source_path in
  emits (names_source p)
    (sevenzip_ffi.SevenZip.compress lib cwd is_dir source_path archive_path format level
       password)
  /\ pathlib.of_str (decode b) = p
  /\ sevenzip_ffi.SevenZip.absolute_bytes cwd (decode b) = b
  /\ exists rest, decode b = String "/" rest.
Proof.
  intros Hcwd Habs p b.
  assert (Hp : path_ok p) by (apply absolute_ok; [done|apply of_str_ok]).
  assert (Hback : pathlib.of_str (decode b) = p).
  { unfold b, sevenzip_ffi.SevenZip.absolute_bytes, decode, encode.
    rewrite string_of_list_byte_of_string. by apply of_str_to_str. }
  assert (Hroot : pathlib.root p <> "").
  { unfold p, pathlib.absolute.
    destruct (String.eqb_spec (pathlib.root (pathlib.of_str source_path)) "");
      done. }
  split; [|split; [done|split]].
  - unfold sevenzip_ffi.SevenZip.compress. fold b.
    repeat (cbv beta zeta;
            match goal with
            | |- emits _ (bind _ _) => apply emits_bind; [|intros]
            | |- emits _ (try_finally _ _) => apply emits_try_finally
            | |- emits _ (call (sevenzip_ffi.SevenZip.Fs_is_dir _) _) =>
                apply emits_call; exact Hback
            | |- emits _ (call _ _) => apply emits_call; by simpl
            | |- emits _ (ret _) => apply emits_ret
            | |- emits _ (raise _) => apply emits_raise
            | |- emits _ (sevenzip_ffi.SevenZip._check_result _ _) =>
                apply ffi_check_emits_messages; by simpl
            | |- emits _ (match ?x with _ => _ end) => destruct x
            end).
  - unfold sevenzip_ffi.SevenZip.absolute_bytes at 1. rewrite Hback.
    unfold pathlib.absolute at 1.
    by destruct (String.eqb_spec (pathlib.root p) "").
  - unfold b, sevenzip_ffi.SevenZip.absolute_bytes, decode, encode.
    rewrite string_of_list_byte_of_string. fold p. unfold pathlib.to_str.
    destruct (String.eqb_spec (pathlib.root p) ""); [done|].
    destruct Hp as [[Hr|[Hr|Hr]] _]; [done| |]; rewrite Hr; simpl; eauto.
Qed.

Lemma compress_tests_what_it_adds_witness :
  pathlib.of_str (decode (sevenzip_ffi.SevenZip.absolute_bytes Demo2.cwd "docs/./a.txt"))
  = pathlib.absolute Demo2.cwd (pathlib.of_str "docs/./a.txt")
  /\ exists rest,
       decode (sevenzip_ffi.SevenZip.absolute_bytes Demo2.cwd "docs/./a.txt")
       = String "/" rest.
Proof.
  assert (Hok : path_ok Demo2.cwd).
  { split; [right; left; reflexivity|]. by repeat constructor. }
  assert (Habs : pathlib.root Demo2.cwd <> "") by done.
  destruct (compress_tests_what_it_adds (Demo2.ffi_lib 0 0) Demo2.cwd (fun _ _ => false)
              "docs/./a.txt" "out.7z" "sevenzip" "normal" None Hok Habs)
    as (_ & Hback & _ & Hslash).
  exact (conj Hback Hslash).
Defined.

(** *** Objects in use *)

(** X22. A call the engine refuses costs the object nothing.  Over any
    sequence of queries on an archive ([item_count], [get_item_info],
    [extract_to_memory], [__len__], an iteration driven to its end or to
    its first error) and over any sequence of additions and settings on a
    writer ([add_file], [add_directory], [add_memory], [set_password],
    [set_compression_level]), whatever the engine answers and whatever is
    raised on the way, the object keeps its handle and its state, and no
    [sz_archive_close], [sz_writer_finalize] or [sz_writer_cancel] is made. *)
Theorem engine_refusals_keep_the_object (lib : sevenzip.NativeLib)
    (host : sevenzip.Host) (cs : list ArchiveCall) (ws : list WriterCall)
    (a : sevenzip.Archive.t * sevenzip.World)
    (s : sevenzip.Writer.t * sevenzip.World) :
  forallb is_query cs = true ->
  forallb is_addition ws = true ->
  steady a (archive_session lib host cs a) /\ steady s (writer_session lib ws s).
Proof.
  intros Hcs Hws. split.
  - revert a. induction cs as [|c cs IH]; intros a; [apply steady_refl|].
    simpl in Hcs. apply andb_prop in Hcs. destruct Hcs as [Hc Hcs].
    simpl. eapply steady_trans; [|apply (IH Hcs)].
    destruct c; try done; simpl.
    + apply item_count_steady.
    + apply get_item_info_steady.
    + apply extract_to_memory_steady.
    + apply item_count_steady.
    + apply yielded_steady.
  - revert s. induction ws as [|c ws IH]; intros s; [apply steady_refl|].
    simpl in Hws. apply andb_prop in Hws. destruct Hws as [Hc Hws].
    simpl. eapply steady_trans; [|apply (IH Hws)].
    destruct c; try done; simpl.
    + apply add_file_steady.
    + apply add_directory_steady.
    + apply add_memory_steady.
    + apply set_password_steady.
    + apply set_compression_level_steady.
Qed.

Lemma engine_refusals_keep_the_object_witness :
  steady (Demo.opened, [])
    (archive_session Demo2.refusing (Demo.host [])
       [Archive_item_count; Archive_get_item_info 0; Archive_extract_to_memory 0]
       (Demo.opened, []))
  /\ steady (Demo.fresh, [])
       (writer_session Demo2.refusing
          [Writer_add_file (inl "a.txt") None; Writer_set_password "pw"]
          (Demo.fresh, [])).
Proof.
  exact (engine_refusals_keep_the_object Demo2.refusing (Demo.host [])
           [Archive_item_count; Archive_get_item_info 0; Archive_extract_to_memory 0]
           [Writer_add_file (inl "a.txt") None; Writer_set_password "pw"]
           (Demo.opened, []) (Demo.fresh, []) eq_refl eq_refl).
Defined.
